(** * MRP Climbing Scorecard Generator: a shallow embedding of
      [scorecard-generator.js] and the properties of its specification.

    The script reads three sheets of a spreadsheet (Summary, Climbs,
    Registration), parses the registration export into climber records, lays
    out one score card per climber on a "Queue Cards" sheet and writes one
    check-in list per session.

    Conventions of the embedding.
    - A JavaScript string is a [string]; each character stands for one code
      unit below 256.
    - A JavaScript number is a [Z].  The source computes with doubles, which are
      exact for integers up to [MAX_SAFE_INTEGER] = 2^53 - 1 in magnitude, and
      that is the range of the embedding: beyond it the text of a number and
      its arithmetic are those of the doubles, which the model does not
      follow.  [NaN] is written [None] where the source can produce it
      ([parseInt]).
    - A sheet cell is a [cell]: text, an integer or a boolean, as
      [getValues()] returns them (fractional numbers and dates are not
      covered).
    - A plain object used as a map is an association list of its own
      properties in creation order.  A lookup for a name the object does not
      own finds the member of that name of [Object.prototype], when there is
      one ([inherited]).  The name [__proto__] reads and writes the prototype
      itself: a Climbs row or a ticket column with that category is outside
      the model.
    - An exception nobody catches ends the run; it is the [Uncaught] event of
      the trace.  The script raises one when it calls [push] on an inherited
      member.  It raises another when it calls [localeCompare] on a last-name
      cell that is not text; which cells a sort compares is the engine's
      choice, so the model compares the text of the cells and the results
      about whole runs assume the last names to be text.
    - The rendering surface (SpreadsheetApp) is a trace of the operations the
      script performs on it; pure formatting calls (fonts, borders, colours,
      alignment) and [Logger.log] are left out of the trace. *)

From Stdlib Require Import ZArith List String Ascii Bool Lia.
From Stdlib Require Import Permutation Sorted.
From Stdlib Require Import Numbers.DecimalString Numbers.DecimalPos.
Import ListNotations.

Open Scope string_scope.
Open Scope Z_scope.

(* ================================================================== *)
(** * JavaScript primitives used by the script *)
(* ================================================================== *)

Module Js.

(** ** Cells and their coercions *)

Inductive cell : Type :=
| CStr (s : string)
| CNum (n : Z)
| CBool (b : bool).

(** [Number.MAX_SAFE_INTEGER]: the integers up to it in magnitude are the
    numbers of the embedding. *)
Definition MAX_SAFE_INTEGER : Z := 9007199254740991.

(** [Number.prototype.toString] on an integer up to [MAX_SAFE_INTEGER] in
    magnitude: its decimal digits.  (A larger number is printed from the
    digits of its double, in exponent form from 10^21 on; that is outside the
    embedding.) *)
Definition numToString (n : Z) : string :=
  NilZero.string_of_int (Z.to_int n).

(** [typeof v === 'string']. *)
Definition isText (v : cell) : bool :=
  match v with
  | CStr _ => true
  | _ => false
  end.

(** [v.toString()], also the conversion a template literal applies. *)
Definition toString (v : cell) : string :=
  match v with
  | CStr s => s
  | CNum n => numToString n
  | CBool true => "true"
  | CBool false => "false"
  end.

(** Truthiness: the empty string, [0] and [false] are falsy. *)
Definition truthy (v : cell) : bool :=
  match v with
  | CStr s => negb (String.eqb s EmptyString)
  | CNum n => negb (n =? 0)
  | CBool b => b
  end.

Definition strTruthy (s : string) : bool := negb (String.eqb s EmptyString).

(** [v || ''] where [v] may be [undefined] (an index outside the row). *)
Definition orEmpty (v : option cell) : cell :=
  match v with
  | Some c => if truthy c then c else CStr EmptyString
  | None => CStr EmptyString
  end.

(** [n || d] on a number that may be [undefined] or [NaN]: [0] is falsy. *)
Definition numOr (v : option Z) (d : Z) : Z :=
  match v with
  | Some n => if n =? 0 then d else n
  | None => d
  end.

(** [arr[i]] for an integer index: [undefined] outside the array. *)
Definition at_ {A : Type} (l : list A) (i : Z) : option A :=
  if i <? 0 then None else nth_error l (Z.to_nat i).

(** [arr.indexOf(x)] with strict equality, [-1] when absent. *)
Fixpoint indexOfFrom {A : Type} (eqb : A -> A -> bool) (x : A) (l : list A) (i : Z) : Z :=
  match l with
  | [] => -1
  | y :: l' => if eqb y x then i else indexOfFrom eqb x l' (i + 1)
  end.

Definition cellStrictEq (a b : cell) : bool :=
  match a, b with
  | CStr s, CStr t => String.eqb s t
  | CNum n, CNum m => n =? m
  | CBool x, CBool y => Bool.eqb x y
  | _, _ => false
  end.

Definition indexOf (x : cell) (l : list cell) : Z :=
  indexOfFrom cellStrictEq x l 0.

(** ** Strings *)

Definition code (c : ascii) : nat := nat_of_ascii c.

(** White space and line terminators among the code units below 256. *)
Definition isWhiteSpace (c : ascii) : bool :=
  let n := code c in
  ((9 <=? n) && (n <=? 13) || (n =? 32) || (n =? 160))%nat.

Definition isDigit (c : ascii) : bool :=
  let n := code c in ((48 <=? n) && (n <=? 57))%nat.

Fixpoint strRev (s : string) (acc : string) : string :=
  match s with
  | EmptyString => acc
  | String c s' => strRev s' (String c acc)
  end.

Definition reverse (s : string) : string := strRev s EmptyString.

Fixpoint trimStart (s : string) : string :=
  match s with
  | EmptyString => EmptyString
  | String c s' => if isWhiteSpace c then trimStart s' else s
  end.

Definition trimEnd (s : string) : string := reverse (trimStart (reverse s)).

Definition trim (s : string) : string := trimEnd (trimStart s).

(** [s.charAt(0)]: the empty string when [s] is empty. *)
Definition charAt0 (s : string) : string :=
  match s with
  | EmptyString => EmptyString
  | String c _ => String c EmptyString
  end.

(** [s.substring(1)]. *)
Definition substring1 (s : string) : string :=
  match s with
  | EmptyString => EmptyString
  | String _ s' => s'
  end.

Definition startsWith (p s : string) : bool := String.prefix p s.

Definition endsWith (suf s : string) : bool :=
  String.prefix (reverse suf) (reverse s).

Fixpoint includes (sub s : string) : bool :=
  String.prefix sub s ||
  match s with
  | EmptyString => false
  | String _ s' => includes sub s'
  end.

(** The string without its last [n] characters. *)
Definition dropEnd (n : nat) (s : string) : string :=
  String.substring 0 (String.length s - n) s.

(** [s.split(sep)] for a one-character separator. *)
Fixpoint split (sep : ascii) (s : string) : list string :=
  match s with
  | EmptyString => [EmptyString]
  | String c s' =>
      if Ascii.eqb c sep then EmptyString :: split sep s'
      else match split sep s' with
           | h :: t => String c h :: t
           | [] => [String c EmptyString]
           end
  end.

Definition lowerChar (c : ascii) : ascii :=
  let n := code c in
  if ((65 <=? n) && (n <=? 90) ||
      (192 <=? n) && (n <=? 222) && negb (n =? 215))%nat
  then ascii_of_nat (n + 32) else c.

Fixpoint toLowerCase (s : string) : string :=
  match s with
  | EmptyString => EmptyString
  | String c s' => String (lowerChar c) (toLowerCase s')
  end.

(** [s.match(/\d+/)]: the first maximal run of decimal digits, [null] when the
    string has no digit. *)
Fixpoint takeDigits (s : string) : string :=
  match s with
  | EmptyString => EmptyString
  | String c s' => if isDigit c then String c (takeDigits s') else EmptyString
  end.

Fixpoint matchDigits (s : string) : option string :=
  match s with
  | EmptyString => None
  | String c s' => if isDigit c then Some (takeDigits s) else matchDigits s'
  end.

(** ** parseInt *)

(** Value of a character as a digit (letters count from ten, either case). *)
Definition digitVal (c : ascii) : option Z :=
  let n := code c in
  if ((48 <=? n) && (n <=? 57))%nat then Some (Z.of_nat n - 48)
  else if ((97 <=? n) && (n <=? 122))%nat then Some (Z.of_nat n - 87)
  else if ((65 <=? n) && (n <=? 90))%nat then Some (Z.of_nat n - 55)
  else None.

(** The longest prefix of radix-[R] digits, read as a number; [acc] is [None]
    until a digit has been read. *)
Fixpoint parseDigits (R : Z) (s : string) (acc : option Z) : option Z :=
  match s with
  | EmptyString => acc
  | String c s' =>
      match digitVal c with
      | Some d =>
          if d <? R
          then parseDigits R s' (Some (match acc with Some a => a | None => 0 end * R + d))
          else acc
      | None => acc
      end
  end.

(** [parseInt(s)] with no radix argument: leading white space is skipped, a
    sign is read, a [0x]/[0X] prefix selects radix 16, and the digits are read
    up to the first character that is not one.  [None] is [NaN]. *)
Definition parseInt (s : string) : option Z :=
  let s1 := trimStart s in
  let '(sign, s2) :=
    match s1 with
    | String "-" r => (-1, r)
    | String "+" r => (1, r)
    | _ => (1, s1)
    end in
  let '(R, s3) :=
    match s2 with
    | String "0" (String "x" r) => (16, r)
    | String "0" (String "X" r) => (16, r)
    | _ => (10, s2)
    end in
  option_map (Z.mul sign) (parseDigits R s3 None).

(** ** Array.prototype.sort with a comparison function

    A stable insertion sort.  For a consistent comparison function the
    language fixes the result (sorted, equal elements in their original
    order) and this is it.  A [NaN] from the comparison function counts as
    [0]; when that makes the function inconsistent the language leaves the
    order to the engine.  The insertion sort then keeps apart only the
    elements it compares directly, and an engine that sorts otherwise (V8
    finds a first run and inserts the rest by binary search) can give
    another order; the results below rely on the order for consistent
    functions, and the session example is one where both agree. *)
Section Sort.
Context {A : Type} (cmp : A -> A -> Z).

Fixpoint insert (x : A) (l : list A) : list A :=
  match l with
  | [] => [x]
  | y :: l' => if cmp x y <=? 0 then x :: l else y :: insert x l'
  end.

Definition sort (l : list A) : list A := fold_right insert [] l.
End Sort.

(** What the sort does with a comparison function that may yield [NaN]. *)
Definition sortCompare {A : Type} (cmp : A -> A -> option Z) (a b : A) : Z :=
  match cmp a b with
  | Some v => v
  | None => 0
  end.

(** ** Plain objects used as maps *)
Section Obj.
Context {V : Type}.

Definition obj := list (string * V).

Fixpoint get (o : obj) (k : string) : option V :=
  match o with
  | [] => None
  | (k', v) :: o' => if String.eqb k' k then Some v else get o' k
  end.

(** [o[k] = v]: an existing property keeps its place, a new one goes last. *)
Fixpoint set (o : obj) (k : string) (v : V) : obj :=
  match o with
  | [] => [(k, v)]
  | (k', v') :: o' =>
      if String.eqb k' k then (k', v) :: o' else (k', v') :: set o' k v
  end.
End Obj.
Arguments obj : clear implicits.

(** ** What a plain object inherits
    The members of [Object.prototype], each with the [length] the script can
    read from it: the number of declared parameters of a function, and
    nothing for the prototype object that [__proto__] gives.  All of them are
    truthy. *)
Definition objectPrototype : obj (option nat) :=
  [("constructor", Some 1%nat);
   ("__defineGetter__", Some 2%nat);
   ("__defineSetter__", Some 2%nat);
   ("hasOwnProperty", Some 1%nat);
   ("__lookupGetter__", Some 1%nat);
   ("__lookupSetter__", Some 1%nat);
   ("isPrototypeOf", Some 1%nat);
   ("propertyIsEnumerable", Some 1%nat);
   ("toString", Some 0%nat);
   ("valueOf", Some 0%nat);
   ("__proto__", None);
   ("toLocaleString", Some 0%nat)].

(** The member a plain object inherits under the name [k], when it does not
    own a property of that name. *)
Definition inherited (k : string) : option (option nat) := get objectPrototype k.

Fixpoint allDigits (s : string) : bool :=
  match s with
  | EmptyString => true
  | String c s' => isDigit c && allDigits s'
  end.

(** A property name that is an array index: the canonical decimal form of an
    integer from [0] to [2^32 - 2]. *)
Definition isArrayIndex (k : string) : bool :=
  match k with
  | EmptyString => false
  | String c rest =>
      allDigits k &&
      (negb (Ascii.eqb c "0") || String.eqb rest EmptyString) &&
      (match parseDigits 10 k None with
       | Some n => n <=? 4294967294
       | None => false
       end)
  end.

Definition indexValue (k : string) : Z :=
  match parseDigits 10 k None with
  | Some n => n
  | None => 0
  end.

(** [Object.keys(o)]: array-index names in ascending numeric order, then the
    other names in creation order. *)
Definition keys {V : Type} (o : obj V) : list string :=
  let ks := map fst o in
  (sort (fun a b => indexValue a - indexValue b) (filter isArrayIndex ks)
   ++ filter (fun k => negb (isArrayIndex k)) ks)%list.

End Js.

Import Js.

(** The double-quote and line-feed characters of the operator messages. *)
Definition dq : string := String (ascii_of_nat 34) EmptyString.
Definition nl : string := String (ascii_of_nat 10) EmptyString.

Definition len {A : Type} (l : list A) : Z := Z.of_nat (List.length l).

(** The values [a, a+1, ..., b-1] a counting [for] loop runs through. *)
Definition range (a b : Z) : list Z :=
  map (fun i => a + Z.of_nat i) (seq 0 (Z.to_nat (b - a))).

(* ================================================================== *)
(** * Data model *)
(* ================================================================== *)

(** A climber record as [parseClimberData] builds it.  [firstname], [lastname]
    and [bib] are the row's cells as found; [name], [category] and [session]
    are always strings. *)
Record Climber : Type := mkClimber {
  firstname : cell;
  lastname : cell;
  name : string;
  bib : cell;
  category : string;
  session : string
}.

(** An entry of a [skippedClimbers] list; [category] is [null] ([None]) when no
    ticket column matched. *)
Module Skipped.
Record t : Type := mk {
  name : string;
  category : option string;
  reason : string
}.
End Skipped.

(** A ticket column of the registration header. *)
Module Ticket.
Record t : Type := mk {
  index : Z;
  category : string
}.
End Ticket.

(* ================================================================== *)
(** * compareCategoriesRedpoint *)
(* ================================================================== *)

Definition getGenderAge (cat : string) : string * Z :=
  let gender := charAt0 cat in
  let age := numOr (parseInt (substring1 cat)) 0 in
  (gender, age).

Definition genderOrder : obj Z := [("F", 0); ("M", 1); ("U", 2)].

(** [genderOrder[g] || 3].  The gender is one character or empty, and no
    member of [Object.prototype] has such a name: the lookup finds the
    entries of the table only. *)
Definition genderRank (gender : string) : Z := numOr (get genderOrder gender) 3.

Definition compareCategoriesRedpoint (catA catB : string) : Z :=
  let a := getGenderAge catA in
  let b := getGenderAge catB in
  let genderCompare := genderRank (fst a) - genderRank (fst b) in
  if negb (genderCompare =? 0) then genderCompare
  else snd a - snd b.

(* ================================================================== *)
(** * parseClimbAssignments *)
(* ================================================================== *)

(** One pass of the loop body over a data row of the Climbs sheet.  The
    assignment makes an own property under every name but [__proto__]. *)
Definition assignmentRow (assignments : obj (list string)) (r : list cell)
  : obj (list string) :=
  match at_ r 0, at_ r 1 with
  | Some category, Some climbsStr =>
      if negb (truthy category) || negb (truthy climbsStr) then assignments
      else
        let climbs := map trim (split "," (toString climbsStr)) in
        let cleanCategory := trim (toString category) in
        set assignments cleanCategory climbs
  | _, _ => assignments
  end.

Definition parseClimbAssignments (data : list (list cell)) : obj (list string) :=
  fold_left assignmentRow (tl data) [].

(* ================================================================== *)
(** * parseClimberData *)
(* ================================================================== *)

(** A row arrives either as separate cells or joined by semicolons in its
    first cell; each row is examined on its own. *)
Definition splitRow (r : list cell) : list cell :=
  match r with
  | CStr s :: _ => if includes ";" s then map CStr (split ";" s) else r
  | _ => r
  end.

Definition isTicketHeader (header : cell) : bool :=
  let h := toString header in
  truthy header
  && (endsWith " boulder ticket" h || endsWith " lead ticket" h
      || endsWith " rope ticket" h)
  && negb (includes "status" h).

(** [h.replace(/ (boulder|lead|rope) ticket$/, '')]. *)
Definition ticketCategory (h : string) : string :=
  if endsWith " boulder ticket" h then dropEnd 15 h
  else if endsWith " lead ticket" h then dropEnd 12 h
  else if endsWith " rope ticket" h then dropEnd 12 h
  else h.

Fixpoint ticketColumnsFrom (headerRow : list cell) (idx : Z) : list Ticket.t :=
  match headerRow with
  | [] => []
  | header :: rest =>
      if isTicketHeader header
      then Ticket.mk idx (ticketCategory (toString header))
           :: ticketColumnsFrom rest (idx + 1)
      else ticketColumnsFrom rest (idx + 1)
  end.

Definition noSession : string := "No session information found".
Definition noRegistration : string := "No registration/ticket information found".

(** The loop over the ticket columns of one row; the result carries the two
    lists and [foundRegistration].  The loop stops at the first ticket cell
    with text in it. *)
Fixpoint scanTickets (row : list cell) (fn ln : cell) (climberName : string)
    (b : cell) (ticketColumns : list Ticket.t)
    (climbers : list Climber) (skippedClimbers : list Skipped.t)
  : list Climber * list Skipped.t * bool :=
  match ticketColumns with
  | [] => (climbers, skippedClimbers, false)
  | ticket :: rest =>
      let ticketValue := orEmpty (at_ row (Ticket.index ticket)) in
      if truthy ticketValue
         && negb (String.eqb (trim (toString ticketValue)) EmptyString)
      then
        let sessionMatch := matchDigits (toString ticketValue) in
        let sess :=
          match sessionMatch with
          | Some m => m
          | None => toString ticketValue
          end in
        if negb (strTruthy sess) || String.eqb (trim sess) EmptyString
        then (climbers,
              (skippedClimbers
                 ++ [Skipped.mk climberName (Some (Ticket.category ticket)) noSession])%list,
              true)
        else ((climbers
                 ++ [mkClimber fn ln climberName b (Ticket.category ticket) sess])%list,
              skippedClimbers,
              true)
      else scanTickets row fn ln climberName b rest climbers skippedClimbers
  end.

(** The body of the loop over the data rows. *)
Definition processRow (firstnameIdx lastnameIdx bibIdx : Z)
    (ticketColumns : list Ticket.t)
    (st : list Climber * list Skipped.t) (dataRow : list cell)
  : list Climber * list Skipped.t :=
  let row := splitRow dataRow in
  let fn := orEmpty (at_ row firstnameIdx) in
  let ln := orEmpty (at_ row lastnameIdx) in
  let b := orEmpty (at_ row bibIdx) in
  if negb (truthy fn) && negb (truthy ln) then st
  else
    let climberName := trim (toString fn ++ " " ++ toString ln) in
    let '(climbers, skippedClimbers, foundRegistration) :=
      scanTickets row fn ln climberName b ticketColumns (fst st) (snd st) in
    if negb foundRegistration && strTruthy climberName
    then (climbers,
          (skippedClimbers ++ [Skipped.mk climberName None noRegistration])%list)
    else (climbers, skippedClimbers).

(** The rows of the registration sheet before the final sort. *)
Definition parseRows (data : list (list cell)) : list Climber * list Skipped.t :=
  match data with
  | header :: rows =>
      let headerRow := splitRow header in
      let firstnameIdx := indexOf (CStr "firstname") headerRow in
      let lastnameIdx := indexOf (CStr "lastname") headerRow in
      let bibIdx := indexOf (CStr "bib") headerRow in
      let ticketColumns := ticketColumnsFrom headerRow 0 in
      fold_left (processRow firstnameIdx lastnameIdx bibIdx ticketColumns) rows ([], [])
  | [] => ([], [])
  end.

(** The object [parseClimberData] returns. *)
Record Parsed : Type := mkParsed {
  validClimbers : list Climber;
  skippedClimbers : list Skipped.t
}.

Section Generator.

(** [String.prototype.localeCompare] depends on the host's locale and is taken
    as given.  It is a method of strings: the source applies it to the
    [lastname] cell of [a], which is text in a registration export, and the
    call converts its argument to text.  For a cell of [a] that is a number
    or a boolean the source raises a [TypeError] where the model compares the
    text of the cell; the results about whole runs assume text ([isText]). *)
Variable localeCompare : string -> string -> Z.

Definition lastnameCompare (a b : Climber) : Z :=
  localeCompare (toString (lastname a)) (toString (lastname b)).

(** The comparison function of the sort in [parseClimberData]. *)
Definition climberOrder (a b : Climber) : Z :=
  let sessionA := numOr (parseInt (session a)) 0 in
  let sessionB := numOr (parseInt (session b)) 0 in
  if negb (sessionA =? sessionB) then sessionA - sessionB
  else
    let catCompare := compareCategoriesRedpoint (category a) (category b) in
    if negb (catCompare =? 0) then catCompare
    else lastnameCompare a b.

Definition parseClimberData (data : list (list cell)) : Parsed :=
  if len data <? 2 then mkParsed [] []
  else
    let '(climbers, skipped) := parseRows data in
    mkParsed (sort climberOrder climbers) skipped.

End Generator.

(* ================================================================== *)
(** * The rendering surface *)
(* ================================================================== *)

(** Operations on one sheet.  Rows and columns count from 1. *)
Inductive SheetOp : Type :=
| SetValue (row col : Z) (v : cell)
    (** [getRange(row, col).setValue(v)] *)
| MergeSetValue (row col numRows numCols : Z) (v : cell)
    (** [getRange(row, col, numRows, numCols).merge().setValue(v)] *)
| SetRowHeight (row height : Z)
| SetColumnWidth (col width : Z)
| SetFrozenRows (n : Z)
| InsertRowsAfter (after howMany : Z)
| InsertColumnsAfter (after howMany : Z).

(** The last column an operation writes a value to ([0] when it writes none). *)
Definition lastColumnWritten (op : SheetOp) : Z :=
  match op with
  | SetValue _ col _ => col
  | MergeSetValue _ col _ numCols _ => col + numCols - 1
  | _ => 0
  end.

(** Operations on the spreadsheet and its user interface, and the exception
    that ends a run when nobody catches it. *)
Inductive Effect : Type :=
| Alert (message : string)
| DeleteSheet (sheetName : string)
| InsertSheet (sheetName : string)
| SetHiddenGridlines (sheetName : string)
| OnSheet (sheetName : string) (op : SheetOp)
| Uncaught (error : string).

(** An output write: anything but showing a message or ending with an
    exception. *)
Definition isWrite (e : Effect) : bool :=
  match e with
  | Alert _ => false
  | Uncaught _ => false
  | _ => true
  end.

(* ================================================================== *)
(** * createRedpointScorecards *)
(* ================================================================== *)

Definition MAX_ATTEMPTS : Z := 10.
Definition CARD_WIDTH_COLS : Z := 1 + MAX_ATTEMPTS.
Definition ROWS_PER_PAGE : Z := 63.
Definition STANDARD_ROW_HEIGHT : Z := 21.

Definition noClimbs : string := "No climbs assigned to category".

(** The variables the loop over the climbers carries, and the operations
    performed on the sheet so far. *)
Record Layout : Type := mkLayout {
  currentRow : Z;
  successfulCards : Z;
  skipped : list Skipped.t;
  ops : list SheetOp
}.

Section Cards.

(** The parameters of [createRedpointScorecards] after the sheet.
    [numClimbs] is the integer [parseInt(numClimbs)] yields and [numAttempts]
    the number the attempt loop compares with; a configuration for which
    either is [NaN] is not covered.  [total] is [climbers.length]. *)
Variable total : Z.
Variable climbAssignments : obj (list string).
Variable eventName : cell.
Variable numClimbs : Z.
Variable numAttempts : Z.
Variable scoringNotes : cell.
Variable eventType : cell.

Definition climbPrefix : string :=
  let eventTypeLower := trim (toLowerCase (toString eventType)) in
  if String.eqb eventTypeLower "rope" then "Climb" else "Boulder".

(** [climbAssignments[category] || []], as far as the loop reads it: its
    [length] and the element at each index.  For a category without an entry
    the lookup finds what the table inherits under that name.  An inherited
    function is truthy, its [length] is the number of its parameters and it
    has nothing at any index, which a climb label shows as the text
    [undefined]: it reads like an array of that many such texts.  (For
    [__proto__] the source goes on with a [length] that is not a number; that
    is outside the model, which has no climbs there.) *)
Definition categoryClimbsOf (cat : string) : list string :=
  match get climbAssignments cat with
  | Some climbs => climbs
  | None =>
      match inherited cat with
      | Some (Some parameters) => repeat "undefined" parameters
      | _ => []
      end
  end.

(** The attempt loop of one grid row: [attemptNum] from [1] while
    [attemptNum <= numAttempts]. *)
Definition attemptOps (r : Z) : list SheetOp :=
  map (fun attemptNum => SetValue r (1 + attemptNum) (CNum attemptNum))
      (range 1 (numAttempts + 1)).

(** One pass of the climb loop. *)
Definition climbRowOps (categoryClimbs : list string) (gridStartRow climbIdx : Z)
  : list SheetOp :=
  let climbNumber := nth (Z.to_nat climbIdx) categoryClimbs "undefined" in
  (SetValue (gridStartRow + climbIdx) 1 (CStr (climbPrefix ++ ": " ++ climbNumber))
   :: attemptOps (gridStartRow + climbIdx)
   ++ [SetRowHeight (gridStartRow + climbIdx) (STANDARD_ROW_HEIGHT * 2)])%list.

(** The climb grid: [climbIdx] from [0] while [climbIdx < actualNumClimbs]. *)
Definition gridOps (categoryClimbs : list string) (gridStartRow actualNumClimbs : Z)
  : list SheetOp :=
  flat_map (climbRowOps categoryClimbs gridStartRow) (range 0 actualNumClimbs).

(** The card of one climber from the header down to the scoring notes:
    the operations, the row after the card and [rowsUsedCount]. *)
Definition cardBody (climber : Climber) (categoryClimbs : list string)
    (actualNumClimbs startRow : Z) : list SheetOp * Z * Z :=
  let currentRow := startRow in
  let rowsUsedCount := 0 in
  (* Header section *)
  let header :=
    [SetValue currentRow 1 (CStr "Competition:");
     MergeSetValue currentRow 2 1 (CARD_WIDTH_COLS - 1) eventName] in
  let currentRow := currentRow + 1 in
  let rowsUsedCount := rowsUsedCount + 1 in
  (* Name row - double height *)
  let nameRow :=
    [SetValue currentRow 1 (CStr "Name:");
     MergeSetValue currentRow 2 1 (CARD_WIDTH_COLS - 1) (CStr (name climber));
     SetRowHeight currentRow (STANDARD_ROW_HEIGHT * 2)] in
  let currentRow := currentRow + 1 in
  let rowsUsedCount := rowsUsedCount + 2 in
  (* Category, Session, and Bib row - double height *)
  let infoRow :=
    [SetValue currentRow 1 (CStr "Category:");
     MergeSetValue currentRow 2 1 2 (CStr (category climber));
     SetValue currentRow 4 (CStr "Session:");
     MergeSetValue currentRow 5 1 2 (CStr (session climber));
     SetValue currentRow 7 (CStr "Bib #:");
     MergeSetValue currentRow 8 1 (CARD_WIDTH_COLS - 7) (bib climber);
     SetRowHeight currentRow (STANDARD_ROW_HEIGHT * 2)] in
  let currentRow := currentRow + 1 in
  let rowsUsedCount := rowsUsedCount + 2 in
  (* Blank row *)
  let currentRow := currentRow + 1 in
  let rowsUsedCount := rowsUsedCount + 1 in
  (* Climb grid with double-height rows *)
  let gridStartRow := currentRow in
  let grid := gridOps categoryClimbs gridStartRow actualNumClimbs in
  let currentRow := gridStartRow + actualNumClimbs in
  let rowsUsedCount := rowsUsedCount + actualNumClimbs * 2 in
  (* Scoring notes *)
  if truthy scoringNotes then
    let currentRow := currentRow + 1 in
    let rowsUsedCount := rowsUsedCount + 1 in
    let notes :=
      [SetValue currentRow 1 (CStr "Scoring:");
       MergeSetValue currentRow 2 1 (CARD_WIDTH_COLS - 1) scoringNotes] in
    let currentRow := currentRow + 1 in
    let rowsUsedCount := rowsUsedCount + 1 in
    ((header ++ nameRow ++ infoRow ++ grid ++ notes)%list, currentRow, rowsUsedCount)
  else
    ((header ++ nameRow ++ infoRow ++ grid)%list, currentRow, rowsUsedCount).

(** [currentRow] after a card has been padded to [target] row units. *)
Definition padTo (target rowsUsedCount currentRow : Z) : Z :=
  let paddingNeeded := target - rowsUsedCount in
  if paddingNeeded >? 0 then currentRow + paddingNeeded else currentRow.

(** The test that guards the two-row gap after the second card of a pair;
    [skippedSoFar] is [skippedClimbers.length] when the card is laid out. *)
Definition gapAfter (successful skippedSoFar : Z) : bool :=
  successful <? total - skippedSoFar - 1.

(** Padding and spacing after a card. *)
Definition padding (isOddCard : bool) (successful skippedSoFar rowsUsedCount currentRow : Z)
  : Z :=
  if isOddCard then
    padTo 33 rowsUsedCount currentRow + 1
  else
    let currentRow := padTo 34 rowsUsedCount currentRow in
    if gapAfter successful skippedSoFar then currentRow + 2 else currentRow.

(** The body of the loop over the climbers.  The [catch] clause of the source
    handles failures of the rendering surface, which the model does not
    have. *)
Definition layoutClimber (st : Layout) (climber : Climber) : Layout :=
  let isOddCard := Z.rem (successfulCards st) 2 =? 0 in
  let categoryClimbs := categoryClimbsOf (category climber) in
  let actualNumClimbs := Z.min (len categoryClimbs) numClimbs in
  if len categoryClimbs =? 0 then
    mkLayout (currentRow st) (successfulCards st)
      (skipped st
         ++ [Skipped.mk (name climber) (Some (category climber)) noClimbs])%list
      (ops st)
  else
    let '(cardOps, afterCard, rowsUsedCount) :=
      cardBody climber categoryClimbs actualNumClimbs (currentRow st) in
    mkLayout
      (padding isOddCard (successfulCards st) (len (skipped st)) rowsUsedCount afterCard)
      (successfulCards st + 1)
      (skipped st)
      (ops st ++ cardOps)%list.

(** The rows and columns added to the sheet before the first card. *)
Definition ensureSize (numClimbers maxRows maxColumns : Z) : list SheetOp :=
  let totalRowsNeeded := 32 * numClimbers + 100 in
  ((if totalRowsNeeded >? maxRows
    then [InsertRowsAfter maxRows (totalRowsNeeded - maxRows)] else [])
   ++
   (if maxColumns <? CARD_WIDTH_COLS + 1
    then [InsertColumnsAfter maxColumns (CARD_WIDTH_COLS + 1 - maxColumns)] else []))%list.

(** The loop over the climbers from a given state. *)
Definition layoutFrom (st : Layout) (climbers : list Climber) : Layout :=
  fold_left layoutClimber climbers st.

End Cards.

(** [createRedpointScorecards]; [maxRows] and [maxColumns] are the size of the
    sheet it is given.  The source returns the [skipped] list, the [ops] are
    what it did to the sheet. *)
Definition createRedpointScorecards (maxRows maxColumns : Z)
    (climbers : list Climber) (climbAssignments : obj (list string))
    (eventName : cell) (numClimbs numAttempts : Z) (scoringNotes eventType : cell)
  : Layout :=
  layoutFrom (len climbers) climbAssignments eventName numClimbs numAttempts
    scoringNotes eventType
    (mkLayout 1 0 [] (ensureSize (len climbers) maxRows maxColumns))
    climbers.

(* ================================================================== *)
(** * createCheckInLists *)
(* ================================================================== *)

(** [a - b] on numbers that may be [NaN]. *)
Definition numSub (a b : option Z) : option Z :=
  match a, b with
  | Some x, Some y => Some (x - y)
  | _, _ => None
  end.

(** The comparison function of the session sort: [parseInt(a) - parseInt(b)]. *)
Definition sessionCompare (a b : string) : option Z :=
  numSub (parseInt a) (parseInt b).

(** The exception of [sessionGroups[session].push(climber)] when the lookup
    finds an inherited member, which has no [push]. *)
Definition pushTypeError : string :=
  "TypeError: sessionGroups[session].push is not a function".

(** One pass of the grouping loop: the group is created when the lookup for
    the session finds nothing, then the climber is pushed onto what the
    lookup finds.  For a session that names a member of [Object.prototype]
    the lookup finds that member: no group is created and the push raises
    ([None]). *)
Definition addToGroup (sessionGroups : obj (list Climber)) (climber : Climber)
  : option (obj (list Climber)) :=
  let sess := session climber in
  let sessionGroups :=
    match get sessionGroups sess, inherited sess with
    | None, None => set sessionGroups sess []
    | _, _ => sessionGroups
    end in
  match get sessionGroups sess with
  | Some group => Some (set sessionGroups sess (group ++ [climber])%list)
  | None => None
  end.

(** The grouping loop from given groups; it stops at the first exception. *)
Fixpoint groupInto (sessionGroups : obj (list Climber)) (climbers : list Climber)
  : option (obj (list Climber)) :=
  match climbers with
  | [] => Some sessionGroups
  | climber :: rest =>
      match addToGroup sessionGroups climber with
      | Some sessionGroups' => groupInto sessionGroups' rest
      | None => None
      end
  end.

Definition groupBySession (climbers : list Climber) : option (obj (list Climber)) :=
  groupInto [] climbers.

(** The sessions in the order their check-in sheets are made. *)
Definition sortedSessions (sessionGroups : obj (list Climber)) : list string :=
  sort (sortCompare sessionCompare) (keys sessionGroups).

Definition checkInSheetName (sess : string) : string :=
  "Session " ++ sess ++ " Check-in List".

(** The data rows of a check-in sheet, [index] counting from [0]. *)
Fixpoint rosterRowOps (sessionClimbers : list Climber) (index : Z) : list SheetOp :=
  match sessionClimbers with
  | [] => []
  | climber :: rest =>
      let row := index + 2 in
      [SetValue row 1 (CStr (name climber));
       SetValue row 2 (CStr (category climber));
       SetValue row 3 (CStr (session climber));
       SetValue row 4 (bib climber)]
      ++ rosterRowOps rest (index + 1)
  end%list.

Definition rosterOps (sessionClimbers : list Climber) : list SheetOp :=
  ([SetValue 1 1 (CStr "Name");
    SetValue 1 2 (CStr "Category");
    SetValue 1 3 (CStr "Session");
    SetValue 1 4 (CStr "Bib #");
    SetValue 1 5 (CStr "Checked In")]
   ++ rosterRowOps sessionClimbers 0
   ++ [SetColumnWidth 1 200; SetColumnWidth 2 100; SetColumnWidth 3 100;
       SetColumnWidth 4 80; SetColumnWidth 5 120;
       SetFrozenRows 1])%list.

Definition hasSheet (sheets : list string) (sheetName : string) : bool :=
  existsb (String.eqb sheetName) sheets.

Definition removeSheet (sheets : list string) (sheetName : string) : list string :=
  filter (fun n => negb (String.eqb sheetName n)) sheets.

Section Rosters.

Variable localeCompare : string -> string -> Z.

(** The comparison function of the sort inside one session. *)
Definition rosterOrder (a b : Climber) : Z :=
  let catCompare := compareCategoriesRedpoint (category a) (category b) in
  if negb (catCompare =? 0) then catCompare
  else lastnameCompare localeCompare a b.

(** The check-in lists as data: one per session, in the order they are
    written, each with its climbers in roster order; none when the grouping
    raises, which it does before anything is written. *)
Definition checkInRosters (climbers : list Climber) : list (string * list Climber) :=
  match groupBySession climbers with
  | Some sessionGroups =>
      map (fun sess =>
             (sess,
              sort rosterOrder
                (match get sessionGroups sess with Some g => g | None => [] end)))
          (sortedSessions sessionGroups)
  | None => []
  end.

(** Writing one check-in sheet; [sheets] are the names of the sheets present. *)
Definition writeRoster (acc : list Effect * list string)
    (roster : string * list Climber) : list Effect * list string :=
  let '(effects, sheets) := acc in
  let '(sess, sessionClimbers) := roster in
  let sheetName := checkInSheetName sess in
  let deleted :=
    if hasSheet sheets sheetName then [DeleteSheet sheetName] else [] in
  ((effects ++ deleted ++ [InsertSheet sheetName]
      ++ map (OnSheet sheetName) (rosterOps sessionClimbers))%list,
   (removeSheet sheets sheetName ++ [sheetName])%list).

(** [createCheckInLists]: what it does to the spreadsheet and the sheets
    present afterwards, or [None] when the grouping raises. *)
Definition createCheckInLists (sheets : list string) (climbers : list Climber)
  : option (list Effect * list string) :=
  match groupBySession climbers with
  | Some _ => Some (fold_left writeRoster (checkInRosters climbers) ([], sheets))
  | None => None
  end.

(* ================================================================== *)
(** * generateScorecards *)
(* ================================================================== *)

(** Cells B1 to B5 of the Summary sheet.  B2 and B3 are taken to hold
    integers (an empty cell behaves like [0] in the check that follows). *)
Record Summary : Type := mkSummary {
  B1 : cell;
  B2 : Z;
  B3 : Z;
  B4 : cell;
  B5 : cell
}.

(** The spreadsheet the script runs on: its three input sheets when present,
    the names of the other sheets, and the size of a sheet that [insertSheet]
    makes. *)
Record Spreadsheet : Type := mkSpreadsheet {
  summarySheet : option Summary;
  climbsSheet : option (list (list cell));
  registrationSheet : option (list (list cell));
  otherSheets : list string;
  newSheetRows : Z;
  newSheetColumns : Z
}.

Definition missingSheet (sheetName advice : string) : string :=
  "Error: Could not find " ++ dq ++ sheetName ++ dq ++ " sheet. " ++ advice.

Definition missingSummaryField : string :=
  "Error: Please fill in Event Name (B1), Number of Routes (B2), Number of Attempts (B3), and Event Type (B4) in the Summary sheet.".

Definition badEventType : string :=
  "Error: Event Type (B4) must be either " ++ dq ++ "boulder" ++ dq
  ++ " or " ++ dq ++ "rope" ++ dq ++ ".".

Definition noClimbers : string := "No registered climbers found.".

Definition skippedLine (s : Skipped.t) : string :=
  let cat :=
    match Skipped.category s with
    | Some c => if strTruthy c then c else "Unknown"
    | None => "Unknown"
    end in
  nl ++ "- " ++ Skipped.name s ++ " (" ++ cat ++ "): " ++ Skipped.reason s.

Definition successMessage (generated : Z) (allSkipped : list Skipped.t) : string :=
  let message :=
    "Success! Generated " ++ numToString generated ++ " scorecards in the " ++ dq
    ++ "Queue Cards" ++ dq ++ " sheet and check-in lists for each session." in
  if len allSkipped >? 0 then
    message ++ nl ++ nl ++ "WARNING: " ++ numToString (len allSkipped)
    ++ " climber(s) were skipped due to errors:" ++ nl
    ++ String.concat EmptyString (map skippedLine allSkipped)
  else message.

Definition queueCards : string := "Queue Cards".

(** The whole run, as the sequence of operations on the spreadsheet and of
    messages shown to the operator. *)
Definition generateScorecards (ss : Spreadsheet) : list Effect :=
  match summarySheet ss with
  | None => [Alert (missingSheet "Summary" "Please create it first.")]
  | Some summary =>
      let eventName := B1 summary in
      let numClimbs := B2 summary in
      let numAttempts := B3 summary in
      let eventType := B4 summary in
      let scoringNotes := B5 summary in
      if negb (truthy eventName) || (numClimbs =? 0) || (numAttempts =? 0)
         || negb (truthy eventType)
      then [Alert missingSummaryField]
      else
        let eventTypeLower := trim (toLowerCase (toString eventType)) in
        if negb (String.eqb eventTypeLower "boulder")
           && negb (String.eqb eventTypeLower "rope")
        then [Alert badEventType]
        else
          match climbsSheet ss with
          | None => [Alert (missingSheet "Climbs" "Please create it first.")]
          | Some climbsData =>
              let climbAssignments := parseClimbAssignments climbsData in
              (* Get or create Queue Cards sheet *)
              let queue :=
                ((if hasSheet (otherSheets ss) queueCards
                  then [DeleteSheet queueCards] else [])
                 ++ [InsertSheet queueCards; SetHiddenGridlines queueCards])%list in
              let sheets := (removeSheet (otherSheets ss) queueCards ++ [queueCards])%list in
              match registrationSheet ss with
              | None =>
                  (queue
                   ++ [Alert (missingSheet "Registration"
                                "Please upload your CSV first.")])%list
              | Some registration =>
                  let climbers := parseClimberData localeCompare registration in
                  if len (validClimbers climbers) =? 0
                  then (queue ++ [Alert noClimbers])%list
                  else
                    let cards :=
                      createRedpointScorecards (newSheetRows ss) (newSheetColumns ss)
                        (validClimbers climbers) climbAssignments eventName
                        numClimbs numAttempts scoringNotes eventType in
                    let allSkipped :=
                      (skippedClimbers climbers ++ skipped cards)%list in
                    match createCheckInLists sheets (validClimbers climbers) with
                    | Some lists =>
                        (queue
                         ++ map (OnSheet queueCards) (ops cards)
                         ++ fst lists
                         ++ [Alert (successMessage
                                      (len (validClimbers climbers) - len (skipped cards))
                                      allSkipped)])%list
                    | None =>
                        (queue
                         ++ map (OnSheet queueCards) (ops cards)
                         ++ [Uncaught pushTypeError])%list
                    end
              end
          end
  end.

End Rosters.

(* ================================================================== *)
(** * Observations on the output, and the inputs of the examples *)
(* ================================================================== *)

(** The string without its first [n] characters. *)
Definition dropStart (n : nat) (s : string) : string :=
  String.substring n (String.length s - n) s.

(** The sheet row and the climb identifier of a cell, when the cell is a climb
    label: a text in column 1 that starts with the label prefix. *)
Definition climbShown (labelPrefix : string) (op : SheetOp) : option (Z * string) :=
  match op with
  | SetValue row col (CStr v) =>
      if (col =? 1) && startsWith (labelPrefix ++ ": ") v
      then Some (row, dropStart (String.length labelPrefix + 2) v)
      else None
  | _ => None
  end.

(** The climb labels among some operations, in order: each with the sheet row
    it is written to. *)
Fixpoint climbsShown (labelPrefix : string) (l : list SheetOp) : list (Z * string) :=
  match l with
  | [] => []
  | op :: rest =>
      match climbShown labelPrefix op with
      | Some c => c :: climbsShown labelPrefix rest
      | None => climbsShown labelPrefix rest
      end
  end.

(** The attempt markers among some operations: the numbers written to
    single cells, each with its column (a card has no other such cell). *)
Fixpoint attemptMarkers (l : list SheetOp) : list (Z * Z) :=
  match l with
  | [] => []
  | SetValue _ col (CNum n) :: rest => (col, n) :: attemptMarkers rest
  | _ :: rest => attemptMarkers rest
  end.

(** The text of the ticket cell of a row, as the ticket loop reads it. *)
Definition ticketText (row : list cell) (ticket : Ticket.t) : string :=
  toString (orEmpty (at_ row (Ticket.index ticket))).

(** All ticket cells of a row are empty or hold white space only. *)
Definition ticketsBlank (row : list cell) (ticketColumns : list Ticket.t) : Prop :=
  Forall (fun ticket => trim (ticketText row ticket) = EmptyString) ticketColumns.

(** The session token the ticket loop derives from the text of a cell. *)
Definition sessionToken (text : string) : string :=
  match matchDigits text with
  | Some m => m
  | None => text
  end.

(** The number [parseInt] reads from a session token ([0] where it reads
    none). *)
Definition sessionValue (sess : string) : Z :=
  match parseInt sess with
  | Some n => n
  | None => 0
  end.

(** A comparison function for the examples: by code unit. *)
Definition byCodeUnit (a b : string) : Z :=
  match String.compare a b with
  | Lt => -1
  | Eq => 0
  | Gt => 1
  end.

Definition exampleClimbs : list (list cell) :=
  [[CStr "Category"; CStr "Climbs"];
   [CStr "F12"; CStr "101, 102, 103"]].

Definition exampleAssignments : obj (list string) :=
  parseClimbAssignments exampleClimbs.

Definition ann : Climber :=
  mkClimber (CStr "Ann") (CStr "Lee") "Ann Lee" (CNum 4) "F12" "3".
Definition eve : Climber :=
  mkClimber (CStr "Eve") (CStr "Moss") "Eve Moss" (CNum 5) "F12" "3".
Definition bob : Climber :=
  mkClimber (CStr "Bob") (CStr "Ray") "Bob Ray" (CNum 6) "M10" "3".

Definition exampleSummary : Summary :=
  mkSummary (CStr "Spring Open") 3 5 (CStr "Boulder") (CStr EmptyString).

Definition exampleHeader : list cell :=
  [CStr "firstname"; CStr "lastname"; CStr "bib";
   CStr "F12 boulder ticket"; CStr "M10 boulder ticket"].

(** A spreadsheet with a Queue Cards sheet from an earlier run and no
    Registration sheet. *)
Definition bookWithoutRegistration : Spreadsheet :=
  mkSpreadsheet (Some exampleSummary) (Some exampleClimbs) None
    ["Queue Cards"] 1000 26.

(** The same with a Registration sheet that has a header row only. *)
Definition bookWithoutClimbers : Spreadsheet :=
  mkSpreadsheet (Some exampleSummary) (Some exampleClimbs) (Some [exampleHeader])
    ["Queue Cards"] 1000 26.

(** A registration export with sessions "2", "x" and "01". *)
Definition mixedSessions : list (list cell) :=
  [exampleHeader;
   [CStr "Ann"; CStr "Lee"; CNum 4; CStr "Session 2"; CStr EmptyString];
   [CStr "Eve"; CStr "Moss"; CNum 5; CStr "x"; CStr EmptyString];
   [CStr "Bob"; CStr "Ray"; CNum 6; CStr EmptyString; CStr "Session 01"]].

(** A string made of white space only. *)
Fixpoint allWhite (s : string) : bool :=
  match s with
  | EmptyString => true
  | String c s' => isWhiteSpace c && allWhite s'
  end.

(** The grouping keeps these facts about the groups made from the climbers
    [seen] so far: no session has two groups, the members of a group have
    the session of the group, the groups hold the climbers seen and no
    others, and every group is the group of a climber seen. *)
Definition groupsOk (o : obj (list Climber)) (seen : list Climber) : Prop :=
  NoDup (map fst o)
  /\ (forall k g, In (k, g) o -> Forall (fun c => session c = k) g)
  /\ Permutation (flat_map snd o) seen
  /\ (forall k, In k (map fst o) -> In k (map session seen)).

(** The session number the climber sort compares: [parseInt(session) || 0]. *)
Definition sessionNumber (c : Climber) : Z := numOr (parseInt (session c)) 0.

(** [a] is not after [b] in the order of the climber sort, as far as the
    session number and the category decide it. *)
Definition notAfter (a b : Climber) : Prop :=
  sessionNumber a < sessionNumber b
  \/ (sessionNumber a = sessionNumber b
      /\ compareCategoriesRedpoint (category a) (category b) <= 0).

(** The sheet row an operation writes to or resizes, when it has one (the
    merged ranges of the script are one row high). *)
Definition opRow (op : SheetOp) : option Z :=
  match op with
  | SetValue r _ _ => Some r
  | MergeSetValue r _ _ _ _ => Some r
  | SetRowHeight r _ => Some r
  | _ => None
  end.

(** The operation stays within the rows [lo] to [hi - 1]. *)
Definition rowsWithin (lo hi : Z) (op : SheetOp) : Prop :=
  forall r, opRow op = Some r -> lo <= r < hi.

(** The operation makes a row double height. *)
Definition doubleHeight (op : SheetOp) : bool :=
  match op with
  | SetRowHeight _ h => h =? STANDARD_ROW_HEIGHT * 2
  | _ => false
  end.

(** The number of rows some operations make double height. *)
Definition doubleRows (l : list SheetOp) : Z := len (filter doubleHeight l).


(** The names of the sheets some effects insert, in order. *)
Fixpoint insertedSheets (l : list Effect) : list string :=
  match l with
  | [] => []
  | InsertSheet sheetName :: rest => sheetName :: insertedSheets rest
  | _ :: rest => insertedSheets rest
  end.

(** The operations some effects perform on the sheet of a given name, in
    order. *)
Fixpoint sheetOps (sheetName : string) (l : list Effect) : list SheetOp :=
  match l with
  | [] => []
  | OnSheet n op :: rest =>
      if String.eqb n sheetName then op :: sheetOps sheetName rest
      else sheetOps sheetName rest
  | _ :: rest => sheetOps sheetName rest
  end.

(** The session of the climber names a member of [Object.prototype]. *)
Definition inheritedSession (c : Climber) : bool :=
  match inherited (session c) with
  | Some _ => true
  | None => false
  end.

(** A registration export with one ticket column, for the category
    "constructor", and one climber with a ticket in it; the Climbs sheet of
    the examples has no row for that category. *)
Definition inheritedCategory : list (list cell) :=
  [[CStr "firstname"; CStr "lastname"; CStr "bib"; CStr "constructor boulder ticket"];
   [CStr "Ann"; CStr "Lee"; CNum 4; CStr "Session 1"]].

Definition bookWithInheritedCategory : Spreadsheet :=
  mkSpreadsheet (Some exampleSummary) (Some exampleClimbs) (Some inheritedCategory)
    [] 1000 26.

(** A Climbs sheet with climbs for M10 only, and a registration export with
    two climbers in M10 and one in F12, all in session 3. *)
Definition climbsForM10 : list (list cell) :=
  [[CStr "Category"; CStr "Climbs"];
   [CStr "M10"; CStr "101, 102, 103"]].

Definition twoAssignedOneNot : list (list cell) :=
  [exampleHeader;
   [CStr "Bob"; CStr "Ray"; CNum 6; CStr "Session 3"; CStr EmptyString];
   [CStr "Ann"; CStr "Lee"; CNum 4; CStr EmptyString; CStr "Session 3"];
   [CStr "Eve"; CStr "Moss"; CNum 5; CStr EmptyString; CStr "Session 3"]].

(** The same export without the climber in F12. *)
Definition twoAssigned : list (list cell) :=
  [exampleHeader;
   [CStr "Ann"; CStr "Lee"; CNum 4; CStr EmptyString; CStr "Session 3"];
   [CStr "Eve"; CStr "Moss"; CNum 5; CStr EmptyString; CStr "Session 3"]].

(** A registration export with one climber in F12, and a spreadsheet whose
    Summary sheet has the climb count -1. *)
Definition oneClimber : list (list cell) :=
  [exampleHeader;
   [CStr "Ann"; CStr "Lee"; CNum 4; CStr "Session 3"; CStr EmptyString]].

Definition bookWithNegativeCount : Spreadsheet :=
  mkSpreadsheet
    (Some (mkSummary (CStr "Spring Open") (-1) 5 (CStr "Boulder") (CStr EmptyString)))
    (Some exampleClimbs) (Some oneClimber) [] 1000 26.

(* ================================================================== *)
(** * Facts about the primitives *)
(* ================================================================== *)

Lemma strRev_allWhite (s acc : string) :
  allWhite (strRev s acc) = allWhite s && allWhite acc.
Proof.
  revert acc; induction s as [|c s IH]; intros acc; simpl.
  - reflexivity.
  - rewrite IH; simpl. destruct (isWhiteSpace c), (allWhite s), (allWhite acc); reflexivity.
Qed.

Lemma reverse_allWhite (s : string) : allWhite (reverse s) = allWhite s.
Proof.
  unfold reverse. rewrite strRev_allWhite. simpl. apply andb_true_r.
Qed.

Lemma strRev_empty (s acc : string) :
  strRev s acc = EmptyString -> s = EmptyString /\ acc = EmptyString.
Proof.
  revert acc; induction s as [|c s IH]; intros acc H; simpl in *.
  - split; [reflexivity | exact H].
  - apply IH in H. destruct H as [_ H]. discriminate H.
Qed.

Lemma trimStart_empty (s : string) : trimStart s = EmptyString -> allWhite s = true.
Proof.
  induction s as [|c s IH]; simpl; intros H.
  - reflexivity.
  - destruct (isWhiteSpace c); [auto | discriminate H].
Qed.

Lemma allWhite_trimStart (s : string) : allWhite (trimStart s) = allWhite s.
Proof.
  induction s as [|c s IH]; simpl.
  - reflexivity.
  - destruct (isWhiteSpace c) eqn:E; simpl; [exact IH | rewrite E; reflexivity].
Qed.

(** A string that trims to nothing is made of white space. *)
Lemma trim_empty_allWhite (s : string) : trim s = EmptyString -> allWhite s = true.
Proof.
  unfold trim, trimEnd, reverse. intros H.
  apply strRev_empty in H. destruct H as [H _]. apply trimStart_empty in H.
  fold (reverse (trimStart s)) in H.
  rewrite reverse_allWhite, allWhite_trimStart in H. exact H.
Qed.

Lemma allWhite_trimStart_empty (s : string) : allWhite s = true -> trimStart s = EmptyString.
Proof.
  induction s as [|c s IH]; simpl; intros H.
  - reflexivity.
  - apply andb_true_iff in H as [Hc Hs]. rewrite Hc. auto.
Qed.

Lemma allWhite_trim_empty (s : string) : allWhite s = true -> trim s = EmptyString.
Proof.
  intros H. unfold trim, trimEnd. rewrite (allWhite_trimStart_empty s H). reflexivity.
Qed.

Lemma digit_not_white (c : ascii) : isDigit c = true -> isWhiteSpace c = false.
Proof.
  unfold isDigit, isWhiteSpace. generalize (code c); intros n H.
  apply andb_true_iff in H as [H1 H2].
  apply Nat.leb_le in H1. apply Nat.leb_le in H2.
  apply orb_false_iff; split; [apply orb_false_iff; split|].
  - apply andb_false_iff. right. apply Nat.leb_gt. lia.
  - apply Nat.eqb_neq. lia.
  - apply Nat.eqb_neq. lia.
Qed.

(** A match of [/\d+/] starts with a digit. *)
Lemma matchDigits_some (s m : string) :
  matchDigits s = Some m -> exists c rest, m = String c rest /\ isDigit c = true.
Proof.
  induction s as [|c s IH]; simpl; intros H.
  - discriminate H.
  - destruct (isDigit c) eqn:E.
    + injection H as <-. eauto.
    + auto.
Qed.

(** The token taken from a ticket cell with text in it has text in it. *)
Lemma sessionToken_not_blank (text : string) :
  trim text <> EmptyString ->
  negb (strTruthy (sessionToken text))
  || String.eqb (trim (sessionToken text)) EmptyString = false.
Proof.
  intros Htext. unfold sessionToken.
  assert (Hgen : forall t, trim t <> EmptyString ->
            negb (strTruthy t) || String.eqb (trim t) EmptyString = false).
  { intros t Ht. apply orb_false_iff; split.
    - apply negb_false_iff. unfold strTruthy. apply negb_true_iff.
      apply String.eqb_neq. intros ->. apply Ht. reflexivity.
    - apply String.eqb_neq. exact Ht. }
  destruct (matchDigits text) as [m|] eqn:E.
  - apply Hgen. destruct (matchDigits_some _ _ E) as (c & rest & -> & Hc).
    intros H. apply trim_empty_allWhite in H. simpl in H.
    rewrite (digit_not_white c Hc) in H. discriminate H.
  - apply Hgen. exact Htext.
Qed.

(* ================================================================== *)
(** * The category comparator *)
(* ================================================================== *)

(** The rank table lists F as [0], and [0 || 3] is [3]: the rank the
    comparator uses for F is the rank of an unrecognised gender. *)
Lemma genderRank_values :
  genderRank "F" = 3 /\ genderRank "M" = 1 /\ genderRank "U" = 2
  /\ genderRank "X" = 3 /\ genderRank EmptyString = 3.
Proof. repeat split; reflexivity. Qed.

Lemma genderRank_bounds (g : string) : 1 <= genderRank g <= 3.
Proof.
  unfold genderRank, genderOrder, get.
  destruct (String.eqb "F" g); [cbn; lia|].
  destruct (String.eqb "M" g); [cbn; lia|].
  destruct (String.eqb "U" g); cbn; lia.
Qed.

(** When the ranks the comparator uses differ, they decide the result,
    whatever the ages. *)
Lemma compare_follows_genderRank (catA catB : string) :
  genderRank (charAt0 catA) <> genderRank (charAt0 catB) ->
  (compareCategoriesRedpoint catA catB < 0
   <-> genderRank (charAt0 catA) < genderRank (charAt0 catB)).
Proof.
  intros Hne. unfold compareCategoriesRedpoint, getGenderAge. cbn [fst snd].
  destruct (genderRank (charAt0 catA) - genderRank (charAt0 catB) =? 0) eqn:E;
    cbn [negb].
  - apply Z.eqb_eq in E. lia.
  - lia.
Qed.

(** Every F category is ordered after every M category, whatever the ages. *)
Lemma F_after_M_any_age (ageA ageB : string) :
  compareCategoriesRedpoint ("F" ++ ageA) ("M" ++ ageB) = 2.
Proof. reflexivity. Qed.

(** C1: the comparator is meant to put every F category before every M
    category whatever the ages.  On ["F40"] and ["M10"] it returns [2], a
    positive value: F40 is ordered after M10. *)
Theorem C1_F40_after_M10 :
  compareCategoriesRedpoint "F40" "M10" = 2
  /\ ~ compareCategoriesRedpoint "F40" "M10" < 0.
Proof.
  assert (H : compareCategoriesRedpoint "F40" "M10" = 2) by reflexivity.
  split; [exact H | rewrite H; lia].
Qed.

(** Two categories of one gender thirty years apart: the result is [30]. *)
Lemma C4_result_outside_unit_range :
  compareCategoriesRedpoint "M40" "M10" = 30
  /\ ~ In (compareCategoriesRedpoint "M40" "M10") [-1; 0; 1].
Proof.
  assert (H : compareCategoriesRedpoint "M40" "M10" = 30) by reflexivity.
  split; [exact H|]. rewrite H. simpl. lia.
Qed.

(** C4, in the form that holds: for every pair of category strings the comparator returns
    an integer: the difference of the two gender ranks when the ranks differ
    (non-zero, between -3 and 3), and otherwise the difference of the two
    parsed ages, whatever its size. *)
Theorem C4_compare_is_a_difference (catA catB : string) :
  let rankA := genderRank (fst (getGenderAge catA)) in
  let rankB := genderRank (fst (getGenderAge catB)) in
  let ageA := snd (getGenderAge catA) in
  let ageB := snd (getGenderAge catB) in
  let r := compareCategoriesRedpoint catA catB in
  (rankA <> rankB /\ r = rankA - rankB /\ r <> 0 /\ -3 <= r <= 3)
  \/ (rankA = rankB /\ r = ageA - ageB).
Proof.
  cbv zeta. unfold compareCategoriesRedpoint.
  pose proof (genderRank_bounds (fst (getGenderAge catA))) as HA.
  pose proof (genderRank_bounds (fst (getGenderAge catB))) as HB.
  destruct (genderRank (fst (getGenderAge catA)) - genderRank (fst (getGenderAge catB)) =? 0) eqn:E;
    cbn [negb].
  - apply Z.eqb_eq in E. right. split; [lia | reflexivity].
  - apply Z.eqb_neq in E. left. repeat split; lia.
Qed.

(* ================================================================== *)
(** * The registration parser *)
(* ================================================================== *)

Section ParserFacts.

Variables firstnameIdx lastnameIdx bibIdx : Z.
Variable ticketColumns : list Ticket.t.

Lemma orEmpty_truthy_or_empty (v : option cell) :
  truthy (orEmpty v) = true \/ orEmpty v = CStr EmptyString.
Proof.
  destruct v as [c|]; simpl; [|right; reflexivity].
  destruct (truthy c) eqn:E; [left; exact E | right; reflexivity].
Qed.

(** The guard of the ticket loop holds exactly for a cell that has text
    left after trimming. *)
Lemma ticket_guard (row : list cell) (ticket : Ticket.t) :
  let ticketValue := orEmpty (at_ row (Ticket.index ticket)) in
  truthy ticketValue && negb (String.eqb (trim (toString ticketValue)) EmptyString)
  = negb (String.eqb (trim (ticketText row ticket)) EmptyString).
Proof.
  cbv zeta. unfold ticketText.
  destruct (orEmpty_truthy_or_empty (at_ row (Ticket.index ticket))) as [H|H];
    rewrite H; reflexivity.
Qed.

(** With no text in any ticket cell the ticket loop changes nothing and
    reports that no registration was found. *)
Lemma scanTickets_blank (row : list cell) (fn ln b : cell) (climberName : string)
    (tickets : list Ticket.t) (climbers : list Climber) (sk : list Skipped.t) :
  ticketsBlank row tickets ->
  scanTickets row fn ln climberName b tickets climbers sk = (climbers, sk, false).
Proof.
  induction 1 as [|ticket rest Hblank _ IH]; simpl.
  - reflexivity.
  - rewrite ticket_guard, Hblank. simpl. exact IH.
Qed.

(** The ticket loop adds no entry with the reason [noSession]. *)
Lemma scanTickets_reasons (row : list cell) (fn ln b : cell) (climberName : string)
    (tickets : list Ticket.t) (climbers : list Climber) (sk : list Skipped.t) :
  Forall (fun s => Skipped.reason s <> noSession) sk ->
  Forall (fun s => Skipped.reason s <> noSession)
    (snd (fst (scanTickets row fn ln climberName b tickets climbers sk))).
Proof.
  intros Hsk. induction tickets as [|ticket rest IH]; simpl.
  - exact Hsk.
  - rewrite ticket_guard.
    destruct (String.eqb (trim (ticketText row ticket)) EmptyString) eqn:E; simpl.
    + exact IH.
    + apply String.eqb_neq in E.
      pose proof (sessionToken_not_blank _ E) as Htok.
      unfold sessionToken, ticketText in Htok. rewrite Htok. simpl. exact Hsk.
Qed.

Lemma processRow_reasons (st : list Climber * list Skipped.t) (dataRow : list cell) :
  Forall (fun s => Skipped.reason s <> noSession) (snd st) ->
  Forall (fun s => Skipped.reason s <> noSession)
    (snd (processRow firstnameIdx lastnameIdx bibIdx ticketColumns st dataRow)).
Proof.
  intros Hst. unfold processRow.
  destruct (negb (truthy (orEmpty (at_ (splitRow dataRow) firstnameIdx)))
            && negb (truthy (orEmpty (at_ (splitRow dataRow) lastnameIdx)))).
  - exact Hst.
  - match goal with
    | |- context [scanTickets ?r ?f ?l ?n ?b ?t ?c ?s] =>
        pose proof (scanTickets_reasons r f l b n t c s Hst) as Hscan;
        destruct (scanTickets r f l n b t c s) as [[cl sk] found]
    end.
    simpl in Hscan.
    destruct (negb found && strTruthy _); simpl; [|exact Hscan].
    apply Forall_app; split; [exact Hscan|].
    constructor; [|constructor]. simpl. discriminate.
Qed.

Lemma fold_processRow_reasons (rows : list (list cell))
    (st : list Climber * list Skipped.t) :
  Forall (fun s => Skipped.reason s <> noSession) (snd st) ->
  Forall (fun s => Skipped.reason s <> noSession)
    (snd (fold_left (processRow firstnameIdx lastnameIdx bibIdx ticketColumns) rows st)).
Proof.
  revert st; induction rows as [|r rows IH]; intros st Hst; simpl.
  - exact Hst.
  - apply IH. apply processRow_reasons. exact Hst.
Qed.

End ParserFacts.

Lemma parseRows_reasons (data : list (list cell)) :
  Forall (fun s => Skipped.reason s <> noSession) (snd (parseRows data)).
Proof.
  destruct data as [|header rows]; simpl.
  - constructor.
  - apply fold_processRow_reasons. constructor.
Qed.

(** C10: the parser never records the reason "No session information
    found": whatever the registration sheet holds, no entry of the skipped
    list of [parseClimberData] carries it. *)
Theorem C10_no_session_reason_unreachable
    (localeCompare : string -> string -> Z) (data : list (list cell)) :
  Forall (fun s => Skipped.reason s <> "No session information found")
    (skippedClimbers (parseClimberData localeCompare data)).
Proof.
  unfold parseClimberData.
  destruct (len data <? 2); simpl; [constructor|].
  pose proof (parseRows_reasons data) as H.
  destruct (parseRows data) as [climbers sk]. exact H.
Qed.

(** A row whose first name is a single space and whose ticket cells are
    empty: the name is not empty, yet nothing is recorded for the row. *)
Lemma C8_blank_name_not_recorded :
  let row := [CStr " "; CStr EmptyString; CStr "7"; CStr EmptyString; CStr EmptyString] in
  let tickets := ticketColumnsFrom exampleHeader 0 in
  truthy (orEmpty (at_ row 0)) = true
  /\ ticketsBlank row tickets
  /\ processRow 0 1 2 tickets ([], []) row = ([], [])
  /\ skippedClimbers (parseClimberData byCodeUnit [exampleHeader; row]) = [].
Proof.
  cbv zeta. split; [reflexivity|]. split; [|split; reflexivity].
  repeat constructor.
Qed.

(** C8, in the form that holds: a registration row whose full name (first and last name
    joined by a space, trimmed) is not empty and whose ticket cells are all
    empty or white space adds exactly one entry to the skipped list, with
    the trimmed name, a null category and the reason "No registration/ticket
    information found", and adds no climber record. *)
Theorem C8_named_row_without_ticket
    (firstnameIdx lastnameIdx bibIdx : Z) (ticketColumns : list Ticket.t)
    (st : list Climber * list Skipped.t) (dataRow : list cell) :
  let row := splitRow dataRow in
  let climberName :=
    trim (toString (orEmpty (at_ row firstnameIdx)) ++ " "
          ++ toString (orEmpty (at_ row lastnameIdx))) in
  climberName <> EmptyString ->
  ticketsBlank row ticketColumns ->
  processRow firstnameIdx lastnameIdx bibIdx ticketColumns st dataRow
  = (fst st,
     (snd st
      ++ [Skipped.mk climberName None "No registration/ticket information found"])%list).
Proof.
  cbv zeta. intros Hname Hblank. unfold processRow.
  set (row := splitRow dataRow) in *.
  destruct (negb (truthy (orEmpty (at_ row firstnameIdx)))
            && negb (truthy (orEmpty (at_ row lastnameIdx)))) eqn:Enone.
  - exfalso. apply Hname.
    apply andb_true_iff in Enone as [E1 E2].
    apply negb_true_iff in E1. apply negb_true_iff in E2.
    destruct (orEmpty_truthy_or_empty (at_ row firstnameIdx)) as [H1|H1];
      [congruence|].
    destruct (orEmpty_truthy_or_empty (at_ row lastnameIdx)) as [H2|H2];
      [congruence|].
    rewrite H1, H2. reflexivity.
  - rewrite (scanTickets_blank _ _ _ _ _ _ _ _ Hblank).
    assert (Ht : strTruthy
                   (trim (toString (orEmpty (at_ row firstnameIdx)) ++ " "
                          ++ toString (orEmpty (at_ row lastnameIdx)))) = true).
    { unfold strTruthy. apply negb_true_iff. apply String.eqb_neq. exact Hname. }
    rewrite Ht. reflexivity.
Qed.

Lemma C8_named_row_without_ticket_witness :
  let row := [CStr "Cy"; CStr "Dale"; CNum 7; CStr EmptyString; CStr " "] in
  let tickets := ticketColumnsFrom exampleHeader 0 in
  trim ("Cy" ++ " " ++ "Dale") <> EmptyString
  /\ ticketsBlank row tickets
  /\ processRow 0 1 2 tickets ([], []) row
     = ([], [Skipped.mk "Cy Dale" None "No registration/ticket information found"]).
Proof.
  cbv zeta.
  assert (Hname : trim ("Cy" ++ " " ++ "Dale") <> EmptyString)
    by (vm_compute; discriminate).
  assert (Hblank : ticketsBlank
                     [CStr "Cy"; CStr "Dale"; CNum 7; CStr EmptyString; CStr " "]
                     (ticketColumnsFrom exampleHeader 0))
    by (repeat constructor).
  split; [exact Hname|]. split; [exact Hblank|].
  exact (C8_named_row_without_ticket 0 1 2 (ticketColumnsFrom exampleHeader 0) ([], [])
           [CStr "Cy"; CStr "Dale"; CNum 7; CStr EmptyString; CStr " "] Hname Hblank).
Defined.

(* ================================================================== *)
(** * The scorecard layout *)
(* ================================================================== *)

Lemma substring_all (s : string) : String.substring 0 (String.length s) s = s.
Proof. induction s as [|c s IH]; simpl; [reflexivity | rewrite IH; reflexivity]. Qed.

Lemma prefix_append (p q : string) : String.prefix p (p ++ q) = true.
Proof.
  induction p as [|c p IH]; simpl.
  - destruct q; reflexivity.
  - destruct (ascii_dec c c) as [_|n]; [exact IH | exfalso; apply n; reflexivity].
Qed.

Lemma dropStart_append (p q : string) : dropStart (String.length p) (p ++ q) = q.
Proof.
  unfold dropStart. induction p as [|c p IH]; simpl.
  - rewrite Nat.sub_0_r. apply substring_all.
  - exact IH.
Qed.

Lemma append_assoc (a b c : string) : ((a ++ b) ++ c = a ++ b ++ c)%string.
Proof. induction a as [|x a IH]; simpl; [reflexivity | rewrite IH; reflexivity]. Qed.

Lemma length_append (a b : string) :
  String.length (a ++ b) = (String.length a + String.length b)%nat.
Proof. induction a as [|x a IH]; simpl; [reflexivity | rewrite IH; reflexivity]. Qed.

(** A climb label shows its row and its climb identifier. *)
Lemma climbShown_label (labelPrefix c : string) (r : Z) :
  climbShown labelPrefix (SetValue r 1 (CStr (labelPrefix ++ ": " ++ c))) = Some (r, c).
Proof.
  unfold climbShown, startsWith.
  rewrite <- append_assoc, prefix_append. simpl.
  replace (String.length labelPrefix + 2)%nat with (String.length (labelPrefix ++ ": ")).
  - rewrite dropStart_append. reflexivity.
  - rewrite length_append. reflexivity.
Qed.

Lemma climbsShown_app (labelPrefix : string) (a b : list SheetOp) :
  climbsShown labelPrefix (a ++ b)
  = (climbsShown labelPrefix a ++ climbsShown labelPrefix b)%list.
Proof.
  induction a as [|op a IH]; simpl.
  - reflexivity.
  - destruct (climbShown labelPrefix op); simpl; rewrite IH; reflexivity.
Qed.

Lemma climbsShown_numbers (labelPrefix : string) (f : Z -> Z) (r : Z) (l : list Z) :
  climbsShown labelPrefix (map (fun k => SetValue r (f k) (CNum k)) l) = [].
Proof. induction l as [|k l IH]; simpl; [reflexivity | exact IH]. Qed.

Lemma climbPrefix_cases (eventType : cell) :
  climbPrefix eventType = "Climb" \/ climbPrefix eventType = "Boulder".
Proof.
  unfold climbPrefix. destruct (String.eqb _ "rope"); [left | right]; reflexivity.
Qed.

Lemma nth_seq_firstn {A : Type} (d : A) (l : list A) (n : nat) :
  (n <= List.length l)%nat ->
  map (fun i => nth i l d) (seq 0 n) = firstn n l.
Proof.
  revert n; induction l as [|x l IH]; intros n Hn; simpl in Hn.
  - assert (n = 0%nat) by lia. subst. reflexivity.
  - destruct n as [|n]; [reflexivity|].
    simpl. f_equal. rewrite <- seq_shift, map_map. apply IH. lia.
Qed.

Lemma combine_map {A B C : Type} (f : A -> B) (h : A -> C) (l : list A) :
  combine (map f l) (map h l) = map (fun i => (f i, h i)) l.
Proof. induction l as [|x l IH]; simpl; [reflexivity | rewrite IH; reflexivity]. Qed.

Section CardFacts.

Variable total : Z.
Variable climbAssignments : obj (list string).
Variable eventName : cell.
Variable numClimbs : Z.
Variable numAttempts : Z.
Variable scoringNotes : cell.
Variable eventType : cell.

(** One grid row shows one climb: the one at its index, in the row of that
    index. *)
Lemma climbsShown_row (climbs : list string) (g : Z) (i : nat) :
  climbsShown (climbPrefix eventType)
    (climbRowOps numAttempts eventType climbs g (0 + Z.of_nat i))
  = [(g + Z.of_nat i, nth i climbs "undefined")].
Proof.
  unfold climbRowOps. cbn [climbsShown].
  rewrite climbShown_label, climbsShown_app.
  unfold attemptOps. rewrite climbsShown_numbers. simpl.
  rewrite Nat2Z.id. reflexivity.
Qed.

Lemma climbsShown_rows (climbs : list string) (g : Z) (idx : list nat) :
  climbsShown (climbPrefix eventType)
    (flat_map (climbRowOps numAttempts eventType climbs g)
       (map (fun i => 0 + Z.of_nat i) idx))
  = map (fun i => (g + Z.of_nat i, nth i climbs "undefined")) idx.
Proof.
  induction idx as [|i idx IH]; cbn [map flat_map].
  - reflexivity.
  - rewrite climbsShown_app, climbsShown_row, IH. reflexivity.
Qed.

(** The grid shows the first [n] climbs of the category, in order, one in
    each row from the first row of the grid on. *)
Lemma climbsShown_grid (climbs : list string) (g n : Z) :
  n <= len climbs ->
  climbsShown (climbPrefix eventType) (gridOps numAttempts eventType climbs g n)
  = combine (range g (g + n)) (firstn (Z.to_nat n) climbs).
Proof.
  intros Hn. unfold gridOps, range. rewrite climbsShown_rows.
  replace (g + n - g) with n by lia. rewrite Z.sub_0_r.
  rewrite <- (nth_seq_firstn "undefined" climbs (Z.to_nat n))
    by (unfold len in Hn; lia).
  rewrite combine_map. reflexivity.
Qed.

(** The rows of a card outside the grid show no climb. *)
Lemma climbsShown_card (climber : Climber) (climbs : list string) (n start : Z) :
  n <= len climbs ->
  climbsShown (climbPrefix eventType)
    (fst (fst (cardBody eventName numAttempts scoringNotes eventType
                 climber climbs n start)))
  = combine (range (start + 4) (start + 4 + n)) (firstn (Z.to_nat n) climbs).
Proof.
  intros Hn. unfold cardBody.
  pose proof (climbsShown_grid climbs (start + 1 + 1 + 1 + 1) n Hn) as Hgrid.
  replace (start + 1 + 1 + 1 + 1) with (start + 4) in * by lia.
  destruct (climbPrefix_cases eventType) as [Hp|Hp];
    destruct (truthy scoringNotes); cbn [fst];
    rewrite !climbsShown_app, Hgrid; rewrite Hp;
    cbn [climbsShown climbShown startsWith String.prefix andb Z.eqb app];
    cbn; rewrite ?app_nil_r; reflexivity.
Qed.

(** The climbs of a category with an entry are those of the entry. *)
Lemma categoryClimbsOf_entry (cat : string) (climbs : list string) :
  get climbAssignments cat = Some climbs ->
  categoryClimbsOf climbAssignments cat = climbs.
Proof. intros H. unfold categoryClimbsOf. rewrite H. reflexivity. Qed.

(** A climber whose category has no entry and names nothing the table
    inherits, or an inherited function without parameters, is skipped: one
    entry with the reason "No climbs assigned to category" is added to the
    skipped list, the row cursor and the count of successful cards stay as
    they were and nothing is written. *)
Lemma unassigned_category_skipped (st : Layout) (climber : Climber) :
  get climbAssignments (category climber) = None ->
  inherited (category climber) = None
  \/ inherited (category climber) = Some (Some 0%nat) ->
  layoutClimber total climbAssignments eventName numClimbs numAttempts
    scoringNotes eventType st climber
  = mkLayout (currentRow st) (successfulCards st)
      (skipped st
       ++ [Skipped.mk (name climber) (Some (category climber))
             "No climbs assigned to category"])%list
      (ops st).
Proof.
  intros Hnone [Hin|Hin]; unfold layoutClimber, categoryClimbsOf;
    rewrite Hnone, Hin; reflexivity.
Qed.

End CardFacts.

(** C6 (with the climb count not negative): for a climber whose category has
    an entry with at least one climb in the climb assignments, the card shows
    the first [min(assigned, configured)] climbs of that entry, in order, one
    in each sheet row from the fifth row of the card on: the number of climb
    rows is that minimum, which exceeds neither the number of assigned climbs
    nor the configured climb count. *)
Theorem C6_climb_rows_shown
    (total : Z) (climbAssignments : obj (list string)) (eventName : cell)
    (numClimbs numAttempts : Z) (scoringNotes eventType : cell)
    (st : Layout) (climber : Climber) (climbs : list string) :
  get climbAssignments (category climber) = Some climbs ->
  climbs <> [] ->
  0 <= numClimbs ->
  let shown := Z.min (len climbs) numClimbs in
  let gridStartRow := currentRow st + 4 in
  exists cardOps,
    ops (layoutClimber total climbAssignments eventName numClimbs numAttempts
           scoringNotes eventType st climber)
    = (ops st ++ cardOps)%list
    /\ climbsShown (climbPrefix eventType) cardOps
       = combine (range gridStartRow (gridStartRow + shown))
                 (firstn (Z.to_nat shown) climbs)
    /\ len (climbsShown (climbPrefix eventType) cardOps) = shown
    /\ shown <= len climbs
    /\ shown <= numClimbs.
Proof.
  intros Hentry Hclimbs Hnum. cbv zeta. unfold layoutClimber.
  rewrite (categoryClimbsOf_entry climbAssignments _ _ Hentry).
  set (shown := Z.min (len climbs) numClimbs).
  assert (Hlen : 0 < len climbs).
  { unfold len. destruct climbs; [congruence | simpl; lia]. }
  assert (Hshown : 0 <= shown <= len climbs) by (unfold shown; lia).
  replace (len climbs =? 0) with false by (symmetry; apply Z.eqb_neq; lia).
  pose proof (climbsShown_card eventName numAttempts scoringNotes eventType
                climber climbs shown (currentRow st) (proj2 Hshown)) as Hcard.
  destruct (cardBody eventName numAttempts scoringNotes eventType climber climbs
              shown (currentRow st)) as [[cardOps afterCard] rowsUsedCount].
  simpl in Hcard. exists cardOps. simpl ops.
  split; [reflexivity|]. split; [exact Hcard|]. split; [|unfold shown; lia].
  rewrite Hcard. unfold len in *.
  rewrite length_combine, length_firstn. unfold range.
  rewrite length_map, length_seq. lia.
Qed.

Lemma C6_climb_rows_shown_witness :
  get exampleAssignments (category ann) = Some ["101"; "102"; "103"]
  /\ ["101"; "102"; "103"] <> []
  /\ 0 <= 2
  /\ exists cardOps,
       ops (layoutClimber 1 exampleAssignments (CStr "Spring Open") 2 5
              (CStr EmptyString) (CStr "Boulder") (mkLayout 1 0 [] []) ann)
       = ([] ++ cardOps)%list
       /\ climbsShown "Boulder" cardOps = [(5, "101"); (6, "102")]
       /\ len (climbsShown "Boulder" cardOps) = 2
       /\ 2 <= 3
       /\ 2 <= 2.
Proof.
  assert (H1 : get exampleAssignments (category ann) = Some ["101"; "102"; "103"])
    by reflexivity.
  assert (H2 : ["101"; "102"; "103"] <> []) by discriminate.
  assert (H3 : 0 <= 2) by lia.
  split; [exact H1|]. split; [exact H2|]. split; [exact H3|].
  exact (C6_climb_rows_shown 1 exampleAssignments (CStr "Spring Open") 2 5
           (CStr EmptyString) (CStr "Boulder") (mkLayout 1 0 [] []) ann
           ["101"; "102"; "103"] H1 H2 H3).
Defined.

(** C6 as the claim has it, for any climb count, fails: a run whose Summary
    sheet has the climb count -1 passes the checks of the configuration and
    lays out the card of a climber with three assigned climbs without a climb
    row, where the minimum of 3 and -1 is -1. *)
Lemma C6_negative_count_shows_no_row :
  let climbers := validClimbers (parseClimberData byCodeUnit oneClimber) in
  let run :=
    createRedpointScorecards 1000 26 climbers exampleAssignments
      (CStr "Spring Open") (-1) 5 (CStr EmptyString) (CStr "Boulder") in
  map category climbers = ["F12"]
  /\ get exampleAssignments "F12" = Some ["101"; "102"; "103"]
  /\ successfulCards run = 1
  /\ sheetOps queueCards (generateScorecards byCodeUnit bookWithNegativeCount)
     = ops run
  /\ len (climbsShown "Boulder" (ops run)) = 0
  /\ len (climbsShown "Boulder" (ops run)) <> Z.min (len ["101"; "102"; "103"]) (-1).
Proof. cbv zeta. repeat split; try reflexivity. vm_compute. discriminate. Qed.

(** C7: a climber whose category has no entry in the climb assignments is
    meant to be skipped.  The table is a plain object and the lookup for the
    category finds what it inherits: for the category "constructor", which
    has no row in the Climbs sheet, it finds a function that declares one
    parameter.  The climber is not skipped: a card with one climb row, labelled
    "Boulder: undefined", is laid out, the count of successful cards goes to
    1, the row cursor moves on, and the run reports one generated card and no
    skipped climber. *)
Theorem C7_inherited_name_gets_a_card :
  let climbers := validClimbers (parseClimberData byCodeUnit inheritedCategory) in
  let run :=
    createRedpointScorecards 1000 26 climbers exampleAssignments
      (CStr "Spring Open") 3 5 (CStr EmptyString) (CStr "Boulder") in
  map category climbers = ["constructor"]
  /\ get exampleAssignments "constructor" = None
  /\ skipped run = []
  /\ successfulCards run = 1
  /\ currentRow run = 32
  /\ climbsShown "Boulder" (ops run) = [(5, "undefined")]
  /\ sheetOps queueCards (generateScorecards byCodeUnit bookWithInheritedCategory)
     = ops run
  /\ last (generateScorecards byCodeUnit bookWithInheritedCategory) (Alert EmptyString)
     = Alert (successMessage 1 []).
Proof. cbv zeta. repeat split; reflexivity. Qed.

(** The attempt loop writes one marker for each number up to the configured
    attempt count; [MAX_ATTEMPTS] does not bound it. *)
Lemma attemptOps_markers (numAttempts r : Z) :
  attemptMarkers (attemptOps numAttempts r)
  = map (fun k => (1 + k, k)) (range 1 (numAttempts + 1)).
Proof.
  unfold attemptOps.
  induction (range 1 (numAttempts + 1)) as [|k l IH]; cbn [map attemptMarkers].
  - reflexivity.
  - rewrite IH. reflexivity.
Qed.

(** C2: the attempt markers of a grid row are meant to stop at 10, the width
    reserved for a card.  With an attempt count of 12 the card of a climber
    carries the markers 1 to 12 in columns 2 to 13, two columns beyond the
    11 columns of the card. *)
Theorem C2_markers_beyond_card_width :
  let card :=
    createRedpointScorecards 1000 26 [ann] exampleAssignments
      (CStr "Spring Open") 1 12 (CStr EmptyString) (CStr "Boulder") in
  attemptMarkers (ops card) = map (fun k => (1 + k, k)) (range 1 13)
  /\ In (SetValue 5 13 (CNum 12)) (ops card)
  /\ Exists (fun op => CARD_WIDTH_COLS < lastColumnWritten op) (ops card).
Proof.
  cbv zeta. split; [reflexivity|].
  assert (Hin : In (SetValue 5 13 (CNum 12))
                  (ops (createRedpointScorecards 1000 26 [ann] exampleAssignments
                          (CStr "Spring Open") 1 12 (CStr EmptyString)
                          (CStr "Boulder")))).
  { vm_compute. repeat (first [left; reflexivity | right]). }
  split; [exact Hin|].
  apply Exists_exists. exists (SetValue 5 13 (CNum 12)).
  split; [exact Hin | vm_compute; reflexivity].
Qed.

(** The gap test compares with the climbers not yet known to be skipped. *)
Lemma gapAfter_spec (total successful skippedSoFar : Z) :
  gapAfter total successful skippedSoFar = true
  <-> successful + 1 < total - skippedSoFar.
Proof. unfold gapAfter. rewrite Z.ltb_lt. lia. Qed.

(** C5: the two-row gap after the second card of a pair is meant to be left
    out when that card is the last one laid out.  With two climbers of an
    assigned category and, sorted after them, one of a category without
    climbs, the second card is the last one laid out and the gap is inserted
    all the same: the cursor ends two rows further than in the run without
    the third climber.  The climbers are those [parseClimberData] returns, in
    its order. *)
Theorem C5_gap_after_last_successful_card :
  let run := fun registration =>
    createRedpointScorecards 1000 26
      (validClimbers (parseClimberData byCodeUnit registration))
      (parseClimbAssignments climbsForM10)
      (CStr "Spring Open") 3 5 (CStr EmptyString) (CStr "Boulder") in
  map name (validClimbers (parseClimberData byCodeUnit twoAssignedOneNot))
  = ["Ann Lee"; "Eve Moss"; "Bob Ray"]
  /\ map name (validClimbers (parseClimberData byCodeUnit twoAssigned))
     = ["Ann Lee"; "Eve Moss"]
  /\ successfulCards (run twoAssignedOneNot) = 2
  /\ skipped (run twoAssignedOneNot)
     = [Skipped.mk "Bob Ray" (Some "F12") "No climbs assigned to category"]
  /\ successfulCards (run twoAssigned) = 2
  /\ currentRow (run twoAssigned) = 59
  /\ currentRow (run twoAssignedOneNot) = 59 + 2
  /\ gapAfter 3 1 0 = true.
Proof. cbv zeta. repeat split; reflexivity. Qed.

(* ================================================================== *)
(** * The run as a whole *)
(* ================================================================== *)

(** The fatal conditions tested before the Queue Cards sheet is touched end
    the run with one message and no write. *)
Lemma early_abort_writes_nothing
    (localeCompare : string -> string -> Z) (ss : Spreadsheet) :
  summarySheet ss = None
  \/ (exists summary, summarySheet ss = Some summary
        /\ (truthy (B1 summary) = false \/ B2 summary = 0 \/ B3 summary = 0
            \/ truthy (B4 summary) = false
            \/ (trim (toLowerCase (toString (B4 summary))) <> "boulder"
                /\ trim (toLowerCase (toString (B4 summary))) <> "rope")
            \/ climbsSheet ss = None)) ->
  exists message, generateScorecards localeCompare ss = [Alert message].
Proof.
  unfold generateScorecards. intros [Hs | (summary & Hs & H)]; rewrite Hs.
  - eauto.
  - destruct (negb (truthy (B1 summary)) || (B2 summary =? 0) || (B3 summary =? 0)
              || negb (truthy (B4 summary))) eqn:Efield; [eauto|].
    destruct (negb (String.eqb (trim (toLowerCase (toString (B4 summary)))) "boulder")
              && negb (String.eqb (trim (toLowerCase (toString (B4 summary)))) "rope"))
      eqn:Etype; [eauto|].
    destruct (climbsSheet ss) eqn:Eclimbs; [|eauto].
    exfalso.
    apply orb_false_iff in Efield as [Efield E4].
    apply orb_false_iff in Efield as [Efield E3].
    apply orb_false_iff in Efield as [E1 E2].
    apply negb_false_iff in E1. apply negb_false_iff in E4.
    apply Z.eqb_neq in E2. apply Z.eqb_neq in E3.
    destruct H as [H | [H | [H | [H | [[Hb Hr] | H]]]]]; try congruence.
    apply andb_false_iff in Etype as [E | E]; apply negb_false_iff in E;
      apply String.eqb_eq in E; congruence.
Qed.

(** C3: a fatal condition is meant to end the run before anything is
    written.  When the Registration sheet is missing, or holds no valid
    climber, the run has already deleted the Queue Cards sheet of the
    previous run and inserted an empty one when it shows its message. *)
Theorem C3_queue_cards_replaced_before_abort
    (localeCompare : string -> string -> Z) :
  generateScorecards localeCompare bookWithoutRegistration
  = [DeleteSheet "Queue Cards"; InsertSheet "Queue Cards";
     SetHiddenGridlines "Queue Cards";
     Alert (missingSheet "Registration" "Please upload your CSV first.")]
  /\ generateScorecards localeCompare bookWithoutClimbers
     = [DeleteSheet "Queue Cards"; InsertSheet "Queue Cards";
        SetHiddenGridlines "Queue Cards";
        Alert "No registered climbers found."]
  /\ existsb isWrite (generateScorecards localeCompare bookWithoutRegistration) = true
  /\ existsb isWrite (generateScorecards localeCompare bookWithoutClimbers) = true.
Proof. repeat split; reflexivity. Qed.

(* ================================================================== *)
(** * The check-in lists *)
(* ================================================================== *)

(** C9: the check-in lists are meant to come in ascending order of the
    numeric session value.  The comparison function of the session sort
    yields [NaN] next to a session without digits, and with the sessions
    "2", "x" and "01" the lists are made in the order "2", "x", "01":
    session 2 before session 1. *)
Theorem C9_sessions_out_of_numeric_order :
  let climbers := validClimbers (parseClimberData byCodeUnit mixedSessions) in
  map session climbers = ["x"; "01"; "2"]
  /\ map fst (checkInRosters byCodeUnit climbers) = ["2"; "x"; "01"]
  /\ sessionCompare "2" "x" = None
  /\ sessionCompare "x" "01" = None
  /\ sessionCompare "2" "01" = Some 1.
Proof. cbv zeta. repeat split; reflexivity. Qed.

(** ** What the grouping and the sorts do guarantee *)

Section SortFacts.

Context {A : Type} (cmp : A -> A -> Z).

Lemma insert_perm (x : A) (l : list A) : Permutation (insert cmp x l) (x :: l).
Proof.
  induction l as [|y l IH]; simpl.
  - apply Permutation_refl.
  - destruct (cmp x y <=? 0).
    + apply Permutation_refl.
    + apply perm_trans with (y :: x :: l); [apply perm_skip, IH | apply perm_swap].
Qed.

(** The sort keeps every element, each as often as it occurs. *)
Lemma sort_perm (l : list A) : Permutation (sort cmp l) l.
Proof.
  induction l as [|x l IH]; simpl.
  - apply Permutation_refl.
  - apply perm_trans with (x :: sort cmp l); [apply insert_perm | apply perm_skip, IH].
Qed.

Variable key : A -> Z.

Lemma insert_sorted_by_key (x : A) (l : list A) :
  (forall y, In y l -> (cmp x y <=? 0) = (key x <=? key y)) ->
  StronglySorted (fun a b => key a <= key b) l ->
  StronglySorted (fun a b => key a <= key b) (insert cmp x l).
Proof.
  intros Hcmp Hs. induction Hs as [|y l Hs IH Hy]; simpl.
  - constructor; constructor.
  - rewrite (Hcmp y (or_introl eq_refl)).
    destruct (key x <=? key y) eqn:E.
    + apply Z.leb_le in E. constructor.
      * constructor; assumption.
      * constructor; [exact E|].
        eapply Forall_impl; [|exact Hy]. simpl. intros z Hz. lia.
    + apply Z.leb_gt in E. constructor.
      * apply IH. intros z Hz. apply Hcmp. right. exact Hz.
      * apply Forall_forall. intros z Hz.
        apply (Permutation_in _ (insert_perm x l)) in Hz.
        destruct Hz as [<- | Hz]; [lia|].
        rewrite Forall_forall in Hy. apply Hy. exact Hz.
Qed.

(** When the comparison function compares by a numeric key on the elements
    of the list, the sort puts them in ascending order of the key. *)
Lemma sort_sorted_by_key (l : list A) :
  (forall x y, In x l -> In y l -> (cmp x y <=? 0) = (key x <=? key y)) ->
  StronglySorted (fun a b => key a <= key b) (sort cmp l).
Proof.
  induction l as [|x l IH]; intros Hcmp; simpl.
  - constructor.
  - apply insert_sorted_by_key.
    + intros y Hy. apply Hcmp; [left; reflexivity | right].
      apply (Permutation_in _ (sort_perm l)). exact Hy.
    + apply IH. intros a b Ha Hb. apply Hcmp; right; assumption.
Qed.

End SortFacts.

Lemma filter_split_perm {A : Type} (p : A -> bool) (l : list A) :
  Permutation (filter p l ++ filter (fun x => negb (p x)) l) l.
Proof.
  induction l as [|x l IH]; simpl.
  - apply Permutation_refl.
  - destruct (p x); simpl.
    + apply perm_skip, IH.
    + apply Permutation_sym, Permutation_cons_app, Permutation_sym, IH.
Qed.

(** [Object.keys] lists every property name once. *)
Lemma keys_perm {V : Type} (o : obj V) : Permutation (keys o) (map fst o).
Proof.
  unfold keys.
  eapply perm_trans; [|apply (filter_split_perm isArrayIndex)].
  apply Permutation_app_tail. apply sort_perm.
Qed.

Section ObjFacts.

Context {V : Type}.
Implicit Types (o : obj V) (k : string) (v : V).

Lemma get_none_notin o k : get o k = None -> ~ In k (map fst o).
Proof.
  induction o as [|[k' v'] o IH]; simpl; intros H.
  - tauto.
  - destruct (String.eqb k' k) eqn:E; [discriminate H|].
    apply String.eqb_neq in E. intros [Hk | Hk]; [congruence | exact (IH H Hk)].
Qed.

Lemma set_absent o k v : get o k = None -> set o k v = (o ++ [(k, v)])%list.
Proof.
  induction o as [|[k' v'] o IH]; simpl; intros H.
  - reflexivity.
  - destruct (String.eqb k' k); [discriminate H|]. rewrite (IH H). reflexivity.
Qed.

Lemma set_present o k v g :
  get o k = Some g ->
  exists o1 o2, o = (o1 ++ (k, g) :: o2)%list
                /\ set o k v = (o1 ++ (k, v) :: o2)%list.
Proof.
  induction o as [|[k' v'] o IH]; simpl; intros H.
  - discriminate H.
  - destruct (String.eqb k' k) eqn:E.
    + apply String.eqb_eq in E. subst k'. injection H as ->.
      exists [], o. split; reflexivity.
    + destruct (IH H) as (o1 & o2 & -> & Hset).
      exists ((k', v') :: o1), o2. rewrite Hset. split; reflexivity.
Qed.

Lemma get_app_absent o o' k : get o k = None -> get (o ++ o')%list k = get o' k.
Proof.
  induction o as [|[k' v'] o IH]; simpl; intros H.
  - reflexivity.
  - destruct (String.eqb k' k); [discriminate H | exact (IH H)].
Qed.

Lemma set_app_absent o o' k v :
  get o k = None -> set (o ++ o')%list k v = (o ++ set o' k v)%list.
Proof.
  induction o as [|[k' v'] o IH]; simpl; intros H.
  - reflexivity.
  - destruct (String.eqb k' k); [discriminate H|]. rewrite (IH H). reflexivity.
Qed.

Lemma get_of_member o k v : NoDup (map fst o) -> In (k, v) o -> get o k = Some v.
Proof.
  induction o as [|[k' v'] o IH]; simpl; intros Hnd Hin.
  - tauto.
  - inversion Hnd as [|? ? Hk' Hnd']; subst.
    destruct Hin as [Heq | Hin].
    + injection Heq as -> ->. rewrite String.eqb_refl. reflexivity.
    + destruct (String.eqb k' k) eqn:E.
      * apply String.eqb_eq in E. subst k'. exfalso. apply Hk'.
        apply (in_map fst) in Hin. exact Hin.
      * apply IH; assumption.
Qed.

End ObjFacts.


Lemma addToGroup_new (o : obj (list Climber)) (c : Climber) :
  get o (session c) = None ->
  inherited (session c) = None ->
  addToGroup o c = Some (o ++ [(session c, [c])])%list.
Proof.
  intros H Hin. unfold addToGroup. rewrite H, Hin.
  rewrite (set_absent o _ [] H).
  rewrite (get_app_absent o _ _ H). simpl. rewrite String.eqb_refl.
  rewrite (set_app_absent o _ _ _ H). simpl. rewrite String.eqb_refl. reflexivity.
Qed.

Lemma addToGroup_old (o : obj (list Climber)) (c : Climber) (g : list Climber) :
  get o (session c) = Some g ->
  exists o1 o2, o = (o1 ++ (session c, g) :: o2)%list
                /\ addToGroup o c = Some (o1 ++ (session c, g ++ [c]) :: o2)%list.
Proof.
  intros H. unfold addToGroup. rewrite H. rewrite H.
  destruct (set_present o (session c) (g ++ [c])%list g H) as (o1 & o2 & Ho & Hset).
  exists o1, o2. split; [exact Ho | rewrite Hset; reflexivity].
Qed.

(** The push raises exactly for a session without a group that names a
    member of [Object.prototype]. *)
Lemma addToGroup_raises (o : obj (list Climber)) (c : Climber) :
  addToGroup o c = None
  <-> get o (session c) = None /\ inheritedSession c = true.
Proof.
  unfold inheritedSession.
  destruct (get o (session c)) as [g|] eqn:E.
  - destruct (addToGroup_old o c g E) as (o1 & o2 & _ & ->).
    split; [discriminate | intros [H _]; discriminate H].
  - destruct (inherited (session c)) as [m|] eqn:Ein.
    + unfold addToGroup. rewrite E, Ein, E. split; [auto | reflexivity].
    + rewrite (addToGroup_new o c E Ein).
      split; [discriminate | intros [_ H]; discriminate H].
Qed.

Lemma addToGroup_ok (o o' : obj (list Climber)) (seen : list Climber) (c : Climber) :
  groupsOk o seen -> addToGroup o c = Some o' -> groupsOk o' (seen ++ [c]).
Proof.
  intros (Hnd & Hkey & Hperm & Hsub) Hadd.
  destruct (get o (session c)) as [g|] eqn:E.
  - destruct (addToGroup_old o c g E) as (o1 & o2 & Ho & Hadd').
    rewrite Hadd' in Hadd. injection Hadd as <-. subst o.
    repeat split.
    + rewrite map_app in *. simpl in *. exact Hnd.
    + intros k g' Hin. apply in_app_or in Hin as [Hin | [Hin | Hin]].
      * apply (Hkey k g'). apply in_or_app. left. exact Hin.
      * injection Hin as <- <-. apply Forall_app. split.
        -- apply (Hkey (session c) g). apply in_or_app. right. left. reflexivity.
        -- constructor; [reflexivity | constructor].
      * apply (Hkey k g'). apply in_or_app. right. right. exact Hin.
    + rewrite flat_map_app in *. simpl in *.
      apply perm_trans with ((flat_map snd o1 ++ g ++ flat_map snd o2) ++ [c])%list.
      * rewrite <- !app_assoc. do 2 apply Permutation_app_head.
        apply Permutation_app_comm.
      * apply Permutation_app_tail. exact Hperm.
    + intros k Hk. rewrite map_app. apply in_or_app. left. apply Hsub.
      rewrite map_app in *. simpl in *. exact Hk.
  - destruct (inherited (session c)) as [m|] eqn:Ein.
    { assert (Hnone : addToGroup o c = None).
      { apply addToGroup_raises. unfold inheritedSession. rewrite Ein. auto. }
      congruence. }
    rewrite (addToGroup_new o c E Ein) in Hadd. injection Hadd as <-.
    repeat split.
    + rewrite map_app. simpl.
      apply (Permutation_NoDup (Permutation_cons_append _ _)).
      constructor; [apply get_none_notin; exact E | exact Hnd].
    + intros k g Hin. apply in_app_or in Hin as [Hin | [Hin | []]].
      * apply (Hkey k g Hin).
      * injection Hin as <- <-. constructor; [reflexivity | constructor].
    + rewrite flat_map_app. simpl. apply Permutation_app_tail. exact Hperm.
    + intros k Hk. rewrite !map_app in *. simpl in *.
      apply in_app_or in Hk as [Hk | Hk]; apply in_or_app.
      * left. apply Hsub. exact Hk.
      * right. exact Hk.
Qed.

Lemma groupInto_ok (cs : list Climber) (o o' : obj (list Climber))
    (seen : list Climber) :
  groupsOk o seen -> groupInto o cs = Some o' -> groupsOk o' (seen ++ cs).
Proof.
  revert o seen; induction cs as [|c cs IH]; intros o seen H Hinto; simpl in Hinto.
  - injection Hinto as <-. rewrite app_nil_r. exact H.
  - replace (seen ++ c :: cs)%list with ((seen ++ [c]) ++ cs)%list
      by (rewrite <- app_assoc; reflexivity).
    destruct (addToGroup o c) as [o1|] eqn:Eadd; [|discriminate].
    apply (IH o1); [|exact Hinto]. apply (addToGroup_ok o); assumption.
Qed.

Lemma groupBySession_ok (cs : list Climber) (o : obj (list Climber)) :
  groupBySession cs = Some o -> groupsOk o cs.
Proof.
  intros H. apply (groupInto_ok cs [] o []); [|exact H].
  repeat split; simpl; try constructor; tauto.
Qed.

(** No group is made under a name the object inherits. *)
Lemma addToGroup_names (o o' : obj (list Climber)) (c : Climber) :
  (forall k, In k (map fst o) -> inherited k = None) ->
  addToGroup o c = Some o' ->
  forall k, In k (map fst o') -> inherited k = None.
Proof.
  intros Hown Hadd k Hk.
  destruct (get o (session c)) as [g|] eqn:E.
  - destruct (addToGroup_old o c g E) as (o1 & o2 & Ho & Hadd').
    rewrite Hadd' in Hadd. injection Hadd as <-. subst o.
    apply Hown. rewrite map_app in *. simpl in *. exact Hk.
  - destruct (inherited (session c)) as [m|] eqn:Ein.
    { assert (Hnone : addToGroup o c = None).
      { apply addToGroup_raises. unfold inheritedSession. rewrite Ein. auto. }
      congruence. }
    rewrite (addToGroup_new o c E Ein) in Hadd. injection Hadd as <-.
    rewrite map_app in Hk. apply in_app_or in Hk as [Hk | [<- | []]].
    + apply Hown. exact Hk.
    + exact Ein.
Qed.

(** The grouping raises exactly when the session of some climber names a
    member of [Object.prototype]. *)
Lemma groupInto_raises (cs : list Climber) (o : obj (list Climber)) :
  (forall k, In k (map fst o) -> inherited k = None) ->
  groupInto o cs = None <-> existsb inheritedSession cs = true.
Proof.
  revert o; induction cs as [|c cs IH]; intros o Hown; simpl.
  - split; discriminate.
  - destruct (addToGroup o c) as [o1|] eqn:Eadd.
    + assert (Hc : inheritedSession c = false).
      { destruct (inheritedSession c) eqn:Ec; [|reflexivity].
        assert (Hnone : addToGroup o c = None); [|congruence].
        apply addToGroup_raises. split; [|exact Ec].
        destruct (get o (session c)) as [g|] eqn:E; [|reflexivity].
        assert (Hin : inherited (session c) = None).
        { apply Hown. clear - E. induction o as [|[k' v'] o IH]; simpl in *;
            [discriminate E|].
          destruct (String.eqb k' (session c)) eqn:Ek.
          - apply String.eqb_eq in Ek. left. exact Ek.
          - right. apply IH. exact E. }
        unfold inheritedSession in Ec. rewrite Hin in Ec. discriminate Ec. }
      rewrite Hc. simpl. apply IH. apply (addToGroup_names o o1 c Hown Eadd).
    + apply addToGroup_raises in Eadd as [_ Hc]. rewrite Hc. simpl.
      split; reflexivity.
Qed.

Lemma groupBySession_raises (cs : list Climber) :
  groupBySession cs = None <-> existsb inheritedSession cs = true.
Proof. apply groupInto_raises. intros k []. Qed.

Lemma groupBySession_some (cs : list Climber) :
  (forall c, In c cs -> inheritedSession c = false) ->
  exists o, groupBySession cs = Some o.
Proof.
  intros H. destruct (groupBySession cs) as [o|] eqn:E; [eauto|].
  apply groupBySession_raises in E. apply existsb_exists in E as (c & Hc & Hs).
  rewrite (H c Hc) in Hs. discriminate Hs.
Qed.

Lemma sortedSessions_perm (o : obj (list Climber)) :
  Permutation (sortedSessions o) (map fst o).
Proof.
  unfold sortedSessions. eapply perm_trans; [apply sort_perm | apply keys_perm].
Qed.

Section RosterFacts.

Variable localeCompare : string -> string -> Z.

Lemma rosters_sessions (cs : list Climber) (o : obj (list Climber)) :
  groupBySession cs = Some o ->
  map fst (checkInRosters localeCompare cs) = sortedSessions o.
Proof.
  intros H. unfold checkInRosters. rewrite H, map_map. simpl. apply map_id.
Qed.

(** No check-in list is made when the grouping raises. *)
Lemma rosters_none (cs : list Climber) :
  groupBySession cs = None -> checkInRosters localeCompare cs = [].
Proof. intros H. unfold checkInRosters. rewrite H. reflexivity. Qed.

(** No session has two check-in lists. *)
Lemma rosters_distinct (cs : list Climber) :
  NoDup (map fst (checkInRosters localeCompare cs)).
Proof.
  destruct (groupBySession cs) as [o|] eqn:E.
  - rewrite (rosters_sessions cs o E).
    destruct (groupBySession_ok cs o E) as (Hnd & _).
    apply (Permutation_NoDup (Permutation_sym (sortedSessions_perm _))). exact Hnd.
  - rewrite (rosters_none cs E). constructor.
Qed.

(** A check-in list holds climbers of its own session only. *)
Lemma rosters_keyed (cs : list Climber) (sess : string) (roster : list Climber) :
  In (sess, roster) (checkInRosters localeCompare cs) ->
  Forall (fun c => session c = sess) roster.
Proof.
  unfold checkInRosters. intros Hin.
  destruct (groupBySession cs) as [o|] eqn:Eo; [|destruct Hin].
  apply in_map_iff in Hin as (k & Heq & Hk). injection Heq as <- <-.
  destruct (groupBySession_ok cs o Eo) as (Hnd & Hkey & _).
  destruct (get o k) as [g|] eqn:E.
  - apply Forall_forall. intros c Hc.
    apply (Permutation_in _ (sort_perm _ g)) in Hc.
    assert (Hg : Forall (fun c => session c = k) g).
    { apply Hkey. clear - E. induction o as [|[k' v'] o IH];
        simpl in *; [discriminate E|].
      destruct (String.eqb k' k) eqn:Ek.
      - apply String.eqb_eq in Ek. injection E as ->. left. congruence.
      - right. apply IH. exact E. }
    rewrite Forall_forall in Hg. apply Hg. exact Hc.
  - constructor.
Qed.

(** When the grouping does not raise, the check-in lists together hold every
    climber, each exactly as often as the climber is in the list given. *)
Lemma rosters_partition (cs : list Climber) :
  (forall c, In c cs -> inheritedSession c = false) ->
  Permutation (flat_map snd (checkInRosters localeCompare cs)) cs.
Proof.
  intros Hown. destruct (groupBySession_some cs Hown) as (o & Eo).
  destruct (groupBySession_ok cs o Eo) as (Hnd & _ & Hperm & _).
  apply perm_trans with (flat_map snd o); [|exact Hperm].
  unfold checkInRosters. rewrite Eo.
  set (h := fun sess =>
              sort (rosterOrder localeCompare)
                (match get o sess with Some g => g | None => [] end)).
  apply perm_trans with (flat_map h (sortedSessions o)).
  { induction (sortedSessions o) as [|k ks IH]; simpl.
    - apply Permutation_refl.
    - apply Permutation_app_head. exact IH. }
  apply perm_trans with (flat_map h (map fst o)).
  { apply Permutation_flat_map. apply sortedSessions_perm. }
  assert (Hall : forall e, In e o -> h (fst e) = sort (rosterOrder localeCompare) (snd e)).
  { intros [k g] Hin. unfold h. simpl.
    rewrite (get_of_member o k g Hnd Hin). reflexivity. }
  clearbody h. clear Hnd Hperm Eo.
  induction o as [|e l IH]; simpl.
  - apply Permutation_refl.
  - rewrite (Hall e (or_introl eq_refl)).
    apply Permutation_app; [apply sort_perm|].
    apply IH. intros e' He'. apply Hall. right. exact He'.
Qed.

(** When every session token starts with a number, the check-in lists come
    in ascending order of that number. *)
Lemma rosters_ascending (cs : list Climber) :
  (forall c, In c cs -> parseInt (session c) <> None) ->
  StronglySorted (fun a b => sessionValue a <= sessionValue b)
    (map fst (checkInRosters localeCompare cs)).
Proof.
  intros Hnum.
  destruct (groupBySession cs) as [o|] eqn:Eo;
    [|rewrite (rosters_none cs Eo); constructor].
  rewrite (rosters_sessions cs o Eo). unfold sortedSessions.
  destruct (groupBySession_ok cs o Eo) as (_ & _ & _ & Hsub).
  assert (Hkeys : forall k, In k (keys o) -> parseInt k <> None).
  { intros k Hk. apply (Permutation_in _ (keys_perm _)) in Hk.
    apply Hsub in Hk. apply in_map_iff in Hk as (c & <- & Hc). apply Hnum. exact Hc. }
  apply sort_sorted_by_key. intros x y Hx Hy.
  apply Hkeys in Hx. apply Hkeys in Hy.
  unfold sortCompare, sessionCompare, sessionValue.
  destruct (parseInt x) as [px|]; [|congruence].
  destruct (parseInt y) as [py|]; [|congruence].
  simpl. destruct (Z.leb_spec (px - py) 0), (Z.leb_spec px py); try reflexivity; lia.
Qed.

End RosterFacts.

(* ================================================================== *)
(** * Further properties of the comparator and of the two sorts *)
(* ================================================================== *)

(** The comparator reads a category as a pair: the rank it gives the gender,
    then the age. *)
Lemma compare_le_iff (catA catB : string) :
  compareCategoriesRedpoint catA catB <= 0
  <-> genderRank (fst (getGenderAge catA)) < genderRank (fst (getGenderAge catB))
      \/ (genderRank (fst (getGenderAge catA)) = genderRank (fst (getGenderAge catB))
          /\ snd (getGenderAge catA) <= snd (getGenderAge catB)).
Proof.
  unfold compareCategoriesRedpoint.
  destruct (genderRank (fst (getGenderAge catA))
            - genderRank (fst (getGenderAge catB)) =? 0) eqn:E; cbn [negb].
  - apply Z.eqb_eq in E. lia.
  - apply Z.eqb_neq in E. lia.
Qed.

Lemma compare_lt_iff (catA catB : string) :
  compareCategoriesRedpoint catA catB < 0
  <-> genderRank (fst (getGenderAge catA)) < genderRank (fst (getGenderAge catB))
      \/ (genderRank (fst (getGenderAge catA)) = genderRank (fst (getGenderAge catB))
          /\ snd (getGenderAge catA) < snd (getGenderAge catB)).
Proof.
  unfold compareCategoriesRedpoint.
  destruct (genderRank (fst (getGenderAge catA))
            - genderRank (fst (getGenderAge catB)) =? 0) eqn:E; cbn [negb].
  - apply Z.eqb_eq in E. lia.
  - apply Z.eqb_neq in E. lia.
Qed.

Ltac eqb_to_prop H :=
  match type of H with
  | (_ =? _) = true => apply Z.eqb_eq in H
  | (_ =? _) = false => apply Z.eqb_neq in H
  end.

Lemma compare_swap (catA catB : string) :
  compareCategoriesRedpoint catB catA = - compareCategoriesRedpoint catA catB.
Proof.
  unfold compareCategoriesRedpoint.
  destruct (genderRank (fst (getGenderAge catA))
            - genderRank (fst (getGenderAge catB)) =? 0) eqn:E1;
    destruct (genderRank (fst (getGenderAge catB))
              - genderRank (fst (getGenderAge catA)) =? 0) eqn:E2;
    cbn [negb]; eqb_to_prop E1; eqb_to_prop E2; lia.
Qed.

Lemma compare_le_trans (catA catB catC : string) :
  compareCategoriesRedpoint catA catB <= 0 ->
  compareCategoriesRedpoint catB catC <= 0 ->
  compareCategoriesRedpoint catA catC <= 0.
Proof. rewrite !compare_le_iff. lia. Qed.

(** X1: exchanging the two arguments of the comparator negates the result;
    in particular a category compares equal to itself. *)
Theorem X1_compare_antisymmetric (catA catB : string) :
  compareCategoriesRedpoint catB catA = - compareCategoriesRedpoint catA catB
  /\ compareCategoriesRedpoint catA catA = 0.
Proof.
  split; [apply compare_swap|].
  pose proof (compare_swap catA catA). lia.
Qed.

(** X2: the comparator is transitive: when it puts [catA] before [catB] and
    [catB] before [catC], it puts [catA] before [catC]. *)
Theorem X2_compare_transitive (catA catB catC : string) :
  compareCategoriesRedpoint catA catB < 0 ->
  compareCategoriesRedpoint catB catC < 0 ->
  compareCategoriesRedpoint catA catC < 0.
Proof. rewrite !compare_lt_iff. lia. Qed.

Lemma X2_compare_transitive_witness :
  compareCategoriesRedpoint "M8" "M12" < 0
  /\ compareCategoriesRedpoint "M12" "U6" < 0
  /\ compareCategoriesRedpoint "M8" "U6" < 0.
Proof.
  assert (H1 : compareCategoriesRedpoint "M8" "M12" < 0) by (vm_compute; reflexivity).
  assert (H2 : compareCategoriesRedpoint "M12" "U6" < 0) by (vm_compute; reflexivity).
  split; [exact H1|]. split; [exact H2|].
  exact (X2_compare_transitive "M8" "M12" "U6" H1 H2).
Defined.

(** X3: two categories the comparator finds equal compare alike with every
    third category, on either side. *)
Theorem X3_compare_ties_interchangeable (catA catB catC : string) :
  compareCategoriesRedpoint catA catB = 0 ->
  compareCategoriesRedpoint catA catC = compareCategoriesRedpoint catB catC
  /\ compareCategoriesRedpoint catC catA = compareCategoriesRedpoint catC catB.
Proof.
  intros H.
  assert (Hr : genderRank (fst (getGenderAge catA)) = genderRank (fst (getGenderAge catB))
               /\ snd (getGenderAge catA) = snd (getGenderAge catB)).
  { revert H. unfold compareCategoriesRedpoint.
    destruct (genderRank (fst (getGenderAge catA))
              - genderRank (fst (getGenderAge catB)) =? 0) eqn:E; cbn [negb].
    - apply Z.eqb_eq in E. lia.
    - apply Z.eqb_neq in E. lia. }
  destruct Hr as [Hrank Hage].
  unfold compareCategoriesRedpoint. rewrite Hrank, Hage. split; reflexivity.
Qed.

Lemma X3_compare_ties_interchangeable_witness :
  compareCategoriesRedpoint "F10" "X10" = 0
  /\ compareCategoriesRedpoint "F10" "M7" = compareCategoriesRedpoint "X10" "M7"
  /\ compareCategoriesRedpoint "M7" "F10" = compareCategoriesRedpoint "M7" "X10".
Proof.
  assert (H : compareCategoriesRedpoint "F10" "X10" = 0) by reflexivity.
  split; [exact H|].
  exact (X3_compare_ties_interchangeable "F10" "X10" "M7" H).
Defined.

Section SortRelation.

Context {A : Type} (cmp : A -> A -> Z) (R : A -> A -> Prop).
Hypothesis R_trans : forall x y z, R x y -> R y z -> R x z.
Hypothesis cmp_le : forall x y, cmp x y <= 0 -> R x y.
Hypothesis cmp_gt : forall x y, 0 < cmp x y -> R y x.

Lemma insert_sorted_rel (x : A) (l : list A) :
  StronglySorted R l -> StronglySorted R (insert cmp x l).
Proof.
  intros Hs. induction Hs as [|y l Hs IH Hy]; simpl.
  - constructor; constructor.
  - destruct (cmp x y <=? 0) eqn:E.
    + apply Z.leb_le in E. constructor.
      * constructor; assumption.
      * constructor; [apply cmp_le; exact E|].
        eapply Forall_impl; [|exact Hy]. simpl. intros z Hz.
        apply (R_trans x y z); [apply cmp_le; exact E | exact Hz].
    + apply Z.leb_gt in E. constructor.
      * exact IH.
      * apply Forall_forall. intros z Hz.
        apply (Permutation_in _ (insert_perm cmp x l)) in Hz.
        destruct Hz as [<- | Hz]; [apply cmp_gt; exact E|].
        rewrite Forall_forall in Hy. apply Hy. exact Hz.
Qed.

(** A comparison function that follows a transitive relation sorts by it. *)
Lemma sort_sorted_rel (l : list A) : StronglySorted R (sort cmp l).
Proof.
  induction l as [|x l IH]; simpl.
  - constructor.
  - apply insert_sorted_rel. exact IH.
Qed.

End SortRelation.

Lemma notAfter_trans (a b c : Climber) : notAfter a b -> notAfter b c -> notAfter a c.
Proof.
  unfold notAfter. intros [H1 | [H1 H1']] [H2 | [H2 H2']].
  - left. lia.
  - left. lia.
  - left. lia.
  - right. split; [lia|]. eapply compare_le_trans; eassumption.
Qed.

Lemma climberOrder_le (localeCompare : string -> string -> Z) (a b : Climber) :
  climberOrder localeCompare a b <= 0 -> notAfter a b.
Proof.
  unfold climberOrder, notAfter. fold (sessionNumber a) (sessionNumber b).
  destruct (sessionNumber a =? sessionNumber b) eqn:Es; cbn [negb].
  - apply Z.eqb_eq in Es.
    destruct (compareCategoriesRedpoint (category a) (category b) =? 0) eqn:Ec;
      cbn [negb]; intros H; right; split; try exact Es.
    + apply Z.eqb_eq in Ec. lia.
    + exact H.
  - apply Z.eqb_neq in Es. intros H. left. lia.
Qed.

Lemma climberOrder_gt (localeCompare : string -> string -> Z) (a b : Climber) :
  0 < climberOrder localeCompare a b -> notAfter b a.
Proof.
  unfold climberOrder, notAfter. fold (sessionNumber a) (sessionNumber b).
  destruct (sessionNumber a =? sessionNumber b) eqn:Es; cbn [negb].
  - apply Z.eqb_eq in Es. rewrite (compare_swap (category a) (category b)).
    destruct (compareCategoriesRedpoint (category a) (category b) =? 0) eqn:Ec;
      cbn [negb]; intros H; right; split; try (symmetry; exact Es).
    + apply Z.eqb_eq in Ec. lia.
    + lia.
  - apply Z.eqb_neq in Es. intros H. left. lia.
Qed.

(** X5: whatever the locale comparison does with the last names, the valid
    climbers come out of the parser in ascending order of session number
    and, within a session number, in the order of the category
    comparator. *)
Theorem X5_valid_climbers_sorted
    (localeCompare : string -> string -> Z) (data : list (list cell)) :
  StronglySorted notAfter (validClimbers (parseClimberData localeCompare data)).
Proof.
  unfold parseClimberData. destruct (len data <? 2); simpl; [constructor|].
  destruct (parseRows data) as [climbers sk]. simpl.
  apply sort_sorted_rel.
  - exact notAfter_trans.
  - apply climberOrder_le.
  - apply climberOrder_gt.
Qed.

Lemma rosterOrder_le (localeCompare : string -> string -> Z) (a b : Climber) :
  rosterOrder localeCompare a b <= 0 ->
  compareCategoriesRedpoint (category a) (category b) <= 0.
Proof.
  unfold rosterOrder.
  destruct (compareCategoriesRedpoint (category a) (category b) =? 0) eqn:Ec;
    cbn [negb]; intros H.
  - apply Z.eqb_eq in Ec. lia.
  - exact H.
Qed.

Lemma rosterOrder_gt (localeCompare : string -> string -> Z) (a b : Climber) :
  0 < rosterOrder localeCompare a b ->
  compareCategoriesRedpoint (category b) (category a) <= 0.
Proof.
  unfold rosterOrder. rewrite (compare_swap (category a) (category b)).
  destruct (compareCategoriesRedpoint (category a) (category b) =? 0) eqn:Ec;
    cbn [negb]; intros H.
  - apply Z.eqb_eq in Ec. lia.
  - lia.
Qed.

(** X6: every check-in list has its climbers in the order of the category
    comparator, whatever the locale comparison does with the last names. *)
Theorem X6_roster_sorted_by_category
    (localeCompare : string -> string -> Z) (climbers : list Climber) :
  Forall (fun roster =>
            StronglySorted
              (fun a b => compareCategoriesRedpoint (category a) (category b) <= 0)
              (snd roster))
    (checkInRosters localeCompare climbers).
Proof.
  unfold checkInRosters. apply Forall_forall. intros roster Hin.
  destruct (groupBySession climbers) as [sessionGroups|]; [|destruct Hin].
  apply in_map_iff in Hin as (sess & <- & _). simpl.
  apply sort_sorted_rel.
  - intros x y z. apply compare_le_trans.
  - apply rosterOrder_le.
  - apply rosterOrder_gt.
Qed.

(* ================================================================== *)
(** * Further properties of the registration parser *)
(* ================================================================== *)

Lemma takeDigits_allDigits (s : string) : allDigits (takeDigits s) = true.
Proof.
  induction s as [|c s IH]; simpl; [reflexivity|].
  destruct (isDigit c) eqn:E; simpl; [rewrite E; exact IH | reflexivity].
Qed.

Lemma matchDigits_allDigits (s m : string) :
  matchDigits s = Some m -> allDigits m = true.
Proof.
  induction s as [|c s IH]; simpl; intros H; [discriminate H|].
  destruct (isDigit c) eqn:E; [|auto].
  injection H as <-. simpl. rewrite E. simpl. apply takeDigits_allDigits.
Qed.

(** The token is a run of digits, or a text without any digit. *)
Lemma sessionToken_shape (text : string) :
  allDigits (sessionToken text) = true \/ matchDigits (sessionToken text) = None.
Proof.
  unfold sessionToken. destruct (matchDigits text) as [m|] eqn:E.
  - left. eapply matchDigits_allDigits. exact E.
  - right. exact E.
Qed.

Lemma sessionToken_trim (text : string) :
  trim text <> EmptyString -> trim (sessionToken text) <> EmptyString.
Proof.
  intros H. pose proof (sessionToken_not_blank text H) as Hb.
  apply orb_false_iff in Hb as [_ Hb]. apply String.eqb_neq in Hb. exact Hb.
Qed.

Section ParserSteps.

Variables firstnameIdx lastnameIdx bibIdx : Z.
Variable ticketColumns : list Ticket.t.

Lemma scanTickets_first (row : list cell) (fn ln b : cell) (climberName : string)
    (before after : list Ticket.t) (t : Ticket.t)
    (climbers : list Climber) (sk : list Skipped.t) :
  ticketsBlank row before ->
  trim (ticketText row t) <> EmptyString ->
  scanTickets row fn ln climberName b (before ++ t :: after) climbers sk
  = ((climbers
       ++ [mkClimber fn ln climberName b (Ticket.category t)
             (sessionToken (ticketText row t))])%list,
     sk, true).
Proof.
  intros Hblank Ht. induction Hblank as [|t0 rest Hb _ IH]; simpl.
  - rewrite ticket_guard.
    apply String.eqb_neq in Ht. rewrite Ht. cbn [negb].
    apply String.eqb_neq in Ht.
    pose proof (sessionToken_not_blank _ Ht) as Htok.
    unfold sessionToken, ticketText in Htok. rewrite Htok. reflexivity.
  - rewrite ticket_guard, Hb. simpl. exact IH.
Qed.

Lemma tickets_blank_or_first (row : list cell) (tickets : list Ticket.t) :
  ticketsBlank row tickets
  \/ exists before t after,
       tickets = (before ++ t :: after)%list
       /\ ticketsBlank row before
       /\ trim (ticketText row t) <> EmptyString.
Proof.
  induction tickets as [|t rest IH].
  - left. constructor.
  - destruct (String.eqb (trim (ticketText row t)) EmptyString) eqn:E.
    + apply String.eqb_eq in E. destruct IH as [IH | (before & t' & after & -> & Hb & Ht)].
      * left. constructor; assumption.
      * right. exists (t :: before), t', after. repeat split; try assumption.
        constructor; assumption.
    + apply String.eqb_neq in E. right. exists [], t, rest.
      repeat split; [constructor | exact E].
Qed.

(** What a row does to the two lists: nothing, one climber more, or one
    skipped entry more. *)
Lemma processRow_cases (st : list Climber * list Skipped.t) (dataRow : list cell) :
  let st' := processRow firstnameIdx lastnameIdx bibIdx ticketColumns st dataRow in
  st' = st
  \/ (exists (t : Ticket.t) (c : Climber),
        In t ticketColumns
        /\ category c = Ticket.category t
        /\ (exists text, trim text <> EmptyString /\ session c = sessionToken text)
        /\ st' = ((fst st ++ [c])%list, snd st))
  \/ (exists s, Skipped.reason s = noRegistration
                /\ st' = (fst st, (snd st ++ [s])%list)).
Proof.
  cbv zeta. unfold processRow.
  set (row := splitRow dataRow).
  destruct (negb (truthy (orEmpty (at_ row firstnameIdx)))
            && negb (truthy (orEmpty (at_ row lastnameIdx)))).
  - left. reflexivity.
  - destruct (tickets_blank_or_first row ticketColumns)
      as [Hblank | (before & t & after & Heq & Hblank & Ht)].
    + rewrite (scanTickets_blank _ _ _ _ _ _ _ _ Hblank). cbn [negb andb].
      destruct (strTruthy _).
      * right. right. eexists. split; [|reflexivity]. reflexivity.
      * left. destruct st; reflexivity.
    + rewrite Heq. rewrite (scanTickets_first _ _ _ _ _ _ _ _ _ _ Hblank Ht).
      cbn [negb andb]. right. left.
      exists t. eexists. split; [|split; [|split]].
      4: reflexivity.
      * apply in_or_app; right; left; reflexivity.
      * reflexivity.
      * exists (ticketText row t). split; [exact Ht | reflexivity].
Qed.

Lemma fold_processRow_count (rows : list (list cell))
    (st : list Climber * list Skipped.t) :
  let st' := fold_left (processRow firstnameIdx lastnameIdx bibIdx ticketColumns) rows st in
  len (fst st') + len (snd st') <= len (fst st) + len (snd st) + len rows.
Proof.
  cbv zeta. revert st; induction rows as [|r rows IH]; intros st; simpl fold_left.
  - unfold len; simpl; lia.
  - specialize (IH (processRow firstnameIdx lastnameIdx bibIdx ticketColumns st r)).
    assert (Hstep : len (fst (processRow firstnameIdx lastnameIdx bibIdx ticketColumns st r))
                    + len (snd (processRow firstnameIdx lastnameIdx bibIdx ticketColumns st r))
                    <= len (fst st) + len (snd st) + 1).
    { destruct (processRow_cases st r) as [H | [(t & c & _ & _ & _ & H) | (s & _ & H)]];
        rewrite H; unfold len; simpl; rewrite ?length_app; simpl; lia. }
    unfold len in *. simpl List.length. lia.
Qed.

Lemma fold_processRow_climbers (P : Climber -> Prop) (rows : list (list cell))
    (st : list Climber * list Skipped.t) :
  (forall (t : Ticket.t) (c : Climber),
      In t ticketColumns ->
      category c = Ticket.category t ->
      (exists text, trim text <> EmptyString /\ session c = sessionToken text) ->
      P c) ->
  Forall P (fst st) ->
  Forall P (fst (fold_left (processRow firstnameIdx lastnameIdx bibIdx ticketColumns) rows st)).
Proof.
  intros HP. revert st; induction rows as [|r rows IH]; intros st Hst; simpl.
  - exact Hst.
  - apply IH.
    destruct (processRow_cases st r) as [H | [(t & c & Hin & Hc & Hs & H) | (s & _ & H)]];
      rewrite H; simpl; try exact Hst.
    apply Forall_app. split; [exact Hst|]. constructor; [|constructor].
    apply (HP t c Hin Hc Hs).
Qed.

End ParserSteps.

(** X7: the first ticket column with text in its cell decides the
    registration: the climber gets that column's category and the session
    token of that cell, and the ticket columns after it are not read. *)
Theorem X7_first_ticket_wins
    (row : list cell) (fn ln b : cell) (climberName : string)
    (before after : list Ticket.t) (t : Ticket.t)
    (climbers : list Climber) (sk : list Skipped.t) :
  ticketsBlank row before ->
  trim (ticketText row t) <> EmptyString ->
  scanTickets row fn ln climberName b (before ++ t :: after) climbers sk
  = ((climbers
       ++ [mkClimber fn ln climberName b (Ticket.category t)
             (sessionToken (ticketText row t))])%list,
     sk, true).
Proof. apply scanTickets_first. Qed.

Lemma X7_first_ticket_wins_witness :
  let row := [CStr "Ann"; CStr "Lee"; CNum 4; CStr " "; CStr "Session 2"; CStr "Session 5"] in
  ticketsBlank row [Ticket.mk 3 "F12"]
  /\ trim (ticketText row (Ticket.mk 4 "M10")) <> EmptyString
  /\ scanTickets row (CStr "Ann") (CStr "Lee") "Ann Lee" (CNum 4)
       ([Ticket.mk 3 "F12"] ++ Ticket.mk 4 "M10" :: [Ticket.mk 5 "U9"]) [] []
     = ([mkClimber (CStr "Ann") (CStr "Lee") "Ann Lee" (CNum 4) "M10" "2"], [], true).
Proof.
  cbv zeta.
  assert (H1 : ticketsBlank
                 [CStr "Ann"; CStr "Lee"; CNum 4; CStr " "; CStr "Session 2"; CStr "Session 5"]
                 [Ticket.mk 3 "F12"]) by (repeat constructor).
  assert (H2 : trim (ticketText
                       [CStr "Ann"; CStr "Lee"; CNum 4; CStr " "; CStr "Session 2"; CStr "Session 5"]
                       (Ticket.mk 4 "M10")) <> EmptyString)
    by (vm_compute; discriminate).
  split; [exact H1|]. split; [exact H2|].
  exact (X7_first_ticket_wins _ (CStr "Ann") (CStr "Lee") (CNum 4) "Ann Lee"
           [Ticket.mk 3 "F12"] [Ticket.mk 5 "U9"] (Ticket.mk 4 "M10") [] [] H1 H2).
Defined.

(** X8: a data row gives at most one record: the valid and the skipped
    climbers together are never more than the data rows of the sheet. *)
Theorem X8_at_most_one_record_per_row
    (localeCompare : string -> string -> Z) (data : list (list cell)) :
  len (validClimbers (parseClimberData localeCompare data))
  + len (skippedClimbers (parseClimberData localeCompare data))
  <= len (tl data).
Proof.
  unfold parseClimberData. destruct (len data <? 2).
  - unfold len; simpl; lia.
  - destruct data as [|header rows]; [unfold len; simpl; lia|].
    unfold parseRows.
    match goal with
    | |- context [fold_left (processRow ?i ?j ?k ?t) rows ([], [])] =>
        pose proof (fold_processRow_count i j k t rows ([], [])) as H;
        destruct (fold_left (processRow i j k t) rows ([], [])) as [climbers sk]
    end.
    cbv zeta in H. simpl in H. simpl.
    unfold len in *.
    rewrite (Permutation_length (sort_perm (climberOrder localeCompare) climbers)).
    simpl in H. lia.
Qed.

(** X9: every valid climber has the category of one of the ticket columns
    of the header and a session token with text in it, which is either a
    run of digits or a text without any digit. *)
Theorem X9_valid_climber_fields
    (localeCompare : string -> string -> Z) (data : list (list cell)) :
  Forall (fun c =>
            In (category c)
               (map Ticket.category (ticketColumnsFrom (splitRow (hd [] data)) 0))
            /\ trim (session c) <> EmptyString
            /\ (allDigits (session c) = true \/ matchDigits (session c) = None))
    (validClimbers (parseClimberData localeCompare data)).
Proof.
  unfold parseClimberData. destruct (len data <? 2); [constructor|].
  destruct data as [|header rows]; [constructor|].
  unfold parseRows. cbn [hd].
  match goal with
  | |- context [fold_left (processRow ?i ?j ?k ?t) rows ([], [])] =>
      pose proof (fold_processRow_climbers i j k t
                    (fun c =>
                       In (category c) (map Ticket.category t)
                       /\ trim (session c) <> EmptyString
                       /\ (allDigits (session c) = true \/ matchDigits (session c) = None))
                    rows ([], [])) as H;
      destruct (fold_left (processRow i j k t) rows ([], [])) as [climbers sk]
  end.
  simpl in H. simpl.
  apply Forall_forall. intros c Hc.
  apply (Permutation_in _ (sort_perm _ climbers)) in Hc.
  assert (Hall : Forall (fun c =>
                   In (category c)
                     (map Ticket.category (ticketColumnsFrom (splitRow header) 0))
                   /\ trim (session c) <> EmptyString
                   /\ (allDigits (session c) = true \/ matchDigits (session c) = None))
                   climbers).
  { apply H; [|constructor].
    intros t c' Hin Hcat (text & Htext & Hsess). split; [|split].
    - rewrite Hcat. apply in_map. exact Hin.
    - rewrite Hsess. apply sessionToken_trim. exact Htext.
    - rewrite Hsess. apply sessionToken_shape. }
  rewrite Forall_forall in Hall. apply Hall. exact Hc.
Qed.

Lemma fold_left_skip {A B : Type} (f : A -> B -> A) (before after : list B)
    (x : B) (a : A) :
  (forall a', f a' x = a') ->
  fold_left f (before ++ x :: after) a = fold_left f (before ++ after) a.
Proof.
  intros Hx. rewrite !fold_left_app. simpl. rewrite Hx. reflexivity.
Qed.

(** X10: a data row whose first-name and last-name cells are both empty
    leaves no trace: the parser returns what it returns for the sheet
    without that row. *)
Theorem X10_blank_rows_ignored
    (localeCompare : string -> string -> Z)
    (header blank : list cell) (before after : list (list cell)) :
  let headerRow := splitRow header in
  truthy (orEmpty (at_ (splitRow blank) (indexOf (CStr "firstname") headerRow))) = false ->
  truthy (orEmpty (at_ (splitRow blank) (indexOf (CStr "lastname") headerRow))) = false ->
  parseClimberData localeCompare (header :: before ++ blank :: after)
  = parseClimberData localeCompare (header :: before ++ after).
Proof.
  cbv zeta. intros Hfn Hln.
  assert (Hrows : parseRows (header :: before ++ blank :: after)
                  = parseRows (header :: before ++ after)).
  { unfold parseRows. apply fold_left_skip. intros st.
    unfold processRow. rewrite Hfn, Hln. reflexivity. }
  unfold parseClimberData. rewrite Hrows.
  destruct (len (header :: before ++ blank :: after) <? 2) eqn:E1;
    destruct (len (header :: before ++ after) <? 2) eqn:E2; try reflexivity.
  - apply Z.ltb_lt in E1. unfold len in E1. simpl in E1.
    rewrite length_app in E1. simpl in E1. lia.
  - apply Z.ltb_lt in E2. unfold len in E2. simpl in E2.
    rewrite length_app in E2.
    assert (Hb : before = []) by (destruct before; [reflexivity | simpl in E2; lia]).
    assert (Ha : after = []) by (destruct after; [reflexivity | simpl in E2; lia]).
    subst. rewrite <- Hrows. simpl.
    unfold processRow. rewrite Hfn, Hln. reflexivity.
Qed.

Lemma X10_blank_rows_ignored_witness :
  let blank := [CStr EmptyString; CStr EmptyString; CNum 9; CStr "Session 1"; CStr EmptyString] in
  let ann := [CStr "Ann"; CStr "Lee"; CNum 4; CStr "Session 2"; CStr EmptyString] in
  truthy (orEmpty (at_ (splitRow blank)
                     (indexOf (CStr "firstname") (splitRow exampleHeader)))) = false
  /\ truthy (orEmpty (at_ (splitRow blank)
                        (indexOf (CStr "lastname") (splitRow exampleHeader)))) = false
  /\ parseClimberData byCodeUnit (exampleHeader :: [ann] ++ blank :: [])
     = parseClimberData byCodeUnit (exampleHeader :: [ann] ++ []).
Proof.
  cbv zeta.
  split; [reflexivity|]. split; [reflexivity|].
  exact (X10_blank_rows_ignored byCodeUnit exampleHeader
           [CStr EmptyString; CStr EmptyString; CNum 9; CStr "Session 1"; CStr EmptyString]
           [[CStr "Ann"; CStr "Lee"; CNum 4; CStr "Session 2"; CStr EmptyString]] []
           eq_refl eq_refl).
Defined.

(** ** The two forms of a row *)

Lemma includes_semicolon (a : ascii) (s : string) :
  includes ";" (String a s) = Ascii.eqb a ";" || includes ";" s.
Proof.
  cbn [includes String.prefix].
  destruct (ascii_dec ";" a) as [<- | Hne].
  - destruct s; reflexivity.
  - assert (E : Ascii.eqb a ";" = false)
      by (apply Ascii.eqb_neq; intros ->; apply Hne; reflexivity).
    rewrite E. reflexivity.
Qed.

Lemma split_no_semicolon (s : string) :
  includes ";" s = false -> split ";" s = [s].
Proof.
  induction s as [|a s IH]; intros H.
  - reflexivity.
  - rewrite includes_semicolon in H. apply orb_false_iff in H as [Ha Hs].
    simpl. rewrite Ha, (IH Hs). reflexivity.
Qed.

Lemma split_append (x r : string) :
  includes ";" x = false ->
  split ";" (x ++ String ";" r) = x :: split ";" r.
Proof.
  induction x as [|a x IH]; intros H.
  - reflexivity.
  - rewrite includes_semicolon in H. apply orb_false_iff in H as [Ha Hx].
    simpl. rewrite Ha, (IH Hx). reflexivity.
Qed.

Lemma includes_append (x r : string) : includes ";" (x ++ String ";" r) = true.
Proof.
  induction x as [|a x IH].
  - simpl append. rewrite includes_semicolon. reflexivity.
  - simpl append. rewrite includes_semicolon, IH. apply orb_true_r.
Qed.

(** Splitting at the semicolons gives back the texts that were joined. *)
Lemma split_concat (texts : list string) :
  texts <> [] ->
  Forall (fun s => includes ";" s = false) texts ->
  split ";" (String.concat ";" texts) = texts.
Proof.
  intros Hne Hall. induction Hall as [|x l Hx Hl IH]; [congruence|].
  destruct l as [|y l].
  - simpl. apply split_no_semicolon. exact Hx.
  - change (String.concat ";" (x :: y :: l))
      with (x ++ String ";" (String.concat ";" (y :: l))).
    rewrite split_append by exact Hx. rewrite IH by discriminate. reflexivity.
Qed.

Lemma splitRow_joined (texts : list string) (rest : list cell) :
  (2 <= List.length texts)%nat ->
  Forall (fun s => includes ";" s = false) texts ->
  splitRow (CStr (String.concat ";" texts) :: rest) = map CStr texts.
Proof.
  intros Hlen Hall. unfold splitRow.
  assert (Hinc : includes ";" (String.concat ";" texts) = true).
  { destruct texts as [|x [|y l]]; simpl in Hlen; try lia.
    change (String.concat ";" (x :: y :: l))
      with (x ++ String ";" (String.concat ";" (y :: l))).
    apply includes_append. }
  rewrite Hinc. rewrite split_concat; [reflexivity | | exact Hall].
  destruct texts; [simpl in Hlen; lia | discriminate].
Qed.

Lemma splitRow_separate (texts : list string) :
  Forall (fun s => includes ";" s = false) texts ->
  splitRow (map CStr texts) = map CStr texts.
Proof.
  intros Hall. destruct Hall as [|x l Hx Hl]; [reflexivity|].
  simpl. rewrite Hx. reflexivity.
Qed.

(** X11: a row of texts is read the same whether it arrives as separate
    cells or joined by semicolons in its first cell (whatever the cells
    after the first then hold), as long as there are at least two texts and
    none contains a semicolon. *)
Theorem X11_joined_row_read_as_separate_cells
    (firstnameIdx lastnameIdx bibIdx : Z) (ticketColumns : list Ticket.t)
    (st : list Climber * list Skipped.t) (texts : list string) (rest : list cell) :
  (2 <= List.length texts)%nat ->
  Forall (fun s => includes ";" s = false) texts ->
  processRow firstnameIdx lastnameIdx bibIdx ticketColumns st
    (CStr (String.concat ";" texts) :: rest)
  = processRow firstnameIdx lastnameIdx bibIdx ticketColumns st (map CStr texts).
Proof.
  intros Hlen Hall. unfold processRow.
  rewrite (splitRow_joined texts rest Hlen Hall), (splitRow_separate texts Hall).
  reflexivity.
Qed.

Lemma X11_joined_row_read_as_separate_cells_witness :
  let texts := ["Bob"; "Ray"; "5"; EmptyString; "Session 3"] in
  (2 <= List.length texts)%nat
  /\ Forall (fun s => includes ";" s = false) texts
  /\ processRow 0 1 2 (ticketColumnsFrom exampleHeader 0) ([], [])
       [CStr "Bob;Ray;5;;Session 3"; CStr EmptyString]
     = processRow 0 1 2 (ticketColumnsFrom exampleHeader 0) ([], [])
         [CStr "Bob"; CStr "Ray"; CStr "5"; CStr EmptyString; CStr "Session 3"].
Proof.
  cbv zeta.
  assert (H1 : (2 <= List.length ["Bob"; "Ray"; "5"; EmptyString; "Session 3"])%nat)
    by (simpl; lia).
  assert (H2 : Forall (fun s => includes ";" s = false)
                 ["Bob"; "Ray"; "5"; EmptyString; "Session 3"])
    by (repeat constructor).
  split; [exact H1|]. split; [exact H2|].
  exact (X11_joined_row_read_as_separate_cells 0 1 2 (ticketColumnsFrom exampleHeader 0)
           ([], []) ["Bob"; "Ray"; "5"; EmptyString; "Session 3"] [CStr EmptyString] H1 H2).
Defined.

(** ** The ticket columns of a header *)

Lemma at_head {A : Type} (x : A) (l : list A) : at_ (x :: l) 0 = Some x.
Proof. reflexivity. Qed.

Lemma at_tail {A : Type} (x : A) (l : list A) (i : Z) :
  0 < i -> at_ (x :: l) i = at_ l (i - 1).
Proof.
  intros Hi. unfold at_.
  destruct (Z.ltb_spec i 0); [lia|]. destruct (Z.ltb_spec (i - 1) 0); [lia|].
  replace (Z.to_nat i) with (S (Z.to_nat (i - 1))) by lia. reflexivity.
Qed.

Lemma at_some_nonneg {A : Type} (l : list A) (i : Z) (x : A) :
  at_ l i = Some x -> 0 <= i.
Proof.
  unfold at_. destruct (Z.ltb_spec i 0); [discriminate | lia].
Qed.

Lemma ticketColumnsFrom_spec (headerRow : list cell) (start idx : Z) (cat : string) :
  In (Ticket.mk idx cat) (ticketColumnsFrom headerRow start)
  <-> exists header,
        at_ headerRow (idx - start) = Some header
        /\ isTicketHeader header = true
        /\ cat = ticketCategory (toString header).
Proof.
  revert start; induction headerRow as [|h rest IH]; intros start; simpl.
  - split; [tauto|]. intros (header & H & _). unfold at_ in H.
    destruct (idx - start <? 0); [discriminate|].
    destruct (Z.to_nat (idx - start)); discriminate.
  - assert (Hrest : In (Ticket.mk idx cat) (ticketColumnsFrom rest (start + 1))
                    <-> exists header,
                          start < idx
                          /\ at_ (h :: rest) (idx - start) = Some header
                          /\ isTicketHeader header = true
                          /\ cat = ticketCategory (toString header)).
    { rewrite IH. split.
      - intros (header & Hat & Ht & Hc).
        pose proof (at_some_nonneg _ _ _ Hat).
        exists header. split; [lia|]. split; [|tauto].
        rewrite at_tail by lia. replace (idx - start - 1) with (idx - (start + 1)) by lia.
        exact Hat.
      - intros (header & Hlt & Hat & Ht & Hc). exists header. split; [|tauto].
        rewrite at_tail in Hat by lia.
        replace (idx - start - 1) with (idx - (start + 1)) in Hat by lia. exact Hat. }
    assert (Hhere : forall header,
               at_ (h :: rest) (idx - start) = Some header ->
               idx = start /\ header = h \/ start < idx).
    { intros header Hat. pose proof (at_some_nonneg _ _ _ Hat).
      destruct (Z.eq_dec idx start) as [-> | Hne]; [|right; lia].
      left. rewrite Z.sub_diag, at_head in Hat. injection Hat as <-. tauto. }
    destruct (isTicketHeader h) eqn:Eh.
    + simpl. rewrite Hrest. split.
      * intros [Heq | (header & _ & H)].
        -- injection Heq as <- <-. exists h. rewrite Z.sub_diag. tauto.
        -- exists header. exact H.
      * intros (header & Hat & Ht & Hc).
        destruct (Hhere header Hat) as [[-> ->] | Hlt].
        -- left. rewrite Hc. reflexivity.
        -- right. exists header. tauto.
    + rewrite Hrest. split.
      * intros (header & _ & H). exists header. exact H.
      * intros (header & Hat & Ht & Hc).
        destruct (Hhere header Hat) as [[-> ->] | Hlt]; [congruence|].
        exists header. tauto.
Qed.

(** X12: the ticket columns found in a header are exactly its cells that
    pass the ticket-header test, each with its own position in the header
    and with the category the suffix rule takes from its text. *)
Theorem X12_ticket_columns_exact (headerRow : list cell) (idx : Z) (cat : string) :
  In (Ticket.mk idx cat) (ticketColumnsFrom headerRow 0)
  <-> exists header,
        at_ headerRow idx = Some header
        /\ isTicketHeader header = true
        /\ cat = ticketCategory (toString header).
Proof.
  rewrite ticketColumnsFrom_spec. rewrite Z.sub_0_r. reflexivity.
Qed.

Lemma strRev_app (s acc : string) : strRev s acc = (reverse s ++ acc)%string.
Proof.
  unfold reverse. revert acc; induction s as [|c s IH]; intros acc; simpl.
  - reflexivity.
  - rewrite (IH (String c acc)), (IH (String c EmptyString)).
    rewrite append_assoc. reflexivity.
Qed.

Lemma append_empty_r (s : string) : (s ++ EmptyString)%string = s.
Proof. induction s as [|c s IH]; simpl; [reflexivity | rewrite IH; reflexivity]. Qed.

Lemma reverse_append (a b : string) :
  reverse (a ++ b) = (reverse b ++ reverse a)%string.
Proof.
  induction a as [|c a IH]; simpl.
  - rewrite append_empty_r. reflexivity.
  - unfold reverse in *. simpl. rewrite (strRev_app (a ++ b)), (strRev_app a).
    unfold reverse. rewrite IH, append_assoc. reflexivity.
Qed.

Lemma endsWith_append (c suffix : string) : endsWith suffix (c ++ suffix) = true.
Proof. unfold endsWith. rewrite reverse_append. apply prefix_append. Qed.

Lemma substring_head (c suffix : string) :
  String.substring 0 (String.length c) (c ++ suffix) = c.
Proof.
  induction c as [|a c IH]; simpl.
  - destruct suffix; reflexivity.
  - rewrite IH. reflexivity.
Qed.

Lemma dropEnd_append (c suffix : string) :
  dropEnd (String.length suffix) (c ++ suffix) = c.
Proof.
  unfold dropEnd. rewrite length_append.
  replace (String.length c + String.length suffix - String.length suffix)%nat
    with (String.length c) by lia.
  apply substring_head.
Qed.

Lemma truthy_append (c suffix : string) :
  suffix <> EmptyString -> truthy (CStr (c ++ suffix)) = true.
Proof.
  intros H. simpl. apply negb_true_iff. apply String.eqb_neq.
  destruct c; simpl; [exact H | discriminate].
Qed.

(** X13: a header made of a category followed by one of the three ticket
    suffixes gives back that category, and it is a ticket column exactly
    when its text does not contain "status". *)
Theorem X13_category_of_ticket_header (c : string) :
  let boulder := (c ++ " boulder ticket")%string in
  let lead := (c ++ " lead ticket")%string in
  let rope := (c ++ " rope ticket")%string in
  (ticketCategory boulder = c /\ ticketCategory lead = c /\ ticketCategory rope = c)
  /\ isTicketHeader (CStr boulder) = negb (includes "status" boulder)
  /\ isTicketHeader (CStr lead) = negb (includes "status" lead)
  /\ isTicketHeader (CStr rope) = negb (includes "status" rope).
Proof.
  cbv zeta.
  assert (Hb : endsWith " boulder ticket" (c ++ " boulder ticket") = true)
    by apply endsWith_append.
  assert (Hl : endsWith " lead ticket" (c ++ " lead ticket") = true)
    by apply endsWith_append.
  assert (Hr : endsWith " rope ticket" (c ++ " rope ticket") = true)
    by apply endsWith_append.
  assert (Hlb : endsWith " boulder ticket" (c ++ " lead ticket") = false)
    by (unfold endsWith; rewrite reverse_append; reflexivity).
  assert (Hrb : endsWith " boulder ticket" (c ++ " rope ticket") = false)
    by (unfold endsWith; rewrite reverse_append; reflexivity).
  assert (Hrl : endsWith " lead ticket" (c ++ " rope ticket") = false)
    by (unfold endsWith; rewrite reverse_append; reflexivity).
  split; [split; [|split]|split; [|split]].
  - unfold ticketCategory. rewrite Hb.
    apply (dropEnd_append c " boulder ticket").
  - unfold ticketCategory. rewrite Hlb, Hl.
    apply (dropEnd_append c " lead ticket").
  - unfold ticketCategory. rewrite Hrb, Hrl, Hr.
    apply (dropEnd_append c " rope ticket").
  - unfold isTicketHeader. rewrite truthy_append by discriminate.
    cbn [toString]. rewrite Hb. reflexivity.
  - unfold isTicketHeader. rewrite truthy_append by discriminate.
    cbn [toString]. rewrite Hl, Hlb. reflexivity.
  - unfold isTicketHeader. rewrite truthy_append by discriminate.
    cbn [toString]. rewrite Hr, Hrb, Hrl. reflexivity.
Qed.

(* ================================================================== *)
(** * Further properties of the climb assignments *)
(* ================================================================== *)

Lemma split_not_nil (sep : ascii) (s : string) : split sep s <> [].
Proof.
  destruct s as [|c s]; simpl; [discriminate|].
  destruct (Ascii.eqb c sep); [discriminate|].
  destruct (split sep s); discriminate.
Qed.

Section ObjLookup.

Context {V : Type}.
Implicit Types (o : obj V) (k : string) (v : V).



Lemma set_values (P : V -> Prop) o k v :
  P v -> Forall (fun e => P (snd e)) o -> Forall (fun e => P (snd e)) (set o k v).
Proof.
  intros Hv Ho. induction Ho as [|[k' v'] o He Ho IH]; simpl.
  - constructor; [exact Hv | constructor].
  - destruct (String.eqb k' k); constructor; simpl; assumption.
Qed.

Lemma get_member o k v : get o k = Some v -> In (k, v) o.
Proof.
  induction o as [|[k' v'] o IH]; simpl; intros H; [discriminate H|].
  destruct (String.eqb k' k) eqn:E.
  - apply String.eqb_eq in E. injection H as ->. left. congruence.
  - right. exact (IH H).
Qed.

End ObjLookup.

Lemma assignmentRow_values (a : obj (list string)) (r : list cell) :
  Forall (fun e => snd e <> []) a ->
  Forall (fun e => snd e <> []) (assignmentRow a r).
Proof.
  intros Ha. unfold assignmentRow.
  destruct (at_ r 0) as [c|]; [|exact Ha].
  destruct (at_ r 1) as [s|]; [|exact Ha].
  destruct (negb (truthy c) || negb (truthy s)); [exact Ha|].
  apply (set_values (fun v => v <> [])); [|exact Ha].
  intros H. apply map_eq_nil in H. exact (split_not_nil _ _ H).
Qed.

Lemma parseClimbAssignments_values (data : list (list cell)) :
  Forall (fun e => snd e <> []) (parseClimbAssignments data).
Proof.
  unfold parseClimbAssignments.
  assert (H : forall rows a, Forall (fun e : string * list string => snd e <> []) a ->
                             Forall (fun e => snd e <> []) (fold_left assignmentRow rows a)).
  { induction rows as [|r rows IH]; intros a Ha; simpl; [exact Ha|].
    apply IH. apply assignmentRow_values. exact Ha. }
  apply H. constructor.
Qed.

Lemma parseClimbAssignments_get (data : list (list cell)) (cat : string)
    (climbs : list string) :
  get (parseClimbAssignments data) cat = Some climbs -> climbs <> [].
Proof.
  intros H. apply get_member in H.
  pose proof (parseClimbAssignments_values data) as Hall.
  rewrite Forall_forall in Hall. exact (Hall _ H).
Qed.

(** X14: a category that is in the parsed climb assignments has at least one
    climb identifier: a climb cell with text always splits into one
    identifier or more. *)
Theorem X14_assigned_category_has_climbs (data : list (list cell)) :
  Forall (fun entry => snd entry <> []) (parseClimbAssignments data).
Proof. apply parseClimbAssignments_values. Qed.



(* ================================================================== *)
(** * Further properties of the scorecard layout *)
(* ================================================================== *)

Section LayoutFacts.

Variable total : Z.
Variable climbAssignments : obj (list string).
Variable eventName : cell.
Variable numClimbs : Z.
Variable numAttempts : Z.
Variable scoringNotes : cell.
Variable eventType : cell.

(** A climber without climbs is skipped, any other gets a card. *)
Lemma layoutClimber_cases (st : Layout) (climber : Climber) :
  let climbs := categoryClimbsOf climbAssignments (category climber) in
  (climbs = []
   /\ (layoutClimber total climbAssignments eventName numClimbs numAttempts
       scoringNotes eventType st climber)
      = mkLayout (currentRow st) (successfulCards st)
          (skipped st ++ [Skipped.mk (name climber) (Some (category climber)) noClimbs])%list
          (ops st))
  \/ (climbs <> []
      /\ exists cardOps afterCard rowsUsedCount,
           cardBody eventName numAttempts scoringNotes eventType climber climbs
             (Z.min (len climbs) numClimbs) (currentRow st)
           = (cardOps, afterCard, rowsUsedCount)
           /\ (layoutClimber total climbAssignments eventName numClimbs numAttempts
       scoringNotes eventType st climber)
              = mkLayout
                  (padding total (Z.rem (successfulCards st) 2 =? 0)
                     (successfulCards st) (len (skipped st)) rowsUsedCount afterCard)
                  (successfulCards st + 1) (skipped st) (ops st ++ cardOps)%list).
Proof.
  cbv zeta. unfold layoutClimber.
  destruct (categoryClimbsOf climbAssignments (category climber)) as [|c0 climbs] eqn:E.
  - left. split; reflexivity.
  - right. split; [discriminate|].
    replace (len (c0 :: climbs) =? 0) with false
      by (symmetry; apply Z.eqb_neq; unfold len; simpl; lia).
    destruct (cardBody eventName numAttempts scoringNotes eventType climber
                (c0 :: climbs) (Z.min (len (c0 :: climbs)) numClimbs) (currentRow st))
      as [[cardOps afterCard] rowsUsedCount].
    exists cardOps, afterCard, rowsUsedCount. split; reflexivity.
Qed.

Lemma layoutClimber_count (st : Layout) (climber : Climber) :
  successfulCards (layoutClimber total climbAssignments eventName numClimbs numAttempts
       scoringNotes eventType st climber) + len (skipped (layoutClimber total climbAssignments eventName numClimbs numAttempts
       scoringNotes eventType st climber))
  = successfulCards st + len (skipped st) + 1.
Proof.
  destruct (layoutClimber_cases st climber)
    as [[_ H] | [_ (cardOps & afterCard & used & _ & H)]]; rewrite H; simpl.
  - unfold len. rewrite length_app. simpl. lia.
  - lia.
Qed.

Lemma layoutFrom_count (climbers : list Climber) (st : Layout) :
  let st' := layoutFrom total climbAssignments eventName numClimbs numAttempts
               scoringNotes eventType st climbers in
  successfulCards st' + len (skipped st')
  = successfulCards st + len (skipped st) + len climbers.
Proof.
  cbv zeta. unfold layoutFrom. revert st.
  induction climbers as [|c climbers IH]; intros st; simpl fold_left.
  - unfold len; simpl; lia.
  - rewrite IH. rewrite layoutClimber_count.
    unfold len. simpl List.length. lia.
Qed.

End LayoutFacts.

(** X16: every climber is either laid out or skipped: at the end of a run
    the cards laid out and the climbers skipped add up to the climbers
    given, so the number of cards is the number of climbers less the
    skipped ones, the count the closing message reports. *)
Theorem X16_cards_plus_skipped
    (maxRows maxColumns : Z) (climbers : list Climber)
    (climbAssignments : obj (list string)) (eventName : cell)
    (numClimbs numAttempts : Z) (scoringNotes eventType : cell) :
  let run := createRedpointScorecards maxRows maxColumns climbers climbAssignments
               eventName numClimbs numAttempts scoringNotes eventType in
  successfulCards run = len climbers - len (skipped run).
Proof.
  cbv zeta. unfold createRedpointScorecards.
  pose proof (layoutFrom_count (len climbers) climbAssignments eventName numClimbs
                numAttempts scoringNotes eventType climbers
                (mkLayout 1 0 [] (ensureSize (len climbers) maxRows maxColumns))) as H.
  cbv zeta in H. simpl in H. unfold len in *. simpl in H. lia.
Qed.

(** Only [__proto__] gives a member without a [length]. *)
Lemma inherited_without_length (k : string) :
  inherited k = Some None -> k = "__proto__".
Proof.
  unfold inherited, objectPrototype. cbn [get].
  repeat match goal with
         | |- (if String.eqb ?n k then _ else _) = _ -> _ =>
             destruct (String.eqb n k) eqn:?; [try discriminate|]
         end.
  - intros _. symmetry. apply String.eqb_eq. assumption.
  - discriminate.
Qed.

(** X17: with the climb assignments as parsed from a Climbs sheet without a
    row for [__proto__], a climber whose category is not [__proto__] is
    skipped exactly when the lookup for the category finds no climbs: the
    category has no entry and names either nothing the table inherits or an
    inherited function without parameters.  Every other climber, with an
    entry or with a category that names an inherited function with
    parameters, gets a card and the skipped list stays as it was. *)
Theorem X17_skipped_iff_no_climbs_found
    (data : list (list cell)) (total : Z) (eventName : cell)
    (numClimbs numAttempts : Z) (scoringNotes eventType : cell)
    (st : Layout) (climber : Climber) :
  get (parseClimbAssignments data) "__proto__" = None ->
  category climber <> "__proto__" ->
  let assignments := parseClimbAssignments data in
  let st' := layoutClimber total assignments eventName numClimbs numAttempts
               scoringNotes eventType st climber in
  (get assignments (category climber) = None
   /\ (inherited (category climber) = None
       \/ inherited (category climber) = Some (Some 0%nat))
   /\ successfulCards st' = successfulCards st
   /\ skipped st'
      = (skipped st
         ++ [Skipped.mk (name climber) (Some (category climber))
               "No climbs assigned to category"])%list)
  \/ ((get assignments (category climber) <> None
       \/ exists parameters,
            inherited (category climber) = Some (Some (S parameters)))
      /\ successfulCards st' = successfulCards st + 1
      /\ skipped st' = skipped st).
Proof.
  intros _ Hproto. cbv zeta.
  destruct (layoutClimber_cases total (parseClimbAssignments data) eventName numClimbs
              numAttempts scoringNotes eventType st climber)
    as [[Hnil H] | [Hcons (cardOps & afterCard & used & _ & H)]]; rewrite H; simpl.
  - left. unfold categoryClimbsOf in Hnil.
    destruct (get (parseClimbAssignments data) (category climber)) as [climbs|] eqn:E.
    { subst climbs. exfalso. exact (parseClimbAssignments_get _ _ _ E eq_refl). }
    split; [reflexivity|]. split; [|split; reflexivity].
    destruct (inherited (category climber)) as [[[|parameters]|]|] eqn:Ein.
    + right. reflexivity.
    + discriminate Hnil.
    + exfalso. apply Hproto. apply inherited_without_length. exact Ein.
    + left. reflexivity.
  - right. split; [|split; reflexivity].
    unfold categoryClimbsOf in Hcons.
    destruct (get (parseClimbAssignments data) (category climber)) as [climbs|];
      [left; discriminate|].
    right. destruct (inherited (category climber)) as [[[|parameters]|]|];
      try (exfalso; apply Hcons; reflexivity).
    exists parameters. reflexivity.
Qed.

Lemma X17_skipped_iff_no_climbs_found_witness :
  get (parseClimbAssignments exampleClimbs) "__proto__" = None
  /\ category bob <> "__proto__"
  /\ ((get (parseClimbAssignments exampleClimbs) (category bob) = None
       /\ (inherited (category bob) = None
           \/ inherited (category bob) = Some (Some 0%nat))
       /\ successfulCards
            (layoutClimber 3 (parseClimbAssignments exampleClimbs)
               (CStr "Spring Open") 3 5 (CStr EmptyString) (CStr "Boulder")
               (mkLayout 30 1 [] []) bob)
          = 1
       /\ skipped
            (layoutClimber 3 (parseClimbAssignments exampleClimbs)
               (CStr "Spring Open") 3 5 (CStr EmptyString) (CStr "Boulder")
               (mkLayout 30 1 [] []) bob)
          = ([] ++ [Skipped.mk "Bob Ray" (Some "M10")
                      "No climbs assigned to category"])%list)
      \/ ((get (parseClimbAssignments exampleClimbs) (category bob) <> None
           \/ exists parameters,
                inherited (category bob) = Some (Some (S parameters)))
          /\ successfulCards
               (layoutClimber 3 (parseClimbAssignments exampleClimbs)
                  (CStr "Spring Open") 3 5 (CStr EmptyString) (CStr "Boulder")
                  (mkLayout 30 1 [] []) bob)
             = 1 + 1
          /\ skipped
               (layoutClimber 3 (parseClimbAssignments exampleClimbs)
                  (CStr "Spring Open") 3 5 (CStr EmptyString) (CStr "Boulder")
                  (mkLayout 30 1 [] []) bob)
             = [])).
Proof.
  assert (H0 : get (parseClimbAssignments exampleClimbs) "__proto__" = None)
    by reflexivity.
  assert (H : category bob <> "__proto__") by (vm_compute; discriminate).
  split; [exact H0|]. split; [exact H|].
  exact (X17_skipped_iff_no_climbs_found exampleClimbs 3 (CStr "Spring Open") 3 5
           (CStr EmptyString) (CStr "Boulder") (mkLayout 30 1 [] []) bob H0 H).
Defined.

Lemma in_range (a b x : Z) : In x (range a b) <-> a <= x < b.
Proof.
  unfold range. rewrite in_map_iff. split.
  - intros (i & <- & Hi). apply in_seq in Hi. lia.
  - intros H. exists (Z.to_nat (x - a)). split; [lia|]. apply in_seq. lia.
Qed.

Lemma len_range (a b : Z) : a <= b -> len (range a b) = b - a.
Proof.
  intros H. unfold len, range. rewrite length_map, length_seq. lia.
Qed.

Lemma doubleRows_app (a b : list SheetOp) :
  doubleRows (a ++ b) = doubleRows a + doubleRows b.
Proof.
  unfold doubleRows, len. rewrite filter_app, length_app. lia.
Qed.

Lemma padTo_ge (target used row : Z) : row <= padTo target used row.
Proof. unfold padTo. destruct (target - used >? 0) eqn:E; lia. Qed.

Lemma padTo_fits (target used row : Z) :
  used <= target -> padTo target used row = row + (target - used).
Proof.
  intros H. unfold padTo. destruct (Z.gtb_spec (target - used) 0); lia.
Qed.

Ltac rows_fixed :=
  repeat (apply Forall_cons;
          [let r := fresh "r" in let Hr := fresh "Hr" in
           intros r Hr; simpl in Hr; try discriminate Hr; injection Hr as <-; lia|]);
  apply Forall_nil.

Ltac columns_fixed :=
  repeat (apply Forall_cons; [vm_compute; discriminate|]); apply Forall_nil.

Section CardGeometry.

Variable total : Z.
Variable climbAssignments : obj (list string).
Variable eventName : cell.
Variable numClimbs : Z.
Variable numAttempts : Z.
Variable scoringNotes : cell.
Variable eventType : cell.

Lemma padding_ge (isOddCard : bool) (successful skippedSoFar used row : Z) :
  row <= padding total isOddCard successful skippedSoFar used row.
Proof.
  unfold padding. pose proof (padTo_ge 33 used row). pose proof (padTo_ge 34 used row).
  destruct isOddCard; [lia|]. destruct (gapAfter _ _ _); lia.
Qed.

Lemma attemptOps_forall (P : SheetOp -> Prop) (r : Z) :
  (forall k, 1 <= k <= numAttempts -> P (SetValue r (1 + k) (CNum k))) ->
  Forall P (attemptOps numAttempts r).
Proof.
  intros H. unfold attemptOps. apply Forall_forall. intros op Hop.
  apply in_map_iff in Hop as (k & <- & Hk). apply in_range in Hk. apply H. lia.
Qed.

Lemma gridOps_forall (P : SheetOp -> Prop) (climbs : list string) (g n : Z) :
  (forall idx, 0 <= idx < n ->
     Forall P (climbRowOps numAttempts eventType climbs g idx)) ->
  Forall P (gridOps numAttempts eventType climbs g n).
Proof.
  intros H. unfold gridOps. apply Forall_forall. intros op Hop.
  apply in_flat_map in Hop as (idx & Hidx & Hop). apply in_range in Hidx.
  specialize (H idx Hidx). rewrite Forall_forall in H. exact (H op Hop).
Qed.

Lemma gridOps_rows (climbs : list string) (g n lo hi : Z) :
  lo <= g -> g + n <= hi ->
  Forall (rowsWithin lo hi) (gridOps numAttempts eventType climbs g n).
Proof.
  intros Hlo Hhi. apply gridOps_forall. intros idx Hidx. unfold climbRowOps.
  constructor; [intros r Hr; injection Hr as <-; lia|].
  apply Forall_app. split.
  - apply attemptOps_forall. intros k _ r Hr. injection Hr as <-. lia.
  - constructor; [intros r Hr; injection Hr as <-; lia | constructor].
Qed.

Lemma gridOps_columns (climbs : list string) (g n : Z) :
  numAttempts <= MAX_ATTEMPTS ->
  Forall (fun op => lastColumnWritten op <= CARD_WIDTH_COLS)
    (gridOps numAttempts eventType climbs g n).
Proof.
  intros Hmax. unfold MAX_ATTEMPTS in Hmax.
  apply gridOps_forall. intros idx _. unfold climbRowOps.
  constructor; [vm_compute; discriminate|].
  apply Forall_app. split.
  - apply attemptOps_forall. intros k Hk.
    unfold CARD_WIDTH_COLS, MAX_ATTEMPTS. cbn [lastColumnWritten]. lia.
  - constructor; [vm_compute; discriminate | constructor].
Qed.

Lemma doubleRows_attempts (r : Z) : doubleRows (attemptOps numAttempts r) = 0.
Proof.
  unfold attemptOps, doubleRows.
  induction (range 1 (numAttempts + 1)) as [|k l IH]; [reflexivity | exact IH].
Qed.

Lemma doubleRows_grid (climbs : list string) (g n : Z) :
  0 <= n -> doubleRows (gridOps numAttempts eventType climbs g n) = n.
Proof.
  intros Hn. unfold gridOps. rewrite <- (Z.sub_0_r n) at 2.
  rewrite <- (len_range 0 n Hn).
  induction (range 0 n) as [|idx l IH]; [reflexivity|].
  cbn [flat_map]. rewrite doubleRows_app, IH.
  unfold climbRowOps.
  change (doubleRows (?a :: ?b ++ ?c)) with (doubleRows ([a] ++ b ++ c)).
  rewrite !doubleRows_app, doubleRows_attempts.
  unfold len. simpl List.length.
  replace (doubleRows [SetValue _ 1 _]) with 0 by reflexivity.
  replace (doubleRows [SetRowHeight _ _]) with 1 by reflexivity.
  lia.
Qed.

(** The card of a climber: where it ends, what it counts as used, which
    rows and columns it touches, and how many of its rows are double
    height. *)
Lemma cardBody_shape (climber : Climber) (climbs : list string) (n start : Z) :
  let body := cardBody eventName numAttempts scoringNotes eventType climber
                climbs n start in
  let cardOps := fst (fst body) in
  let afterCard := snd (fst body) in
  let used := snd body in
  afterCard = start + 4 + n + (if truthy scoringNotes then 2 else 0)
  /\ used = 6 + 2 * n + (if truthy scoringNotes then 2 else 0)
  /\ (0 <= n -> Forall (rowsWithin start afterCard) cardOps)
  /\ (numAttempts <= MAX_ATTEMPTS ->
      Forall (fun op => lastColumnWritten op <= CARD_WIDTH_COLS) cardOps)
  /\ (0 <= n -> doubleRows cardOps = n + 2).
Proof.
  cbv zeta. unfold cardBody.
  destruct (truthy scoringNotes); cbn [fst snd].
  - split; [lia|]. split; [lia|]. split; [|split].
    + intros Hn. repeat (apply Forall_app; split).
      1-3, 5: rows_fixed.
      apply gridOps_rows; lia.
    + intros Hmax. repeat (apply Forall_app; split).
      1-3, 5: columns_fixed.
      apply gridOps_columns. exact Hmax.
    + intros Hn. rewrite !doubleRows_app, doubleRows_grid by exact Hn.
      unfold doubleRows, len. cbn [filter doubleHeight]. rewrite !Z.eqb_refl.
      cbn [List.length]. lia.
  - split; [lia|]. split; [lia|]. split; [|split].
    + intros Hn. repeat (apply Forall_app; split).
      1-3: rows_fixed.
      apply gridOps_rows; lia.
    + intros Hmax. repeat (apply Forall_app; split).
      1-3: columns_fixed.
      apply gridOps_columns. exact Hmax.
    + intros Hn. rewrite !doubleRows_app, doubleRows_grid by exact Hn.
      unfold doubleRows, len. cbn [filter doubleHeight]. rewrite !Z.eqb_refl.
      cbn [List.length]. lia.
Qed.

End CardGeometry.

Lemma rowsWithin_wider (lo hi hi' : Z) (op : SheetOp) :
  hi <= hi' -> rowsWithin lo hi op -> rowsWithin lo hi' op.
Proof. intros Hhi H r Hr. specialize (H r Hr). lia. Qed.

Section CardPlacement.

Variable total : Z.
Variable climbAssignments : obj (list string).
Variable eventName : cell.
Variable numClimbs : Z.
Variable numAttempts : Z.
Variable scoringNotes : cell.
Variable eventType : cell.

(** What one pass of the loop adds to the sheet, and where. *)
Lemma layoutClimber_placed (st : Layout) (climber : Climber) :
  exists cardOps,
    ops (layoutClimber total climbAssignments eventName numClimbs numAttempts
       scoringNotes eventType st climber) = (ops st ++ cardOps)%list
    /\ (0 <= numClimbs ->
        currentRow st <= currentRow (layoutClimber total climbAssignments eventName numClimbs numAttempts
       scoringNotes eventType st climber)
        /\ Forall (rowsWithin (currentRow st) (currentRow (layoutClimber total climbAssignments eventName numClimbs numAttempts
       scoringNotes eventType st climber))) cardOps)
    /\ (numAttempts <= MAX_ATTEMPTS ->
        Forall (fun op => lastColumnWritten op <= CARD_WIDTH_COLS) cardOps).
Proof.
  destruct (layoutClimber_cases total climbAssignments eventName numClimbs numAttempts
              scoringNotes eventType st climber)
    as [[_ H] | [Hclimbs (cardOps & afterCard & used & Hbody & H)]];
    rewrite H; cbn [ops currentRow].
  - exists []. rewrite app_nil_r. split; [reflexivity|].
    split; [intros _; split; [lia | constructor] | intros _; constructor].
  - exists cardOps. split; [reflexivity|].
    pose proof (cardBody_shape eventName numAttempts scoringNotes eventType climber
                  (categoryClimbsOf climbAssignments (category climber))
                  (Z.min (len (categoryClimbsOf climbAssignments (category climber)))
                     numClimbs)
                  (currentRow st)) as Hshape.
    cbv zeta in Hshape. rewrite Hbody in Hshape. cbn [fst snd] in Hshape.
    destruct Hshape as (Hafter & _ & Hrows & Hcols & _).
    split; [|exact Hcols].
    intros Hnum.
    assert (Hn : 0 <= Z.min (len (categoryClimbsOf climbAssignments (category climber)))
                        numClimbs) by (unfold len; lia).
    pose proof (padding_ge total (Z.rem (successfulCards st) 2 =? 0)
                  (successfulCards st) (len (skipped st)) used afterCard) as Hpad.
    split.
    + destruct (truthy scoringNotes); lia.
    + eapply Forall_impl; [|exact (Hrows Hn)].
      intros op. apply rowsWithin_wider. exact Hpad.
Qed.

(** The rows a fitting card takes on the sheet. *)
Lemma layoutClimber_advance (st : Layout) (climber : Climber) :
  let climbs := categoryClimbsOf climbAssignments (category climber) in
  let n := Z.min (len climbs) numClimbs in
  climbs <> [] ->
  0 <= numClimbs ->
  6 + 2 * n + (if truthy scoringNotes then 2 else 0) <= 33 ->
  exists cardOps,
    ops (layoutClimber total climbAssignments eventName numClimbs numAttempts
       scoringNotes eventType st climber) = (ops st ++ cardOps)%list
    /\ doubleRows cardOps = n + 2
    /\ successfulCards (layoutClimber total climbAssignments eventName numClimbs numAttempts
       scoringNotes eventType st climber) = successfulCards st + 1
    /\ currentRow (layoutClimber total climbAssignments eventName numClimbs numAttempts
       scoringNotes eventType st climber)
       = currentRow st + 32 - n
         + (if Z.rem (successfulCards st) 2 =? 0 then 0
            else if gapAfter total (successfulCards st) (len (skipped st))
                 then 2 else 0).
Proof.
  cbv zeta. intros Hclimbs Hnum Hfits.
  destruct (layoutClimber_cases total climbAssignments eventName numClimbs numAttempts
              scoringNotes eventType st climber)
    as [[Hnil _] | [_ (cardOps & afterCard & used & Hbody & H)]]; [congruence|].
  rewrite H. cbn [ops currentRow successfulCards].
  pose proof (cardBody_shape eventName numAttempts scoringNotes eventType climber
                (categoryClimbsOf climbAssignments (category climber))
                (Z.min (len (categoryClimbsOf climbAssignments (category climber)))
                   numClimbs)
                (currentRow st)) as Hshape.
  cbv zeta in Hshape. rewrite Hbody in Hshape. cbn [fst snd] in Hshape.
  destruct Hshape as (Hafter & Hused & _ & _ & Hdouble).
  assert (Hn : 0 <= Z.min (len (categoryClimbsOf climbAssignments (category climber)))
                      numClimbs) by (unfold len; lia).
  exists cardOps. split; [reflexivity|]. split; [exact (Hdouble Hn)|].
  split; [reflexivity|].
  unfold padding.
  destruct (Z.rem (successfulCards st) 2 =? 0).
  - rewrite padTo_fits by lia. lia.
  - rewrite padTo_fits by lia.
    destruct (gapAfter total (successfulCards st) (len (skipped st))); lia.
Qed.



End CardPlacement.



(** X19: with an attempt count of at most ten, nothing one pass of the loop
    writes goes beyond the eleven columns of a card. *)
Theorem X19_card_within_its_columns
    (total : Z) (climbAssignments : obj (list string)) (eventName : cell)
    (numClimbs numAttempts : Z) (scoringNotes eventType : cell)
    (st : Layout) (climber : Climber) :
  numAttempts <= MAX_ATTEMPTS ->
  exists cardOps,
    ops (layoutClimber total climbAssignments eventName numClimbs numAttempts
           scoringNotes eventType st climber)
    = (ops st ++ cardOps)%list
    /\ Forall (fun op => lastColumnWritten op <= CARD_WIDTH_COLS) cardOps.
Proof.
  intros Hmax.
  destruct (layoutClimber_placed total climbAssignments eventName numClimbs numAttempts
              scoringNotes eventType st climber) as (cardOps & Hops & _ & Hcols).
  exists cardOps. split; [exact Hops | exact (Hcols Hmax)].
Qed.

Lemma X19_card_within_its_columns_witness :
  10 <= MAX_ATTEMPTS
  /\ exists cardOps,
       ops (layoutClimber 1 exampleAssignments (CStr "Spring Open") 3 10
              (CStr EmptyString) (CStr "Boulder") (mkLayout 1 0 [] []) ann)
       = ([] ++ cardOps)%list
       /\ Forall (fun op => lastColumnWritten op <= CARD_WIDTH_COLS) cardOps.
Proof.
  assert (H : 10 <= MAX_ATTEMPTS) by (unfold MAX_ATTEMPTS; lia).
  split; [exact H|].
  exact (X19_card_within_its_columns 1 exampleAssignments (CStr "Spring Open") 3 10
           (CStr EmptyString) (CStr "Boulder") (mkLayout 1 0 [] []) ann H).
Defined.

(** X20: a card whose row count fits the budget of 33 takes the same height
    whatever the number of its climbs and whether it has notes: the sheet
    rows the cursor moves over and the rows made double height add up to 34
    row units, and to 36 when the two-row gap follows the second card of a
    pair. *)
Theorem X20_card_height_constant
    (total : Z) (climbAssignments : obj (list string)) (eventName : cell)
    (numClimbs numAttempts : Z) (scoringNotes eventType : cell)
    (st : Layout) (climber : Climber) :
  let climbs := categoryClimbsOf climbAssignments (category climber) in
  let n := Z.min (len climbs) numClimbs in
  let st' := layoutClimber total climbAssignments eventName numClimbs numAttempts
               scoringNotes eventType st climber in
  climbs <> [] ->
  0 <= numClimbs ->
  6 + 2 * n + (if truthy scoringNotes then 2 else 0) <= 33 ->
  exists cardOps,
    ops st' = (ops st ++ cardOps)%list
    /\ (currentRow st' - currentRow st) + doubleRows cardOps
       = 34 + (if Z.rem (successfulCards st) 2 =? 0 then 0
               else if gapAfter total (successfulCards st) (len (skipped st))
                    then 2 else 0).
Proof.
  cbv zeta. intros Hclimbs Hnum Hfits.
  destruct (layoutClimber_advance total climbAssignments eventName numClimbs numAttempts
              scoringNotes eventType st climber Hclimbs Hnum Hfits)
    as (cardOps & Hops & Hdouble & _ & Hcur).
  exists cardOps. split; [exact Hops|]. rewrite Hcur, Hdouble. lia.
Qed.

Lemma X20_card_height_constant_witness :
  categoryClimbsOf exampleAssignments (category ann) <> []
  /\ 0 <= 2
  /\ 6 + 2 * Z.min (len (categoryClimbsOf exampleAssignments (category ann))) 2
       + (if truthy (CStr "Flash counts double") then 2 else 0) <= 33
  /\ exists cardOps,
       ops (layoutClimber 4 exampleAssignments (CStr "Spring Open") 2 5
              (CStr "Flash counts double") (CStr "Boulder") (mkLayout 30 1 [] []) ann)
       = ([] ++ cardOps)%list
       /\ (currentRow (layoutClimber 4 exampleAssignments (CStr "Spring Open") 2 5
                         (CStr "Flash counts double") (CStr "Boulder")
                         (mkLayout 30 1 [] []) ann) - 30)
          + doubleRows cardOps
          = 34 + (if Z.rem 1 2 =? 0 then 0
                  else if gapAfter 4 1 (len (@nil Skipped.t)) then 2 else 0).
Proof.
  assert (H1 : categoryClimbsOf exampleAssignments (category ann) <> [])
    by (vm_compute; discriminate).
  assert (H2 : 0 <= 2) by lia.
  assert (H3 : 6 + 2 * Z.min (len (categoryClimbsOf exampleAssignments (category ann))) 2
               + (if truthy (CStr "Flash counts double") then 2 else 0) <= 33)
    by (vm_compute; discriminate).
  split; [exact H1|]. split; [exact H2|]. split; [exact H3|].
  exact (X20_card_height_constant 4 exampleAssignments (CStr "Spring Open") 2 5
           (CStr "Flash counts double") (CStr "Boulder") (mkLayout 30 1 [] []) ann
           H1 H2 H3).
Defined.



(* ================================================================== *)
(** * Further properties of the check-in lists and of the run *)
(* ================================================================== *)

(** X22: when the last names are text and no session token names a member
    of [Object.prototype], the check-in lists partition the climbers by
    session: together they hold every climber exactly as often as the list
    given does, no session has two lists, and a list holds climbers of its
    own session only. *)
Theorem X22_rosters_partition_by_session
    (localeCompare : string -> string -> Z) (climbers : list Climber) :
  (forall c, In c climbers -> isText (lastname c) = true) ->
  (forall c, In c climbers -> inheritedSession c = false) ->
  let rosters := checkInRosters localeCompare climbers in
  Permutation (flat_map snd rosters) climbers
  /\ NoDup (map fst rosters)
  /\ Forall (fun roster => Forall (fun c => session c = fst roster) (snd roster)) rosters.
Proof.
  intros _ Hown. cbv zeta.
  split; [apply rosters_partition; exact Hown|]. split; [apply rosters_distinct|].
  apply Forall_forall. intros [sess roster] Hin. simpl.
  eapply rosters_keyed. exact Hin.
Qed.

Lemma X22_rosters_partition_by_session_witness :
  let climbers :=
    [mkClimber (CStr "Ann") (CStr "Lee") "Ann Lee" (CNum 4) "F12" "2";
     mkClimber (CStr "Bob") (CStr "Ray") "Bob Ray" (CNum 6) "M10" "1";
     mkClimber (CStr "Eve") (CStr "Moss") "Eve Moss" (CNum 5) "F12" "2"] in
  (forall c, In c climbers -> isText (lastname c) = true)
  /\ (forall c, In c climbers -> inheritedSession c = false)
  /\ Permutation (flat_map snd (checkInRosters byCodeUnit climbers)) climbers
  /\ NoDup (map fst (checkInRosters byCodeUnit climbers))
  /\ Forall (fun roster => Forall (fun c => session c = fst roster) (snd roster))
       (checkInRosters byCodeUnit climbers).
Proof.
  cbv zeta.
  assert (H1 : forall c,
             In c [mkClimber (CStr "Ann") (CStr "Lee") "Ann Lee" (CNum 4) "F12" "2";
                   mkClimber (CStr "Bob") (CStr "Ray") "Bob Ray" (CNum 6) "M10" "1";
                   mkClimber (CStr "Eve") (CStr "Moss") "Eve Moss" (CNum 5) "F12" "2"] ->
             isText (lastname c) = true).
  { intros c [<- | [<- | [<- | []]]]; reflexivity. }
  assert (H2 : forall c,
             In c [mkClimber (CStr "Ann") (CStr "Lee") "Ann Lee" (CNum 4) "F12" "2";
                   mkClimber (CStr "Bob") (CStr "Ray") "Bob Ray" (CNum 6) "M10" "1";
                   mkClimber (CStr "Eve") (CStr "Moss") "Eve Moss" (CNum 5) "F12" "2"] ->
             inheritedSession c = false).
  { intros c [<- | [<- | [<- | []]]]; reflexivity. }
  split; [exact H1|]. split; [exact H2|].
  exact (X22_rosters_partition_by_session byCodeUnit _ H1 H2).
Defined.

(** X23: when the session token of every climber starts with a number, the
    check-in lists are made in ascending order of that number. *)
Theorem X23_rosters_ascending_for_numeric_sessions
    (localeCompare : string -> string -> Z) (climbers : list Climber) :
  (forall c, In c climbers -> parseInt (session c) <> None) ->
  StronglySorted (fun a b => sessionValue a <= sessionValue b)
    (map fst (checkInRosters localeCompare climbers)).
Proof. apply rosters_ascending. Qed.

Lemma X23_rosters_ascending_for_numeric_sessions_witness :
  let climbers :=
    [mkClimber (CStr "Ann") (CStr "Lee") "Ann Lee" (CNum 4) "F12" "10";
     mkClimber (CStr "Bob") (CStr "Ray") "Bob Ray" (CNum 6) "M10" "9";
     mkClimber (CStr "Eve") (CStr "Moss") "Eve Moss" (CNum 5) "F12" "03"] in
  (forall c, In c climbers -> parseInt (session c) <> None)
  /\ StronglySorted (fun a b => sessionValue a <= sessionValue b)
       (map fst (checkInRosters byCodeUnit climbers)).
Proof.
  cbv zeta.
  assert (H : forall c,
             In c [mkClimber (CStr "Ann") (CStr "Lee") "Ann Lee" (CNum 4) "F12" "10";
                   mkClimber (CStr "Bob") (CStr "Ray") "Bob Ray" (CNum 6) "M10" "9";
                   mkClimber (CStr "Eve") (CStr "Moss") "Eve Moss" (CNum 5) "F12" "03"] ->
             parseInt (session c) <> None).
  { intros c [<- | [<- | [<- | []]]]; vm_compute; discriminate. }
  split; [exact H|].
  exact (X23_rosters_ascending_for_numeric_sessions byCodeUnit _ H).
Defined.

Lemma rosterRowOps_columns (cs : list Climber) (index : Z) :
  Forall (fun op => 1 <= lastColumnWritten op <= 4) (rosterRowOps cs index).
Proof.
  revert index; induction cs as [|c cs IH]; intros index; simpl.
  - constructor.
  - repeat (apply Forall_cons; [cbn [lastColumnWritten]; lia|]). apply IH.
Qed.

(** X24: the fifth column of a check-in sheet holds its heading and
    nothing else: no row of a climber writes to it. *)
Theorem X24_checked_in_column_left_empty (sessionClimbers : list Climber) :
  Forall (fun op => lastColumnWritten op = 5 -> op = SetValue 1 5 (CStr "Checked In"))
    (rosterOps sessionClimbers).
Proof.
  unfold rosterOps. apply Forall_app; split; [|apply Forall_app; split].
  - repeat (apply Forall_cons;
            [cbn [lastColumnWritten]; intros H; try discriminate H; reflexivity|]).
    apply Forall_nil.
  - eapply Forall_impl; [|apply rosterRowOps_columns]. simpl. intros op H1 H2. lia.
  - repeat (apply Forall_cons; [cbn [lastColumnWritten]; intros H; discriminate H|]).
    apply Forall_nil.
Qed.

Lemma rosterRowOps_nth (cs : list Climber) (index : Z) (i : nat) (c : Climber) :
  nth_error cs i = Some c ->
  let row := index + Z.of_nat i + 2 in
  incl [SetValue row 1 (CStr (name c)); SetValue row 2 (CStr (category c));
        SetValue row 3 (CStr (session c)); SetValue row 4 (bib c)]
       (rosterRowOps cs index).
Proof.
  revert index i; induction cs as [|c0 cs IH]; intros index i Hnth; cbv zeta.
  - destruct i; discriminate Hnth.
  - destruct i as [|i]; simpl in Hnth.
    + injection Hnth as ->. cbn [rosterRowOps].
      replace (index + Z.of_nat 0 + 2) with (index + 2) by lia.
      intros op Hop. apply in_or_app. left. exact Hop.
    + cbn [rosterRowOps]. intros op Hop. apply in_or_app. right.
      specialize (IH (index + 1) i Hnth). cbv zeta in IH.
      replace (index + 1 + Z.of_nat i + 2) with (index + Z.of_nat (S i) + 2) in IH by lia.
      exact (IH op Hop).
Qed.

(** X25: the climber at position [i] of a session (counting from 0) is
    written to row [i + 2] of the check-in sheet: name, category, session
    and bib in columns 1 to 4. *)
Theorem X25_roster_row_of_climber
    (sessionClimbers : list Climber) (i : nat) (c : Climber) :
  nth_error sessionClimbers i = Some c ->
  let row := Z.of_nat i + 2 in
  incl [SetValue row 1 (CStr (name c)); SetValue row 2 (CStr (category c));
        SetValue row 3 (CStr (session c)); SetValue row 4 (bib c)]
       (rosterOps sessionClimbers).
Proof.
  intros Hnth. cbv zeta. unfold rosterOps. intros op Hop.
  apply in_or_app. right. apply in_or_app. left.
  pose proof (rosterRowOps_nth sessionClimbers 0 i c Hnth) as H. cbv zeta in H.
  replace (0 + Z.of_nat i + 2) with (Z.of_nat i + 2) in H by lia.
  exact (H op Hop).
Qed.

Lemma X25_roster_row_of_climber_witness :
  nth_error [ann; eve] 1 = Some eve
  /\ incl [SetValue 3 1 (CStr "Eve Moss"); SetValue 3 2 (CStr "F12");
           SetValue 3 3 (CStr "3"); SetValue 3 4 (CNum 5)]
          (rosterOps [ann; eve]).
Proof.
  assert (H : nth_error [ann; eve] 1 = Some eve) by reflexivity.
  split; [exact H|].
  exact (X25_roster_row_of_climber [ann; eve] 1 eve H).
Defined.

Section RunFacts.

Variable localeCompare : string -> string -> Z.

Lemma writeRoster_writes (acc : list Effect * list string)
    (roster : string * list Climber) :
  Forall (fun e => isWrite e = true) (fst acc) ->
  Forall (fun e => isWrite e = true) (fst (writeRoster acc roster)).
Proof.
  destruct acc as [effects sheets], roster as [sess cs]. cbn [writeRoster fst]. intros H.
  apply Forall_app; split; [exact H|].
  apply Forall_app; split; [|apply Forall_app; split].
  - destruct (hasSheet sheets (checkInSheetName sess));
      [apply Forall_cons; [reflexivity | apply Forall_nil] | apply Forall_nil].
  - apply Forall_cons; [reflexivity | apply Forall_nil].
  - apply Forall_forall. intros e He. apply in_map_iff in He as (op & <- & _). reflexivity.
Qed.

Lemma createCheckInLists_writes (sheets : list string) (climbers : list Climber)
    (lists : list Effect * list string) :
  createCheckInLists localeCompare sheets climbers = Some lists ->
  Forall (fun e => isWrite e = true) (fst lists).
Proof.
  unfold createCheckInLists.
  destruct (groupBySession climbers); [|discriminate]. intros H. injection H as <-.
  assert (H : forall rosters acc,
             Forall (fun e => isWrite e = true) (fst acc) ->
             Forall (fun e => isWrite e = true) (fst (fold_left writeRoster rosters acc))).
  { induction rosters as [|r rosters IH]; intros acc Hacc; simpl; [exact Hacc|].
    apply IH. apply writeRoster_writes. exact Hacc. }
  apply H. constructor.
Qed.

(** [createCheckInLists] raises exactly when the grouping does. *)
Lemma createCheckInLists_raises (sheets : list string) (climbers : list Climber) :
  createCheckInLists localeCompare sheets climbers = None
  <-> existsb inheritedSession climbers = true.
Proof.
  rewrite <- groupBySession_raises. unfold createCheckInLists.
  destruct (groupBySession climbers); split; intros H; try discriminate H; reflexivity.
Qed.

Lemma writeRoster_inserted (acc : list Effect * list string)
    (roster : string * list Climber) :
  insertedSheets (fst (writeRoster acc roster))
  = (insertedSheets (fst acc) ++ [checkInSheetName (fst roster)])%list.
Proof.
  assert (Happ : forall a b, insertedSheets (a ++ b)
                             = (insertedSheets a ++ insertedSheets b)%list).
  { induction a as [|e a IH]; intros b; simpl; [reflexivity|].
    destruct e; simpl; rewrite ?IH; reflexivity. }
  destruct acc as [effects sheets], roster as [sess cs]. cbn [writeRoster fst].
  rewrite !Happ. f_equal.
  assert (Hmap : forall l, insertedSheets (map (OnSheet (checkInSheetName sess)) l) = []).
  { induction l as [|op l IH]; simpl; [reflexivity | exact IH]. }
  rewrite Hmap.
  destruct (hasSheet sheets (checkInSheetName sess)); reflexivity.
Qed.

End RunFacts.

(** X26: with last names that are text, [createCheckInLists] raises exactly
    when the session token of some climber names a member of
    [Object.prototype], and then before it inserts a sheet; otherwise one
    check-in sheet is inserted for each check-in list, in their order, under
    the name "Session <token> Check-in List", and nothing else is inserted. *)
Theorem X26_one_sheet_per_session
    (localeCompare : string -> string -> Z) (sheets : list string)
    (climbers : list Climber) :
  (forall c, In c climbers -> isText (lastname c) = true) ->
  match createCheckInLists localeCompare sheets climbers with
  | Some lists =>
      (forall c, In c climbers -> inheritedSession c = false)
      /\ insertedSheets (fst lists)
         = map (fun roster => "Session " ++ fst roster ++ " Check-in List")%string
             (checkInRosters localeCompare climbers)
  | None => exists c, In c climbers /\ inheritedSession c = true
  end.
Proof.
  intros _.
  destruct (createCheckInLists localeCompare sheets climbers) as [lists|] eqn:E.
  - split.
    + intros c Hc. destruct (inheritedSession c) eqn:Ec; [|reflexivity].
      assert (Hnone : createCheckInLists localeCompare sheets climbers = None);
        [|congruence].
      apply createCheckInLists_raises. apply existsb_exists. exists c. auto.
    + unfold createCheckInLists in E.
      destruct (groupBySession climbers); [|discriminate]. injection E as <-.
      assert (H : forall rosters acc,
                 insertedSheets (fst (fold_left (writeRoster) rosters acc))
                 = (insertedSheets (fst acc)
                    ++ map (fun roster => checkInSheetName (fst roster)) rosters)%list).
      { induction rosters as [|r rosters IH]; intros acc; simpl.
        - rewrite app_nil_r. reflexivity.
        - rewrite IH, writeRoster_inserted, <- app_assoc. reflexivity. }
      rewrite H. reflexivity.
  - apply createCheckInLists_raises in E. apply existsb_exists in E. exact E.
Qed.

Lemma X26_one_sheet_per_session_witness :
  let climbers :=
    [mkClimber (CStr "Ann") (CStr "Lee") "Ann Lee" (CNum 4) "F12" "2";
     mkClimber (CStr "Bob") (CStr "Ray") "Bob Ray" (CNum 6) "M10" "1"] in
  (forall c, In c climbers -> isText (lastname c) = true)
  /\ match createCheckInLists byCodeUnit ["Queue Cards"] climbers with
     | Some lists =>
         (forall c, In c climbers -> inheritedSession c = false)
         /\ insertedSheets (fst lists)
            = map (fun roster => "Session " ++ fst roster ++ " Check-in List")%string
                (checkInRosters byCodeUnit climbers)
     | None => exists c, In c climbers /\ inheritedSession c = true
     end.
Proof.
  cbv zeta.
  assert (H : forall c,
             In c [mkClimber (CStr "Ann") (CStr "Lee") "Ann Lee" (CNum 4) "F12" "2";
                   mkClimber (CStr "Bob") (CStr "Ray") "Bob Ray" (CNum 6) "M10" "1"] ->
             isText (lastname c) = true).
  { intros c [<- | [<- | []]]; reflexivity. }
  split; [exact H|].
  exact (X26_one_sheet_per_session byCodeUnit ["Queue Cards"] _ H).
Defined.

(** X27: when the last names of the registered climbers are text, every run
    ends with exactly one final event, after everything the run writes: a
    message to the operator, or the exception of the grouping when the
    session token of a registered climber names a member of
    [Object.prototype]. *)
Theorem X27_one_final_event
    (localeCompare : string -> string -> Z) (ss : Spreadsheet) :
  (forall registration c,
     registrationSheet ss = Some registration ->
     In c (validClimbers (parseClimberData localeCompare registration)) ->
     isText (lastname c) = true) ->
  exists writes final,
    generateScorecards localeCompare ss = (writes ++ [final])%list
    /\ Forall (fun e => isWrite e = true) writes
    /\ ((exists message, final = Alert message)
        \/ (final = Uncaught pushTypeError
            /\ exists registration c,
                 registrationSheet ss = Some registration
                 /\ In c (validClimbers (parseClimberData localeCompare registration))
                 /\ inheritedSession c = true)).
Proof.
  intros _. unfold generateScorecards.
  destruct (summarySheet ss) as [summary|];
    [|exists []; eexists; split; [reflexivity | split; [constructor | left; eauto]]].
  destruct (negb (truthy (B1 summary)) || (B2 summary =? 0) || (B3 summary =? 0)
            || negb (truthy (B4 summary)));
    [exists []; eexists; split; [reflexivity | split; [constructor | left; eauto]]|].
  destruct (negb (String.eqb (trim (toLowerCase (toString (B4 summary)))) "boulder")
            && negb (String.eqb (trim (toLowerCase (toString (B4 summary)))) "rope"));
    [exists []; eexists; split; [reflexivity | split; [constructor | left; eauto]]|].
  destruct (climbsSheet ss) as [climbsData|];
    [|exists []; eexists; split; [reflexivity | split; [constructor | left; eauto]]].
  assert (Hqueue : Forall (fun e => isWrite e = true)
                     ((if hasSheet (otherSheets ss) queueCards
                       then [DeleteSheet queueCards] else [])
                      ++ [InsertSheet queueCards; SetHiddenGridlines queueCards])).
  { destruct (hasSheet (otherSheets ss) queueCards); repeat constructor. }
  destruct (registrationSheet ss) as [registration|];
    [|eexists; eexists; split; [reflexivity | split; [exact Hqueue | left; eauto]]].
  destruct (len (validClimbers (parseClimberData localeCompare registration)) =? 0);
    [eexists; eexists; split; [reflexivity | split; [exact Hqueue | left; eauto]]|].
  assert (Hcards : forall l, Forall (fun e => isWrite e = true)
                               (map (OnSheet queueCards) l)).
  { intros l. apply Forall_forall. intros e He.
    apply in_map_iff in He as (op & <- & _). reflexivity. }
  destruct (createCheckInLists localeCompare
              (removeSheet (otherSheets ss) queueCards ++ [queueCards])
              (validClimbers (parseClimberData localeCompare registration)))
    as [lists|] eqn:E.
  - eexists. eexists. split; [rewrite !app_assoc; reflexivity|].
    split; [|left; eauto].
    apply Forall_app; split; [apply Forall_app; split|].
    + exact Hqueue.
    + apply Hcards.
    + apply (createCheckInLists_writes localeCompare _ _ _ E).
  - eexists. eexists. split; [rewrite !app_assoc; reflexivity|].
    split.
    + apply Forall_app; split; [exact Hqueue | apply Hcards].
    + right. split; [reflexivity|].
      apply createCheckInLists_raises in E. apply existsb_exists in E as (c & Hc & Hs).
      exists registration, c. auto.
Qed.

Lemma X27_one_final_event_witness :
  let ss :=
    mkSpreadsheet (Some exampleSummary) (Some exampleClimbs) (Some oneClimber)
      [] 1000 26 in
  (forall registration c,
     registrationSheet ss = Some registration ->
     In c (validClimbers (parseClimberData byCodeUnit registration)) ->
     isText (lastname c) = true)
  /\ exists writes final,
       generateScorecards byCodeUnit ss = (writes ++ [final])%list
       /\ Forall (fun e => isWrite e = true) writes
       /\ ((exists message, final = Alert message)
           \/ (final = Uncaught pushTypeError
               /\ exists registration c,
                    registrationSheet ss = Some registration
                    /\ In c (validClimbers (parseClimberData byCodeUnit registration))
                    /\ inheritedSession c = true)).
Proof.
  cbv zeta.
  match goal with
  | |- ?H /\ _ => assert (Htext : H)
  end.
  { intros registration c Hreg. injection Hreg as <-.
    intros [<- | []]. reflexivity. }
  split; [exact Htext|].
  exact (X27_one_final_event byCodeUnit _ Htext).
Defined.

(** X4: each of the conditions tested before the Queue Cards sheet is
    touched (no Summary sheet, an empty B1 to B4, an event type that is
    neither boulder nor rope, no Climbs sheet) ends the run with one message
    and without any write. *)
Theorem X4_early_abort_writes_nothing
    (localeCompare : string -> string -> Z) (ss : Spreadsheet) :
  summarySheet ss = None
  \/ (exists summary, summarySheet ss = Some summary
        /\ (truthy (B1 summary) = false \/ B2 summary = 0 \/ B3 summary = 0
            \/ truthy (B4 summary) = false
            \/ (trim (toLowerCase (toString (B4 summary))) <> "boulder"
                /\ trim (toLowerCase (toString (B4 summary))) <> "rope")
            \/ climbsSheet ss = None)) ->
  exists message, generateScorecards localeCompare ss = [Alert message].
Proof. apply early_abort_writes_nothing. Qed.

Lemma X4_early_abort_writes_nothing_witness :
  let ss :=
    mkSpreadsheet (Some (mkSummary (CStr "Spring Open") 3 5 (CStr "Speed") (CStr EmptyString)))
      (Some exampleClimbs) (Some [exampleHeader]) ["Queue Cards"] 1000 26 in
  (summarySheet ss = None
   \/ (exists summary, summarySheet ss = Some summary
         /\ (truthy (B1 summary) = false \/ B2 summary = 0 \/ B3 summary = 0
             \/ truthy (B4 summary) = false
             \/ (trim (toLowerCase (toString (B4 summary))) <> "boulder"
                 /\ trim (toLowerCase (toString (B4 summary))) <> "rope")
             \/ climbsSheet ss = None)))
  /\ exists message, generateScorecards byCodeUnit ss = [Alert message].
Proof.
  cbv zeta.
  match goal with
  | |- ?H /\ _ =>
      assert (Hcond : H)
  end.
  { right. eexists. split; [reflexivity|].
    right. right. right. right. left. split; vm_compute; discriminate. }
  split; [exact Hcond|].
  exact (X4_early_abort_writes_nothing byCodeUnit _ Hcond).
Defined.

(** X28: the header row of the Climbs sheet is not read, and a row without
    a category or without climbs leaves no trace: the assignments are those
    of the sheet without that row, under any header. *)
Theorem X28_unfilled_assignment_rows_ignored
    (header header' row : list cell) (before after : list (list cell)) :
  truthy (orEmpty (at_ row 0)) = false \/ truthy (orEmpty (at_ row 1)) = false ->
  parseClimbAssignments (header :: before ++ row :: after)
  = parseClimbAssignments (header' :: before ++ after).
Proof.
  intros Hrow. unfold parseClimbAssignments. simpl tl.
  apply fold_left_skip. intros a. unfold assignmentRow.
  destruct (at_ row 0) as [c|]; [|reflexivity].
  destruct (at_ row 1) as [s|]; [|reflexivity].
  cbn [orEmpty] in Hrow.
  destruct (truthy c) eqn:Ec, (truthy s) eqn:Es; try reflexivity.
  destruct Hrow as [H | H]; congruence.
Qed.

Lemma X28_unfilled_assignment_rows_ignored_witness :
  (truthy (orEmpty (at_ [CStr "M10"; CStr EmptyString] 0)) = false
   \/ truthy (orEmpty (at_ [CStr "M10"; CStr EmptyString] 1)) = false)
  /\ parseClimbAssignments
       ([CStr "Category"; CStr "Climbs"]
        :: [[CStr "F12"; CStr "101, 102, 103"]] ++ [CStr "M10"; CStr EmptyString] :: [])
     = parseClimbAssignments
         ([CStr "Division"; CStr "Routes"]
          :: [[CStr "F12"; CStr "101, 102, 103"]] ++ []).
Proof.
  assert (H : truthy (orEmpty (at_ [CStr "M10"; CStr EmptyString] 0)) = false
              \/ truthy (orEmpty (at_ [CStr "M10"; CStr EmptyString] 1)) = false)
    by (right; reflexivity).
  split; [exact H|].
  exact (X28_unfilled_assignment_rows_ignored
           [CStr "Category"; CStr "Climbs"] [CStr "Division"; CStr "Routes"]
           [CStr "M10"; CStr EmptyString] [[CStr "F12"; CStr "101, 102, 103"]] [] H).
Defined.

(* ================================================================== *)
(** * Numbers in ticket cells *)
(* ================================================================== *)

(** One step of [parseDigits] on a decimal digit. *)
Ltac read_digit c k :=
  cbn [parseDigits];
  replace (digitVal c) with (Some k) by reflexivity;
  cbv beta iota;
  replace (k <? 10) with true by reflexivity;
  cbv beta iota.

Lemma parseDigits_acc (d : Decimal.uint) (a : positive) :
  parseDigits 10 (NilEmpty.string_of_uint d) (Some (Z.pos a))
  = Some (Z.pos (Pos.of_uint_acc d a)).
Proof.
  revert a; induction d; intros a; cbn [NilEmpty.string_of_uint Pos.of_uint_acc].
  - reflexivity.
  - read_digit "0"%char 0. rewrite <- IHd. f_equal. f_equal. lia.
  - read_digit "1"%char 1. rewrite <- IHd. f_equal. f_equal. lia.
  - read_digit "2"%char 2. rewrite <- IHd. f_equal. f_equal. lia.
  - read_digit "3"%char 3. rewrite <- IHd. f_equal. f_equal. lia.
  - read_digit "4"%char 4. rewrite <- IHd. f_equal. f_equal. lia.
  - read_digit "5"%char 5. rewrite <- IHd. f_equal. f_equal. lia.
  - read_digit "6"%char 6. rewrite <- IHd. f_equal. f_equal. lia.
  - read_digit "7"%char 7. rewrite <- IHd. f_equal. f_equal. lia.
  - read_digit "8"%char 8. rewrite <- IHd. f_equal. f_equal. lia.
  - read_digit "9"%char 9. rewrite <- IHd. f_equal. f_equal. lia.
Qed.

Lemma parseDigits_start (d : Decimal.uint) (acc : option Z) :
  acc = None \/ acc = Some 0 ->
  parseDigits 10 (NilEmpty.string_of_uint d) acc
  = match d with
    | Decimal.Nil => acc
    | _ => Some (Z.of_N (Pos.of_uint d))
    end.
Proof.
  revert acc; induction d; intros acc Hacc;
    cbn [NilEmpty.string_of_uint Pos.of_uint].
  - reflexivity.
  - read_digit "0"%char 0.
    rewrite IHd.
    + destruct d; try reflexivity. destruct Hacc as [-> | ->]; reflexivity.
    + right. destruct Hacc as [-> | ->]; reflexivity.
  - read_digit "1"%char 1.
    replace (match acc with Some a => a | None => 0 end * 10 + 1) with (Z.pos 1)
      by (destruct Hacc as [-> | ->]; reflexivity).
    apply parseDigits_acc.
  - read_digit "2"%char 2.
    replace (match acc with Some a => a | None => 0 end * 10 + 2) with (Z.pos 2)
      by (destruct Hacc as [-> | ->]; reflexivity).
    apply parseDigits_acc.
  - read_digit "3"%char 3.
    replace (match acc with Some a => a | None => 0 end * 10 + 3) with (Z.pos 3)
      by (destruct Hacc as [-> | ->]; reflexivity).
    apply parseDigits_acc.
  - read_digit "4"%char 4.
    replace (match acc with Some a => a | None => 0 end * 10 + 4) with (Z.pos 4)
      by (destruct Hacc as [-> | ->]; reflexivity).
    apply parseDigits_acc.
  - read_digit "5"%char 5.
    replace (match acc with Some a => a | None => 0 end * 10 + 5) with (Z.pos 5)
      by (destruct Hacc as [-> | ->]; reflexivity).
    apply parseDigits_acc.
  - read_digit "6"%char 6.
    replace (match acc with Some a => a | None => 0 end * 10 + 6) with (Z.pos 6)
      by (destruct Hacc as [-> | ->]; reflexivity).
    apply parseDigits_acc.
  - read_digit "7"%char 7.
    replace (match acc with Some a => a | None => 0 end * 10 + 7) with (Z.pos 7)
      by (destruct Hacc as [-> | ->]; reflexivity).
    apply parseDigits_acc.
  - read_digit "8"%char 8.
    replace (match acc with Some a => a | None => 0 end * 10 + 8) with (Z.pos 8)
      by (destruct Hacc as [-> | ->]; reflexivity).
    apply parseDigits_acc.
  - read_digit "9"%char 9.
    replace (match acc with Some a => a | None => 0 end * 10 + 9) with (Z.pos 9)
      by (destruct Hacc as [-> | ->]; reflexivity).
    apply parseDigits_acc.
Qed.

Lemma option_map_mul_1 (x : option Z) : option_map (Z.mul 1) x = x.
Proof. destruct x as [z|]; [|reflexivity]. simpl. destruct z; reflexivity. Qed.

(** Every character but the ten digits fails the digit test. *)
Ltac digit_cases c H :=
  destruct c as [[] [] [] [] [] [] [] []]; try discriminate H.

(** On a string of digits [parseInt] reads the whole string in radix 10. *)
Lemma parseInt_digits (s : string) :
  allDigits s = true -> parseInt s = parseDigits 10 s None.
Proof.
  destruct s as [|c s]; [reflexivity|].
  cbn [allDigits]. intros H. apply andb_true_iff in H as [Hc Hs].
  unfold parseInt. cbn [trimStart]. rewrite (digit_not_white c Hc).
  digit_cases c Hc; try apply option_map_mul_1.
  destruct s as [|c2 s]; [reflexivity|].
  cbn [allDigits] in Hs. apply andb_true_iff in Hs as [Hc2 _].
  digit_cases c2 Hc2; apply option_map_mul_1.
Qed.

Lemma takeDigits_all (s : string) : allDigits s = true -> takeDigits s = s.
Proof.
  induction s as [|c s IH]; simpl; intros H; [reflexivity|].
  apply andb_true_iff in H as [Hc Hs]. rewrite Hc, (IH Hs). reflexivity.
Qed.

Lemma matchDigits_all (s : string) :
  s <> EmptyString -> allDigits s = true -> matchDigits s = Some s.
Proof.
  destruct s as [|c s]; [congruence|]. intros _ H.
  pose proof (takeDigits_all _ H) as Ht.
  cbn [allDigits] in H. apply andb_true_iff in H as [Hc _].
  cbn [matchDigits]. rewrite Hc, Ht. reflexivity.
Qed.

Lemma string_of_uint_digits (d : Decimal.uint) :
  allDigits (NilEmpty.string_of_uint d) = true.
Proof. induction d; simpl; try reflexivity; exact IHd. Qed.

Lemma numToString_pos (p : positive) :
  numToString (Z.pos p) = NilEmpty.string_of_uint (Pos.to_uint p)
  /\ Pos.to_uint p <> Decimal.Nil.
Proof.
  assert (Hne : Pos.to_uint p <> Decimal.Nil).
  { intros H. pose proof (DecimalPos.Unsigned.of_to p) as Hof.
    rewrite H in Hof. discriminate Hof. }
  split; [|exact Hne].
  unfold numToString. cbn [Z.to_int NilZero.string_of_int].
  unfold NilZero.string_of_uint. destruct (Pos.to_uint p); congruence.
Qed.

(** X29: a positive number up to [MAX_SAFE_INTEGER] in a ticket cell
    registers the climber for the session of that number: the cell counts as
    filled, the session token is the decimal text of the number, and the
    token reads back as the number. *)
Theorem X29_numeric_ticket_cell (n : Z) :
  0 < n <= MAX_SAFE_INTEGER ->
  let text := toString (CNum n) in
  truthy (CNum n) = true
  /\ trim text <> EmptyString
  /\ sessionToken text = numToString n
  /\ parseInt (sessionToken text) = Some n.
Proof.
  intros [Hn _]. cbv zeta. cbn [toString].
  destruct n as [|p|p]; try lia.
  destruct (numToString_pos p) as [Hstr Hne].
  assert (Hdigits : allDigits (numToString (Z.pos p)) = true)
    by (rewrite Hstr; apply string_of_uint_digits).
  assert (Hnonempty : numToString (Z.pos p) <> EmptyString).
  { rewrite Hstr. destruct (Pos.to_uint p); simpl; congruence. }
  assert (Htoken : sessionToken (numToString (Z.pos p)) = numToString (Z.pos p)).
  { unfold sessionToken. rewrite (matchDigits_all _ Hnonempty Hdigits). reflexivity. }
  split; [reflexivity|]. split; [|split; [exact Htoken|]].
  - intros Htrim. apply trim_empty_allWhite in Htrim.
    destruct (numToString (Z.pos p)) as [|c s]; [congruence|].
    cbn [allDigits allWhite] in *.
    apply andb_true_iff in Hdigits as [Hc _].
    rewrite (digit_not_white c Hc) in Htrim. discriminate Htrim.
  - rewrite Htoken, (parseInt_digits _ Hdigits), Hstr.
    rewrite parseDigits_start by (left; reflexivity).
    destruct (Pos.to_uint p) eqn:E; try congruence;
      rewrite <- E, DecimalPos.Unsigned.of_to; reflexivity.
Qed.

Lemma X29_numeric_ticket_cell_witness :
  0 < 12 <= MAX_SAFE_INTEGER
  /\ truthy (CNum 12) = true
  /\ trim (toString (CNum 12)) <> EmptyString
  /\ sessionToken (toString (CNum 12)) = numToString 12
  /\ parseInt (sessionToken (toString (CNum 12))) = Some 12.
Proof.
  assert (H : 0 < 12 <= MAX_SAFE_INTEGER) by (unfold MAX_SAFE_INTEGER; lia).
  split; [exact H|].
  exact (X29_numeric_ticket_cell 12 H).
Defined.
